(** * AquaShield water-quality microservice: model and verification

    A shallow embedding of the prediction microservice
    ([microservice/main/predict.py], [download.py], [main.py], [train.py])
    together with the properties of its prediction-serving contract.

    Python values are modelled as follows.
    - floats: [pyfloat], the rationals extended with the two infinities and
      NaN; comparisons follow IEEE 754 (every comparison with NaN is false).
      Rounding to binary64 is not modelled.
    - JSON documents / the Python objects [json.loads] produces: [json].
    - exceptions: a result type [result] and a state-and-exception monad [M].
    - scikit-learn estimators (classifier, scaler, imputer): records of
      methods, [pyobj]; a missing method raises [AttributeError].
    - the file system: a finite map from path strings to file contents.
    Library functions whose behaviour is not part of this repository are
    taken as parameters: pandas' DataFrame constructor and Python's float
    parser and formatter through the class [Runtime], the data split, the
    estimators and the metric of the training script through [Learner]. *)

From Stdlib Require Import ZArith QArith String Ascii List Bool Lia.
From stdpp Require Import base option list strings gmap pretty.
Close Scope Q_scope.
Import ListNotations.
Set Warnings "-register-all".

(** ** Python values, exceptions and effects *)

Module Py.

(** The exception classes the service raises or catches. *)
Inductive exn_kind :=
| ValueError | TypeError | OverflowError | KeyError | IndexError
| AttributeError | FileNotFoundError | Exception.

Record exn := Raise { exn_class : exn_kind; exn_msg : string }.

Inductive result (A : Type) :=
| Ok (a : A)
| Err (e : exn).
Arguments Ok {A} a.
Arguments Err {A} e.

Definition is_ok {A} (r : result A) : bool :=
  match r with Ok _ => true | Err _ => false end.

Definition exn_kind_eqb (a b : exn_kind) : bool :=
  match a, b with
  | ValueError, ValueError | TypeError, TypeError
  | OverflowError, OverflowError | KeyError, KeyError
  | IndexError, IndexError | AttributeError, AttributeError
  | FileNotFoundError, FileNotFoundError | Exception, Exception => true
  | _, _ => false
  end.

(** [isinstance(e, cls)]: every class is a subclass of [Exception]. *)
Definition isinstance (e : exn) (cls : exn_kind) : bool :=
  match cls with
  | Exception => true
  | _ => exn_kind_eqb (exn_class e) cls
  end.

(** Floats. *)
Inductive pyfloat :=
| Fin (q : Q)
| PosInf
| NegInf
| NaN.

(** [a <= b] on floats. *)
Definition float_le (a b : pyfloat) : bool :=
  match a, b with
  | NaN, _ | _, NaN => false
  | NegInf, _ => true
  | _, PosInf => true
  | PosInf, _ => false
  | _, NegInf => false
  | Fin x, Fin y => Qle_bool x y
  end.

(** [a > b] on floats. *)
Definition float_gt (a b : pyfloat) : bool :=
  match a, b with
  | NaN, _ | _, NaN => false
  | PosInf, PosInf => false
  | PosInf, _ => true
  | _, PosInf => false
  | NegInf, _ => false
  | Fin _, NegInf => true
  | Fin x, Fin y => negb (Qle_bool x y)
  end.

(** An [int] used where a float is compared or converted. *)
Definition of_int (z : Z) : pyfloat := Fin (inject_Z z).

(** The Python objects [json.loads] builds. A dict is kept as its list
    of items; the first item with a given key is the binding. *)
Inductive json :=
| JNull
| JBool (b : bool)
| JInt (z : Z)
| JFloat (f : pyfloat)
| JStr (s : string)
| JArr (l : list json)
| JObj (items : list (string * json)).

Fixpoint assoc {A} (k : string) (l : list (string * A)) : option A :=
  match l with
  | [] => None
  | (k', v) :: l' => if String.eqb k k' then Some v else assoc k l'
  end.

(** Truthiness, as used by [if not data]. *)
Definition truthy (j : json) : bool :=
  match j with
  | JNull => false
  | JBool b => b
  | JInt z => negb (Z.eqb z 0)
  | JFloat (Fin q) => negb (Qeq_bool q 0)
  | JFloat _ => true
  | JStr s => negb (String.eqb s "")
  | JArr l => match l with [] => false | _ => true end
  | JObj kv => match kv with [] => false | _ => true end
  end.

(** Is [pat] a prefix of [s]?  ([str.startswith]) *)
Fixpoint startswith (s pat : string) {struct pat} : bool :=
  match pat, s with
  | EmptyString, _ => true
  | String _ _, EmptyString => false
  | String a pat', String b s' => Ascii.eqb a b && startswith s' pat'
  end.

(** Substring test, [pat in s] on strings. *)
Fixpoint contains (s pat : string) : bool :=
  startswith s pat ||
  match s with
  | EmptyString => false
  | String _ s' => contains s' pat
  end.

(** Equality of a JSON scalar with a string key, as [==] computes it
    when [in] scans a list. *)
Definition json_eq_str (j : json) (k : string) : bool :=
  match j with
  | JStr s => String.eqb s k
  | _ => false
  end.

(** [k in data]. *)
Definition py_in (k : string) (data : json) : result bool :=
  match data with
  | JObj kv => Ok (bool_decide (is_Some (assoc k kv)))
  | JArr l => Ok (existsb (fun j => json_eq_str j k) l)
  | JStr s => Ok (contains s k)
  | _ => Err (Raise TypeError "argument is not iterable")
  end.

(** [data[k]] for a string key [k]. *)
Definition getitem (data : json) (k : string) : result json :=
  match data with
  | JObj kv =>
      match assoc k kv with
      | Some v => Ok v
      | None => Err (Raise KeyError k)
      end
  | JArr _ => Err (Raise TypeError "list indices must be integers or slices, not str")
  | JStr _ => Err (Raise TypeError "string indices must be integers, not 'str'")
  | _ => Err (Raise TypeError "object is not subscriptable")
  end.

(** The largest finite binary64 value is [2^1024 - 2^971]; an integer
    at or beyond the midpoint [2^1024 - 2^970] rounds out of range and
    [float] raises [OverflowError]. *)
Definition float_overflow_bound : Z := 2 ^ 1024 - 2 ^ 970.

(** What estimators consume and produce: a pandas DataFrame (column
    labels and values) or a bare numpy array. *)
Inductive array_like :=
| DataFrame (columns : json) (values : list (list pyfloat))
| NdArray (values : list (list pyfloat)).

(** Library behaviour that the repository relies on but does not define. *)
Class Runtime := {
  (** [float(s)] on a string: the parsed value, or [None] when Python
      raises [ValueError]. *)
  float_of_str : string -> option pyfloat;
  (** [f"{value}"] for a float. *)
  format_float : pyfloat -> string;
  (** [pd.DataFrame(data, columns=names)]; pandas raises when the
      labels do not fit the data. *)
  pd_DataFrame : list (list pyfloat) -> json -> result array_like;
}.

(** [float(x)]. *)
Definition py_float `{Runtime} (x : json) : result pyfloat :=
  match x with
  | JFloat f => Ok f
  | JInt z =>
      if (Z.abs z <? float_overflow_bound)%Z then Ok (of_int z)
      else Err (Raise OverflowError "int too large to convert to float")
  | JBool b => Ok (of_int (if b then 1 else 0))
  | JStr s =>
      match float_of_str s with
      | Some f => Ok f
      | None => Err (Raise ValueError ("could not convert string to float: " +:+ s))
      end
  | JNull | JArr _ | JObj _ =>
      Err (Raise TypeError "float() argument must be a string or a real number")
  end.

(** [max(xs)]: the running maximum is replaced only by an item that
    compares greater, so the first maximal item wins; [ValueError] on
    the empty sequence. *)
Definition py_max_by {A} (gt : A -> A -> bool) (xs : list A) : result A :=
  match xs with
  | [] => Err (Raise ValueError "max() arg is an empty sequence")
  | x :: xs' => Ok (fold_left (fun m y => if gt y m then y else m) xs' x)
  end.

Definition py_max (xs : list pyfloat) : result pyfloat := py_max_by float_gt xs.

(** [a > b] on strings: lexicographic by character code. *)
Definition str_gt (a b : string) : bool :=
  match String.compare a b with Gt => true | _ => false end.

Definition py_max_str (xs : list string) : result string := py_max_by str_gt xs.

(** [xs[i]] on a sequence. *)
Definition index {A} (xs : list A) (i : nat) : result A :=
  match xs !! i with
  | Some x => Ok x
  | None => Err (Raise IndexError "index out of range")
  end.

(** State-and-exception monad: a Python call may change the state and
    then either return or raise; state changes survive a raise. *)
Definition M (S A : Type) : Type := S -> result A * S.

Definition ret {S A} (a : A) : M S A := fun s => (Ok a, s).
Definition raise {S A} (e : exn) : M S A := fun s => (Err e, s).
Definition bind {S A B} (m : M S A) (k : A -> M S B) : M S B :=
  fun s => match m s with
           | (Ok a, s') => k a s'
           | (Err e, s') => (Err e, s')
           end.
Definition lift {S A} (r : result A) : M S A := fun s => (r, s).
Definition get {S} : M S S := fun s => (Ok s, s).
Definition modify {S} (f : S -> S) : M S unit := fun s => (Ok tt, f s).

(** [try: m except C1 as e: h1 e except C2 as e: h2 e ...]: the first
    clause whose classes match handles the exception; an exception
    raised by a handler is not handled by a later clause. *)
Fixpoint dispatch {S A} (e : exn) (clauses : list (list exn_kind * (exn -> M S A))) : M S A :=
  match clauses with
  | [] => raise e
  | (cls, h) :: rest => if existsb (isinstance e) cls then h e else dispatch e rest
  end.

Definition try_except {S A} (m : M S A) (clauses : list (list exn_kind * (exn -> M S A))) : M S A :=
  fun s => match m s with
           | (Ok a, s') => (Ok a, s')
           | (Err e, s') => dispatch e clauses s'
           end.

End Py.
Export Py.

Declare Scope py_scope.
Delimit Scope py_scope with py.
Notation "x <- m ;; k" := (Py.bind m (fun x => k))
  (at level 100, m at next level, right associativity) : py_scope.
Notation "m ;;; k" := (Py.bind m (fun _ => k))
  (at level 100, right associativity) : py_scope.

Local Open Scope py_scope.
Local Open Scope string_scope.

(** ** The world the service runs in *)

Module World.

(** The nine measurements of one water sample, in the order every
    function of the service takes them. *)
Record sample := Sample {
  ph : pyfloat;
  hardness : pyfloat;
  solids : pyfloat;
  chloramines : pyfloat;
  sulfate : pyfloat;
  conductivity : pyfloat;
  organic_carbon : pyfloat;
  trihalomethanes : pyfloat;
  turbidity : pyfloat;
}.

(** A scikit-learn object, seen through the methods the service calls.
    A method the object lacks raises [AttributeError]. *)
Record pyobj := PyObj {
  type_name : string;
  transform : array_like -> result array_like;
  predict : array_like -> result (list Z);
  predict_proba : array_like -> result (list (list pyfloat));
}.

(** The dictionary [load_trained_model] returns. *)
Record components := Components {
  model : pyobj;
  scaler : pyobj;
  imputer : pyobj;
  metadata : json;
}.

Inductive file :=
| PickleFile (o : pyobj)
| JsonFile (j : json).

Record datetime := DateTime {
  year : nat; month : nat; day : nat;
  hour : nat; minute : nat; second : nat;
}.

(** Calls whose order or absence the properties speak about. *)
Inductive event :=
| GetJson
| ValidateInput (x : sample)
| PredictWaterQuality (x : sample)
| ImputerTransform (x : array_like)
| ScalerTransform (x : array_like)
| ModelPredict (x : array_like)
| ModelPredictProba (x : array_like).

Record state := State {
  files : gmap string file;            (* regular files, by path *)
  dirs : gset string;                  (* directories, by path *)
  now : datetime;                      (* what [datetime.now()] reads *)
  model_loaded : bool;                 (* [main.model_loaded] *)
  _model_components : option components; (* [predict._model_components] *)
  trace : list event;                  (* calls made so far, oldest first *)
}.

Definition set_files (f : gmap string file -> gmap string file) (s : state) : state :=
  State (f (files s)) (dirs s) (now s) (model_loaded s) (_model_components s) (trace s).
Definition set_dirs (f : gset string -> gset string) (s : state) : state :=
  State (files s) (f (dirs s)) (now s) (model_loaded s) (_model_components s) (trace s).
Definition set_model_loaded (b : bool) (s : state) : state :=
  State (files s) (dirs s) (now s) b (_model_components s) (trace s).
Definition set_model_components (c : option components) (s : state) : state :=
  State (files s) (dirs s) (now s) (model_loaded s) c (trace s).
Definition record_event (e : event) (s : state) : state :=
  State (files s) (dirs s) (now s) (model_loaded s) (_model_components s) (app (trace s) [e]).

Definition emit (e : event) : M state unit := modify (record_event e).

(** *** Formatting the clock *)

Definition digit (n : nat) : ascii := ascii_of_nat (48 + n mod 10).

(** [w] decimal digits of [n], most significant first. *)
Fixpoint digits (w n : nat) : string :=
  match w with
  | O => EmptyString
  | S w' => String (digit (n / 10 ^ w')) (digits w' (n mod 10 ^ w'))
  end.

(** [strftime("%Y%m%d_%H%M%S")], for years of four digits. *)
Definition strftime (d : datetime) : string :=
  digits 4 (year d) +:+ digits 2 (month d) +:+ digits 2 (day d) +:+ "_" +:+
  digits 2 (hour d) +:+ digits 2 (minute d) +:+ digits 2 (second d).

(** [isoformat()], to the second. *)
Definition isoformat (d : datetime) : string :=
  digits 4 (year d) +:+ "-" +:+ digits 2 (month d) +:+ "-" +:+ digits 2 (day d) +:+ "T" +:+
  digits 2 (hour d) +:+ ":" +:+ digits 2 (minute d) +:+ ":" +:+ digits 2 (second d).

(** *** Strings *)

(** [s.replace(pat, "")]: delete the occurrences of [pat], scanning
    left to right; [skip] counts the characters of a match still to
    drop. *)
Fixpoint remove_from (pat : string) (skip : nat) (s : string) : string :=
  match s with
  | EmptyString => EmptyString
  | String c s' =>
      match skip with
      | S k => remove_from pat k s'
      | O =>
          if startswith s pat && negb (String.eqb pat "")
          then remove_from pat (String.length pat - 1) s'
          else String c (remove_from pat 0 s')
      end
  end.

Definition remove_all (s pat : string) : string := remove_from pat 0 s.

(** [s] without the prefix [pre], when it has it. *)
Fixpoint strip_prefix (pre s : string) : option string :=
  match pre, s with
  | EmptyString, _ => Some s
  | String _ _, EmptyString => None
  | String a pre', String b s' =>
      if Ascii.eqb a b then strip_prefix pre' s' else None
  end.

(** *** The file system *)

(** [os.path.exists(p)]. *)
Definition path_exists (s : state) (p : string) : bool :=
  bool_decide (p ∈ dirs s) || bool_decide (is_Some (files s !! p)).

(** The directories above path [p], innermost first: its non-empty
    proper prefixes that end before a slash.  Paths are compared as they
    are spelled. *)
Fixpoint ancestors (p : string) : list string :=
  match p with
  | EmptyString => []
  | String c rest =>
      app (map (String c) (ancestors rest))
          (if startswith rest "/" then [String c EmptyString] else [])
  end.

(** Walking up from a path: is the nearest ancestor that exists a
    regular file?  Then nothing can be opened or created below it
    ([NotADirectoryError]). *)
Fixpoint under_file (s : state) (above : list string) : bool :=
  match above with
  | [] => false
  | a :: rest =>
      if bool_decide (a ∈ dirs s) then false
      else if bool_decide (is_Some (files s !! a)) then true
      else under_file s rest
  end.

(** [os.makedirs(p, exist_ok=True)]: every missing directory above [p]
    is created with it; a regular file at [p] or in the way above it is
    an error. *)
Definition makedirs (p : string) : M state unit :=
  s <- get ;;
  if String.eqb p ""
  then raise (Raise FileNotFoundError ("No such file or directory: " +:+ p))
  else if bool_decide (is_Some (files s !! p))
  then raise (Raise Exception ("FileExistsError: " +:+ p))
  else if under_file s (ancestors p)
  then raise (Raise Exception ("NotADirectoryError: " +:+ p))
  else modify (set_dirs (fun d => {[p]} ∪ list_to_set (ancestors p) ∪ d)).

(** The entry name of path [p] inside directory [d], if [p] lies
    directly in [d]. *)
Definition entry_of (d p : string) : option string :=
  match strip_prefix (d +:+ "/") p with
  | Some n => if contains n "/" || String.eqb n "" then None else Some n
  | None => None
  end.

(** [os.listdir(d)]: files and sub-directories directly in [d]. *)
Definition listdir (d : string) : M state (list string) :=
  s <- get ;;
  if bool_decide (d ∈ dirs s)
  then ret (app (omap (fun kv => entry_of d kv.1) (map_to_list (files s)))
                (omap (entry_of d) (elements (dirs s))))
  else if bool_decide (is_Some (files s !! d))
  then raise (Raise Exception ("NotADirectoryError: " +:+ d))
  else raise (Raise FileNotFoundError ("No such file or directory: " +:+ d)).

(** [joblib.dump(o, p)].  The callers create the directory first. *)
Definition joblib_dump (o : pyobj) (p : string) : M state unit :=
  modify (set_files (fun f => <[p := PickleFile o]> f)).

(** [json.dump(j, open(p, 'w'))]. *)
Definition json_dump (j : json) (p : string) : M state unit :=
  modify (set_files (fun f => <[p := JsonFile j]> f)).

(** What [open(p, 'r')] raises when no regular file is at [p]: [p] is a
    directory, or lies below a regular file, or does not exist.  Only
    the last is a [FileNotFoundError]. *)
Definition open_error (s : state) (p : string) : exn :=
  if bool_decide (p ∈ dirs s)
  then Raise Exception ("IsADirectoryError: " +:+ p)
  else if under_file s (ancestors p)
  then Raise Exception ("NotADirectoryError: " +:+ p)
  else Raise FileNotFoundError ("No such file or directory: " +:+ p).

(** [joblib.load(p)]. *)
Definition joblib_load (p : string) : M state pyobj :=
  s <- get ;;
  match files s !! p with
  | None => raise (open_error s p)
  | Some (PickleFile o) => ret o
  | Some (JsonFile _) => raise (Raise Exception ("UnpicklingError: " +:+ p))
  end.

(** [json.load(open(p, 'r'))]; a decoding error is a [ValueError]. *)
Definition json_load (p : string) : M state json :=
  s <- get ;;
  match files s !! p with
  | None => raise (open_error s p)
  | Some (JsonFile j) => ret j
  | Some (PickleFile _) => raise (Raise ValueError ("JSONDecodeError: " +:+ p))
  end.

End World.
Export World.

(** ** download.py: model persistence and prediction *)

Module Download.

(** One entry of the [results] dictionary built by the training script. *)
Record train_result := TrainResult {
  tr_model : pyobj;
  tr_accuracy : pyfloat;
  tr_predictions : list Z;
}.

(** [results[name]]. *)
Definition results_getitem (results : list (string * train_result)) (name : string)
  : result train_result :=
  match assoc name results with
  | Some r => Ok r
  | None => Err (Raise KeyError name)
  end.

Definition model_path (model_dir timestamp : string) : string :=
  model_dir +:+ "/water_quality_model_" +:+ timestamp +:+ ".pkl".
Definition scaler_path (model_dir timestamp : string) : string :=
  model_dir +:+ "/scaler_" +:+ timestamp +:+ ".pkl".
Definition imputer_path (model_dir timestamp : string) : string :=
  model_dir +:+ "/imputer_" +:+ timestamp +:+ ".pkl".
Definition metadata_path (model_dir timestamp : string) : string :=
  model_dir +:+ "/model_metadata_" +:+ timestamp +:+ ".json".
Definition results_path (model_dir timestamp : string) : string :=
  model_dir +:+ "/all_models_comparison_" +:+ timestamp +:+ ".json".

Section Functions.
Context `{Runtime}.

Definition save_trained_model
    (results : list (string * train_result)) (best_model_name : string)
    (scaler imputer : pyobj) (feature_names : list string)
    (model_dir : string) : M state json :=
  makedirs model_dir ;;;
  s <- get ;;
  let timestamp := strftime (now s) in
  (* Save the best model *)
  r <- lift (results_getitem results best_model_name) ;;
  let best_model := tr_model r in
  let model_filename := model_path model_dir timestamp in
  joblib_dump best_model model_filename ;;;
  (* Save the scaler *)
  let scaler_filename := scaler_path model_dir timestamp in
  joblib_dump scaler scaler_filename ;;;
  (* Save the imputer *)
  let imputer_filename := imputer_path model_dir timestamp in
  joblib_dump imputer imputer_filename ;;;
  (* Save model metadata *)
  r' <- lift (results_getitem results best_model_name) ;;
  let metadata := JObj [
    ("model_name", JStr best_model_name);
    ("model_type", JStr (type_name best_model));
    ("accuracy", JFloat (tr_accuracy r'));
    ("feature_names", JArr (map JStr feature_names));
    ("training_date", JStr timestamp);
    ("model_file", JStr model_filename);
    ("scaler_file", JStr scaler_filename);
    ("imputer_file", JStr imputer_filename);
    ("preprocessing_steps",
      JArr [JStr "SimpleImputer with mean strategy";
            JStr "StandardScaler normalization"])
  ] in
  let metadata_filename := metadata_path model_dir timestamp in
  json_dump metadata metadata_filename ;;;
  (* Save all model results for comparison *)
  let all_results := JObj (map (fun '(name, result) =>
    (name, JObj [("accuracy", JFloat (tr_accuracy result));
                 ("model_type", JStr (type_name (tr_model result)))])) results) in
  let results_filename := results_path model_dir timestamp in
  json_dump all_results results_filename ;;;
  ret (JObj [
    ("model_file", JStr model_filename);
    ("scaler_file", JStr scaler_filename);
    ("imputer_file", JStr imputer_filename);
    ("metadata_file", JStr metadata_filename);
    ("results_file", JStr results_filename)
  ]).

(** The timestamp [load_trained_model] picks when none is given. *)
Definition extract_timestamp (f : string) : string :=
  remove_all (remove_all f "water_quality_model_") ".pkl".

Definition most_recent_timestamp (model_dir : string) : M state string :=
  entries <- listdir model_dir ;;
  let model_files :=
    List.filter (fun f => startswith f "water_quality_model_") entries in
  match model_files with
  | [] => raise (Raise FileNotFoundError "No saved models found")
  | _ => lift (py_max_str (map extract_timestamp model_files))
  end.

Definition load_trained_model (model_dir : string) (timestamp : option string)
  : M state components :=
  s <- get ;;
  (if path_exists s model_dir then ret tt
   else raise (Raise FileNotFoundError
                 ("Model directory '" +:+ model_dir +:+ "' not found"))) ;;;
  (* If no timestamp specified, find the most recent one *)
  timestamp <- match timestamp with
               | Some t => ret t
               | None => most_recent_timestamp model_dir
               end ;;
  (* Load model components *)
  let model_file := model_path model_dir timestamp in
  let scaler_file := scaler_path model_dir timestamp in
  let imputer_file := imputer_path model_dir timestamp in
  let metadata_file := metadata_path model_dir timestamp in
  try_except
    (model <- joblib_load model_file ;;
     scaler <- joblib_load scaler_file ;;
     imputer <- joblib_load imputer_file ;;
     metadata <- json_load metadata_file ;;
     ret (Components model scaler imputer metadata))
    [ ([FileNotFoundError], fun e =>
         raise (Raise FileNotFoundError
                  ("Required model file not found: " +:+ exn_msg e)));
      ([Exception], fun e =>
         raise (Raise Exception ("Error loading model: " +:+ exn_msg e))) ].

(** A method call on an estimator, recorded in the trace. *)
Definition call {A} (e : event) (r : result A) : M state A :=
  emit e ;;; lift r.

Definition predict_with_saved_model (model_components : components) (x : sample)
  : M state (Z * option (list pyfloat)) :=
  (* Extract components *)
  let model := model model_components in
  let scaler := scaler model_components in
  let imputer := imputer model_components in
  feature_names <- lift (getitem (metadata model_components) "feature_names") ;;
  (* Create input array in correct order *)
  let input_data :=
    [[ph x; hardness x; solids x; chloramines x; sulfate x;
      conductivity x; organic_carbon x; trihalomethanes x; turbidity x]] in
  (* Apply same preprocessing as training *)
  input_df <- lift (pd_DataFrame input_data feature_names) ;;
  input_imputed <- call (ImputerTransform input_df) (transform imputer input_df) ;;
  input_scaled <- call (ScalerTransform input_imputed) (transform scaler input_imputed) ;;
  (* Make prediction *)
  prediction <- call (ModelPredict input_scaled) (predict model input_scaled) ;;
  (* Get probability if available *)
  try_except
    (probability <- call (ModelPredictProba input_scaled)
                         (predict_proba model input_scaled) ;;
     p0 <- lift (index prediction 0) ;;
     q0 <- lift (index probability 0) ;;
     ret (p0, Some q0))
    [ ([AttributeError], fun _ =>
         (* Some models might not have predict_proba *)
         p0 <- lift (index prediction 0) ;;
         ret (p0, None)) ].

End Functions.
End Download.

(** ** predict.py: the prediction module *)

Module Predict.
Import Download.

(** The dictionary [get_water_quality_prediction] returns. *)
Record prediction_result := PredictionResult {
  prediction : Z;
  is_safe_to_drink : bool;
  safety_status : string;
  confidence : option pyfloat;
  probability_safe : option pyfloat;
  probability_not_safe : option pyfloat;
  input_parameters : option sample;
}.

(** Reasonable ranges for water quality parameters. *)
Definition ranges : gmap string (Z * Z) :=
  list_to_map [
    ("ph", (0, 14)%Z);
    ("hardness", (0, 1000)%Z);
    ("solids", (0, 100000)%Z);
    ("chloramines", (0, 20)%Z);
    ("sulfate", (0, 1000)%Z);
    ("conductivity", (0, 2000)%Z);
    ("organic_carbon", (0, 50)%Z);
    ("trihalomethanes", (0, 200)%Z);
    ("turbidity", (0, 20)%Z)
  ].

(** The [params] dictionary, in insertion order. *)
Definition params (x : sample) : list (string * pyfloat) :=
  [ ("ph", ph x); ("hardness", hardness x); ("solids", solids x);
    ("chloramines", chloramines x); ("sulfate", sulfate x);
    ("conductivity", conductivity x); ("organic_carbon", organic_carbon x);
    ("trihalomethanes", trihalomethanes x); ("turbidity", turbidity x) ].

(** [min_val <= value <= max_val]. *)
Definition within (min_val max_val : Z) (value : pyfloat) : bool :=
  float_le (of_int min_val) value && float_le value (of_int max_val).

Section Functions.
Context `{Runtime}.

Definition load_model : M state components :=
  s <- get ;;
  match _model_components s with
  | None =>
      c <- load_trained_model "saved_models" None ;;
      modify (set_model_components (Some c)) ;;;
      ret c
  | Some c => ret c
  end.

Definition predictWaterQuality (x : sample) : M state (Z * option (list pyfloat)) :=
  emit (PredictWaterQuality x) ;;;
  (* Load model if not already loaded *)
  model_components <- load_model ;;
  (* Make prediction using the loaded model *)
  predict_with_saved_model model_components x.

(** [probability[i] if probability is not None else None] *)
Definition index_opt (probability : option (list pyfloat)) (i : nat)
  : result (option pyfloat) :=
  match probability with
  | Some p => match index p i with Ok v => Ok (Some v) | Err e => Err e end
  | None => Ok None
  end.

(** [max(probability) if probability is not None else None] *)
Definition max_opt (probability : option (list pyfloat)) : result (option pyfloat) :=
  match probability with
  | Some p => match py_max p with Ok v => Ok (Some v) | Err e => Err e end
  | None => Ok None
  end.

Definition get_water_quality_prediction (x : sample) (return_details : bool)
  : M state prediction_result :=
  pp <- predictWaterQuality x ;;
  let prediction := pp.1 in
  let probability := pp.2 in
  (* Interpret results *)
  let is_safe := Z.eqb prediction 1 in
  confidence <- lift (max_opt probability) ;;
  p_safe <- lift (index_opt probability 1) ;;
  p_not_safe <- lift (index_opt probability 0) ;;
  ret (PredictionResult prediction is_safe
         (if is_safe then "Safe to drink" else "Not safe to drink")
         confidence p_safe p_not_safe
         (if return_details then Some x else None)).

Definition warning_message (param_name : string) (value : pyfloat)
    (min_val max_val : Z) : string :=
  param_name +:+ " (" +:+ format_float value +:+ ") is outside typical range ("
    +:+ pretty min_val +:+ "-" +:+ pretty max_val +:+ ")".

(** The loop over [params.items()]. *)
Fixpoint validate_loop (items : list (string * pyfloat)) (warnings : list string)
  : result (list string) :=
  match items with
  | [] => Ok warnings
  | (param_name, value) :: rest =>
      match ranges !! param_name with
      | None => Err (Raise KeyError param_name)
      | Some (min_val, max_val) =>
          if negb (within min_val max_val value)
          then validate_loop rest
                 (app warnings [warning_message param_name value min_val max_val])
          else validate_loop rest warnings
      end
  end.

Definition validate_input_parameters (x : sample) : result (bool * list string) :=
  match validate_loop (params x) [] with
  | Ok warnings => Ok (Nat.eqb (length warnings) 0, warnings)
  | Err e => Err e
  end.

End Functions.
End Predict.

(** ** main.py: the HTTP layer *)

Module Main.
Import Download Predict.

(** A request, as far as the handler looks at it: what
    [request.get_json()] gives, or raises. *)
Record request := Request { get_json : result json }.

(** A response: the JSON body handed to [jsonify] and the status code. *)
Definition response : Type := json * Z.

Definition required_params : list string :=
  [ "ph"; "hardness"; "solids"; "chloramines"; "sulfate";
    "conductivity"; "organic_carbon"; "trihalomethanes"; "turbidity" ].

(** [repr] of a list of strings, as an f-string prints it. *)
Definition repr_list (l : list string) : string :=
  "[" +:+ String.concat ", " (map (fun s => "'" +:+ s +:+ "'") l) +:+ "]".

(** [[param for param in required_params if param not in data]] *)
Fixpoint missing_in (data : json) (names : list string) : result (list string) :=
  match names with
  | [] => Ok []
  | param :: rest =>
      match py_in param data with
      | Err e => Err e
      | Ok b =>
          match missing_in data rest with
          | Err e => Err e
          | Ok l => Ok (if b then l else param :: l)
          end
      end
  end.

Definition opt_float (o : option pyfloat) : json :=
  match o with Some f => JFloat f | None => JNull end.

Definition sample_json (x : sample) : json :=
  JObj [ ("ph", JFloat (ph x)); ("hardness", JFloat (hardness x));
         ("solids", JFloat (solids x)); ("chloramines", JFloat (chloramines x));
         ("sulfate", JFloat (sulfate x)); ("conductivity", JFloat (conductivity x));
         ("organic_carbon", JFloat (organic_carbon x));
         ("trihalomethanes", JFloat (trihalomethanes x));
         ("turbidity", JFloat (turbidity x)) ].

Definition model_not_loaded : response :=
  (JObj [ ("error", JStr "Model not loaded");
          ("message", JStr "The prediction model is not available. Please check server logs.") ],
   503%Z).

Definition no_input_data : response :=
  (JObj [ ("error", JStr "No input data");
          ("message", JStr "Please provide JSON data with water quality parameters") ],
   400%Z).

Definition missing_parameters (missing_params : list string) : response :=
  (JObj [ ("error", JStr "Missing parameters");
          ("message", JStr ("Missing required parameters: " +:+ repr_list missing_params));
          ("required_parameters", JArr (map JStr required_params)) ],
   400%Z).

Definition invalid_parameter_values : response :=
  (JObj [ ("error", JStr "Invalid parameter values");
          ("message", JStr "All parameters must be numeric values") ],
   400%Z).

Definition prediction_failed (e : exn) : response :=
  (JObj [ ("error", JStr "Prediction failed");
          ("message", JStr (exn_msg e)) ],
   500%Z).

Section Functions.
Context `{Runtime}.

Definition initialize_model : M state unit :=
  try_except
    (load_model ;;; modify (set_model_loaded true))
    [ ([Exception], fun _ => modify (set_model_loaded false)) ].

(** [float(data[k])] *)
Definition float_field (data : json) (k : string) : result pyfloat :=
  match getitem data k with
  | Ok v => py_float v
  | Err e => Err e
  end.

(** The nine conversions, in source order. *)
Definition extract_parameters (data : json) : M state sample :=
  ph <- lift (float_field data "ph") ;;
  hardness <- lift (float_field data "hardness") ;;
  solids <- lift (float_field data "solids") ;;
  chloramines <- lift (float_field data "chloramines") ;;
  sulfate <- lift (float_field data "sulfate") ;;
  conductivity <- lift (float_field data "conductivity") ;;
  organic_carbon <- lift (float_field data "organic_carbon") ;;
  trihalomethanes <- lift (float_field data "trihalomethanes") ;;
  turbidity <- lift (float_field data "turbidity") ;;
  ret (Sample ph hardness solids chloramines sulfate conductivity
              organic_carbon trihalomethanes turbidity).

(** The body of the response of a served prediction. *)
Definition prediction_response (x : sample) (prediction : Z)
    (confidence not_safe safe : option pyfloat)
    (is_valid : bool) (warnings : list string) (timestamp : string) : json :=
  JObj [
    ("prediction", JObj [
       ("raw_prediction", JInt prediction);
       ("is_safe_to_drink", JBool (Z.eqb prediction 1));
       ("safety_status",
          JStr (if Z.eqb prediction 1 then "Safe to drink" else "Not safe to drink"));
       ("confidence", opt_float confidence);
       ("probability_scores", JObj [
          ("not_safe", opt_float not_safe);
          ("safe", opt_float safe) ]) ]);
    ("input_parameters", sample_json x);
    ("validation", JObj [
       ("is_valid", JBool is_valid);
       ("warnings", JArr (map JStr warnings)) ]);
    ("metadata", JObj [
       ("timestamp", JStr timestamp);
       ("model_version", JStr "1.0.0") ]) ].

(** The argument of the final [logger.info]: [max(probability)]
    is evaluated without a [None] check. *)
Definition log_confidence (probability : option (list pyfloat)) : result pyfloat :=
  match probability with
  | Some p => py_max p
  | None => Err (Raise TypeError "'NoneType' object is not iterable")
  end.

(** POST /api/predict *)
Definition predict_water_quality (req : request) : M state response :=
  try_except
    (s <- get ;;
     (* Check if model is loaded *)
     if negb (model_loaded s) then ret model_not_loaded else
     (* Get JSON data from request *)
     data <- (emit GetJson ;;; lift (get_json req)) ;;
     if negb (truthy data) then ret no_input_data else
     (* Check for missing parameters *)
     missing_params <- lift (missing_in data required_params) ;;
     match missing_params with
     | _ :: _ => ret (missing_parameters missing_params)
     | [] =>
       (* Extract parameter values *)
       extracted <- try_except
                      (x <- extract_parameters data ;; ret (inr x))
                      [ ([ValueError; TypeError], fun _ =>
                           ret (inl invalid_parameter_values)) ] ;;
       match extracted with
       | inl early => ret early
       | inr x =>
         (* Validate input parameters *)
         v <- (emit (ValidateInput x) ;;; lift (validate_input_parameters x)) ;;
         let is_valid := v.1 in
         let warnings := v.2 in
         (* Make prediction using our function *)
         pp <- predictWaterQuality x ;;
         let prediction := pp.1 in
         let probability := pp.2 in
         (* Get detailed prediction info *)
         detailed_result <- get_water_quality_prediction x true ;;
         (* Prepare response *)
         confidence <- lift (max_opt probability) ;;
         not_safe <- lift (index_opt probability 0) ;;
         safe <- lift (index_opt probability 1) ;;
         s' <- get ;;
         let response :=
           prediction_response x prediction confidence not_safe safe
                               is_valid warnings (isoformat (now s')) in
         _ <- lift (log_confidence probability) ;;
         ret (response, 200%Z)
       end
     end)
    [ ([Exception], fun e => ret (prediction_failed e)) ].

End Functions.
End Main.

(** ** train.py: the training script *)

Module Train.
Import Download.

(** What the script obtains from pandas and scikit-learn before and
    while it trains: the data split, the fitted preprocessing objects,
    the estimators and the metric. *)
Class Learner := {
  (** the estimator constructed under each name of [models] *)
  new_estimator : string -> pyobj;
  (** [model.fit(X_train_scaled, y_train)]: the fitted estimator *)
  fit : pyobj -> result pyobj;
  X_test_scaled : array_like;
  y_test : list Z;
  (** [accuracy_score(y_test, y_pred)]: a proportion *)
  accuracy_score : list Z -> list Z -> result Q;
  (** [model.feature_importances_] *)
  feature_importances_ : pyobj -> result unit;
  (** the fitted [StandardScaler] and [SimpleImputer], and [X.columns] *)
  fitted_scaler : pyobj;
  fitted_imputer : pyobj;
  columns : list string;
}.

Definition model_names : list string :=
  [ "Random Forest"; "Extra Trees"; "Logistic Regression"; "SVM";
    "K-Neighbors"; "Naive Bayes"; "Decision Tree" ].

(** [max(keys, key=f)]: [f] is evaluated once per key, and the running
    maximum is replaced only by a key whose value compares greater. *)
Fixpoint max_key_loop (f : string -> result pyfloat) (keys : list string)
    (best : string) (best_val : pyfloat) : result string :=
  match keys with
  | [] => Ok best
  | k :: rest =>
      match f k with
      | Err e => Err e
      | Ok v =>
          if float_gt v best_val then max_key_loop f rest k v
          else max_key_loop f rest best best_val
      end
  end.

Definition py_max_key (f : string -> result pyfloat) (keys : list string)
  : result string :=
  match keys with
  | [] => Err (Raise ValueError "max() arg is an empty sequence")
  | k :: rest =>
      match f k with
      | Err e => Err e
      | Ok v => max_key_loop f rest k v
      end
  end.

(** [results[k]['accuracy']] *)
Definition accuracy_of (results : list (string * train_result)) (k : string)
  : result pyfloat :=
  match results_getitem results k with
  | Ok r => Ok (tr_accuracy r)
  | Err e => Err e
  end.

Definition find_best (results : list (string * train_result)) : result string :=
  py_max_key (accuracy_of results) (map fst results).

Section Script.
Context `{Runtime} `{Learner}.

Definition models : list (string * pyobj) :=
  map (fun name => (name, new_estimator name)) model_names.

(** Train and evaluate one model. *)
Definition train_one (model : pyobj) : result train_result :=
  match fit model with
  | Err e => Err e
  | Ok fitted =>
      match predict fitted X_test_scaled with
      | Err e => Err e
      | Ok y_pred =>
          match accuracy_score y_test y_pred with
          | Err e => Err e
          | Ok accuracy => Ok (TrainResult fitted (Fin accuracy) y_pred)
          end
      end
  end.

(** The loop over [models.items()], filling [results]. *)
Fixpoint train_loop (items : list (string * pyobj))
    (results : list (string * train_result))
  : result (list (string * train_result)) :=
  match items with
  | [] => Ok results
  | (name, model) :: rest =>
      match train_one model with
      | Err e => Err e
      | Ok r => train_loop rest (app results [(name, r)])
      end
  end.

(** The script's own [predict_water_quality], run once on an example
    sample before the model is saved. *)
Definition example_prediction (best_model : pyobj) (x : sample)
  : result (Z * list pyfloat) :=
  let input_data :=
    NdArray [[ph x; hardness x; solids x; chloramines x; sulfate x;
              conductivity x; organic_carbon x; trihalomethanes x; turbidity x]] in
  match transform fitted_scaler input_data with
  | Err e => Err e
  | Ok input_scaled =>
      match predict best_model input_scaled with
      | Err e => Err e
      | Ok prediction =>
          match predict_proba best_model input_scaled with
          | Err e => Err e
          | Ok probability =>
              match index prediction 0, index probability 0 with
              | Ok p, Ok q => Ok (p, q)
              | Err e, _ => Err e
              | _, Err e => Err e
              end
          end
      end
  end.

Definition example_sample : sample :=
  Sample (of_int 7) (of_int 200) (of_int 20000) (of_int 7) (of_int 300)
         (of_int 400) (of_int 15) (of_int 70) (of_int 4).

(** The script from the training loop on; printing and the confusion
    matrix have no effect on what is selected or saved. *)
Definition train_script : M state json :=
  results <- lift (train_loop models []) ;;
  (* Find best model *)
  best_model_name <- lift (find_best results) ;;
  best <- lift (results_getitem results best_model_name) ;;
  (* For tree-based models, show feature importance *)
  (if contains best_model_name "Forest" || contains best_model_name "Trees"
   then lift (feature_importances_ (tr_model best))
   else ret tt) ;;;
  (* Example prediction *)
  pp <- lift (example_prediction (tr_model best) example_sample) ;;
  _ <- lift (py_max pp.2) ;;
  (* Save the trained model and preprocessing components *)
  save_trained_model results best_model_name fitted_scaler fitted_imputer
                     columns "saved_models".

End Script.
End Train.

(** * Specification vocabulary *)

Module Spec.
Import Download Predict Main Train.

(** *** Ranges *)

(** The documented inclusive range of every parameter, with the value
    the sample has for it. *)
Definition documented (x : sample) : list (string * pyfloat * (Z * Z)) :=
  [ ("ph", ph x, (0, 14)%Z);
    ("hardness", hardness x, (0, 1000)%Z);
    ("solids", solids x, (0, 100000)%Z);
    ("chloramines", chloramines x, (0, 20)%Z);
    ("sulfate", sulfate x, (0, 1000)%Z);
    ("conductivity", conductivity x, (0, 2000)%Z);
    ("organic_carbon", organic_carbon x, (0, 50)%Z);
    ("trihalomethanes", trihalomethanes x, (0, 200)%Z);
    ("turbidity", turbidity x, (0, 20)%Z) ].

(** A value lies within its range when it is a real number between the
    two bounds, both included. *)
Definition in_range (e : string * pyfloat * (Z * Z)) : Prop :=
  match e.1.2 with
  | Fin q => (inject_Z e.2.1 <= q)%Q ∧ (q <= inject_Z e.2.2)%Q
  | _ => False
  end.

#[global] Instance in_range_dec e : Decision (in_range e).
Proof.
  destruct e as [[name v] [lo hi]]. unfold in_range. simpl.
  destruct v as [q| | |]; [|right; tauto..].
  destruct (Qlt_le_dec q (inject_Z lo)) as [Hlo|Hlo].
  { right. intros [Ha _]. exact (Qlt_not_le _ _ Hlo Ha). }
  destruct (Qlt_le_dec (inject_Z hi) q) as [Hhi|Hhi].
  { right. intros [_ Hb]. exact (Qlt_not_le _ _ Hhi Hb). }
  left. split; assumption.
Defined.

(** All nine values within range. *)
Definition all_in_range (x : sample) : Prop := Forall in_range (documented x).

(** The entries of the table whose value is out of range. *)
Definition violations (x : sample) : list (string * pyfloat * (Z * Z)) :=
  filter (fun e => ¬ in_range e) (documented x).

(** The warning for one entry of the table. *)
Definition message_of `{Runtime} (e : string * pyfloat * (Z * Z)) : string :=
  warning_message e.1.1 e.1.2 e.2.1 e.2.2.

(** *** The preprocessing pipeline *)

(** The single input row, in the fixed feature order. *)
Definition feature_row (x : sample) : list pyfloat :=
  [ ph x; hardness x; solids x; chloramines x; sulfate x;
    conductivity x; organic_carbon x; trihalomethanes x; turbidity x ].

(** "imputer, then scaler, then classifier": the calls a prediction
    may make, each on the output of the one before. *)
Inductive pipeline_calls `{Runtime} (mc : components) (x : sample) : list event -> Prop :=
| calls_none :
    pipeline_calls mc x []
| calls_imputer names df :
    getitem (metadata mc) "feature_names" = Ok names ->
    pd_DataFrame [feature_row x] names = Ok df ->
    pipeline_calls mc x [ImputerTransform df]
| calls_scaler names df imputed :
    getitem (metadata mc) "feature_names" = Ok names ->
    pd_DataFrame [feature_row x] names = Ok df ->
    transform (imputer mc) df = Ok imputed ->
    pipeline_calls mc x [ImputerTransform df; ScalerTransform imputed]
| calls_predict names df imputed scaled (with_proba : bool) :
    getitem (metadata mc) "feature_names" = Ok names ->
    pd_DataFrame [feature_row x] names = Ok df ->
    transform (imputer mc) df = Ok imputed ->
    transform (scaler mc) imputed = Ok scaled ->
    pipeline_calls mc x
      (app [ImputerTransform df; ScalerTransform imputed; ModelPredict scaled]
           (if with_proba then [ModelPredictProba scaled] else [])).

(** The calls a prediction makes on [x]: each step is taken exactly
    when the one before it returned, and on what it returned. *)
Definition pipeline_trace `{Runtime} (mc : components) (x : sample) : list event :=
  match getitem (metadata mc) "feature_names" with
  | Err _ => []
  | Ok names =>
      match pd_DataFrame [feature_row x] names with
      | Err _ => []
      | Ok df =>
          ImputerTransform df ::
          match transform (imputer mc) df with
          | Err _ => []
          | Ok imputed =>
              ScalerTransform imputed ::
              match transform (scaler mc) imputed with
              | Err _ => []
              | Ok scaled =>
                  ModelPredict scaled ::
                  match predict (model mc) scaled with
                  | Err _ => []
                  | Ok _ => [ModelPredictProba scaled]
                  end
              end
          end
      end
  end.

(** The classifier's answer on the preprocessed row: what a prediction
    returns when it returns. *)
Definition classified `{Runtime} (mc : components) (x : sample)
    (label : Z) (probability : option (list pyfloat)) : Prop :=
  ∃ names df imputed scaled labels,
    getitem (metadata mc) "feature_names" = Ok names
    ∧ pd_DataFrame [feature_row x] names = Ok df
    ∧ transform (imputer mc) df = Ok imputed
    ∧ transform (scaler mc) imputed = Ok scaled
    ∧ predict (model mc) scaled = Ok labels
    ∧ labels !! 0%nat = Some label
    ∧ match probability with
      | Some p => ∃ probs, predict_proba (model mc) scaled = Ok probs
                           ∧ probs !! 0%nat = Some p
      | None => ∃ e, predict_proba (model mc) scaled = Err e
                     ∧ exn_class e = AttributeError
      end.

(** The metadata document written for a saved model. *)
Definition is_metadata_of (md : json) (name : string) (r : train_result)
    (feature_names : list string) : Prop :=
  getitem md "model_name" = Ok (JStr name)
  ∧ getitem md "accuracy" = Ok (JFloat (tr_accuracy r))
  ∧ getitem md "feature_names" = Ok (JArr (map JStr feature_names)).

(** The entry the training loop stores under a candidate's name: the
    estimator as [fit] returned it, what it predicts on the test set,
    and [accuracy_score] of that against the test labels. *)
Definition trained `{Learner} (name : string) (r : train_result) : Prop :=
  ∃ fitted y_pred q,
    fit (new_estimator name) = Ok fitted
    ∧ predict fitted X_test_scaled = Ok y_pred
    ∧ accuracy_score y_test y_pred = Ok q
    ∧ r = TrainResult fitted (Fin q) y_pred.

(** One accuracy is at most another; both are proportions. *)
Definition accuracy_le (a b : pyfloat) : Prop :=
  match a, b with
  | Fin x, Fin y => (x <= y)%Q
  | _, _ => False
  end.

(** *** JSON *)

(** [j[k1][k2]...] on nested objects. *)
Fixpoint at_path (j : json) (path : list string) : option json :=
  match path with
  | [] => Some j
  | k :: rest =>
      match j with
      | JObj kv => match assoc k kv with
                   | Some v => at_path v rest
                   | None => None
                   end
      | _ => None
      end
  end.

(** *** Requests and server states *)

(** The body is an object that binds all nine names to values [float]
    converts, giving the sample [x]. *)
Definition numeric_body `{Runtime} (items : list (string * json)) (x : sample) : Prop :=
  Forall2 (fun name v => ∃ j, assoc name items = Some j ∧ py_float j = Ok v)
          required_params (feature_row x).

(** The names among the nine that the object does not bind. *)
Definition missing_names (items : list (string * json)) : list string :=
  filter (fun name => assoc name items = None) required_params.

(** An integer beyond the range of a float. *)
Definition too_large (j : json) : Prop :=
  ∃ z, j = JInt z ∧ (float_overflow_bound <= Z.abs z)%Z.

(** The server serves predictions from the loaded components [mc]. *)
Definition serving (s : state) (mc : components) : Prop :=
  model_loaded s = true ∧ _model_components s = Some mc.

(** The state [s] after the calls [evs] have been recorded. *)
Definition after (s : state) (evs : list event) : state :=
  State (files s) (dirs s) (now s) (model_loaded s) (_model_components s)
        (app (trace s) evs).

(** *** Time *)

(** Each field fits the width [strftime] prints it with. *)
Definition fits_format (d : datetime) : Prop :=
  year d < 10 ^ 4 ∧ month d < 10 ^ 2 ∧ day d < 10 ^ 2
  ∧ hour d < 10 ^ 2 ∧ minute d < 10 ^ 2 ∧ second d < 10 ^ 2.

(** Chronological comparison of two clock readings. *)
Definition dt_compare (a b : datetime) : comparison :=
  match Nat.compare (year a) (year b) with
  | Eq => match Nat.compare (month a) (month b) with
          | Eq => match Nat.compare (day a) (day b) with
                  | Eq => match Nat.compare (hour a) (hour b) with
                          | Eq => match Nat.compare (minute a) (minute b) with
                                  | Eq => Nat.compare (second a) (second b)
                                  | c => c
                                  end
                          | c => c
                          end
                  | c => c
                  end
          | c => c
          end
  | c => c
  end.

(** [a] is not later than [b]. *)
Definition not_later (a b : datetime) : Prop := dt_compare a b ≠ Gt.

(** The name [save_trained_model] gives the model file saved at [d]. *)
Definition saved_model_name (d : datetime) : string :=
  "water_quality_model_" +:+ strftime d +:+ ".pkl".

(** The names in directory [dir] that [load_trained_model] treats as
    model files. *)
Definition model_files (dir : string) (s : state) : list string :=
  match listdir dir s with
  | (Ok entries, _) =>
      List.filter (fun f => startswith f "water_quality_model_") entries
  | (Err _, _) => []
  end.

(** [a <= b] on strings, lexicographically. *)
Definition str_le (a b : string) : Prop := String.compare a b ≠ Gt.

(** A character that occurs in neither pattern the loader deletes in a
    way that could start a match: not [w] and not a dot. *)
Definition plain (c : ascii) : Prop := c ≠ "w"%char ∧ c ≠ "."%char.

(** Every character of a string satisfies [P]. *)
Fixpoint each_char (P : ascii -> Prop) (s : string) : Prop :=
  match s with
  | EmptyString => True
  | String c s' => P c ∧ each_char P s'
  end.

End Spec.

(** * Concrete instances

    A small runtime, estimators, server states and requests, used to run
    the model on concrete inputs. *)

Module Demo.
Import Download Predict Main Train.

Definition rows (a : array_like) : list (list pyfloat) :=
  match a with
  | DataFrame _ v => v
  | NdArray v => v
  end.

Definition no_method {A} (name : string) : array_like -> result A :=
  fun _ => Err (Raise AttributeError ("object has no attribute '" +:+ name +:+ "'")).

(** A runtime whose DataFrame constructor checks the number of labels. *)
Definition runtime : Runtime := {|
  float_of_str := fun _ => None;
  format_float := fun _ => "?";
  pd_DataFrame := fun data names =>
    match names with
    | JArr l =>
        if forallb (fun r => Nat.eqb (length r) (length l)) data
        then Ok (DataFrame names data)
        else Err (Raise ValueError "Shape of passed values does not match the labels")
    | _ => Err (Raise TypeError "Index(...) must be called with a collection of some kind")
    end
|}.

(** A transformer that hands the values on unchanged. *)
Definition passthrough (name : string) : pyobj :=
  PyObj name (fun a => Ok (NdArray (rows a))) (no_method "predict")
        (no_method "predict_proba").

(** A classifier with class probabilities: label 1 when the first
    feature is at most 8. *)
Definition classify (r : list pyfloat) : Z :=
  match r with
  | v :: _ => if float_le v (of_int 8) then 1%Z else 0%Z
  | [] => 0%Z
  end.

Definition forest : pyobj :=
  PyObj "RandomForestClassifier" (no_method "transform")
        (fun a => Ok (map classify (rows a)))
        (fun a => Ok (map (fun r => if Z.eqb (classify r) 1
                                    then [Fin (1 # 4); Fin (3 # 4)]
                                    else [Fin (3 # 4); Fin (1 # 4)]) (rows a))).

(** A classifier without [predict_proba], as [SVC()] is. *)
Definition svc : pyobj :=
  PyObj "SVC" (no_method "transform")
        (fun a => Ok (map classify (rows a)))
        (no_method "predict_proba").

Definition metadata : json :=
  JObj [ ("model_name", JStr "Random Forest");
         ("feature_names", JArr (map JStr required_params)) ].

Definition loaded (m : pyobj) : components :=
  Components m (passthrough "StandardScaler") (passthrough "SimpleImputer") metadata.

Definition clock : datetime := DateTime 2025 1 15 10 30 0.

Definition empty_disk (is_loaded : bool) (c : option components) : state :=
  State ∅ ∅ clock is_loaded c [].

(** The server after a successful and after a failed start. *)
Definition started : state := empty_disk true (Some (loaded forest)).
Definition started_svc : state := empty_disk true (Some (loaded svc)).
Definition not_started : state := empty_disk false None.

Definition body (ph : json) : list (string * json) :=
  [ ("ph", ph); ("hardness", JFloat (of_int 200)); ("solids", JInt 20000);
    ("chloramines", JInt 7); ("sulfate", JInt 300); ("conductivity", JInt 400);
    ("organic_carbon", JInt 15); ("trihalomethanes", JInt 70);
    ("turbidity", JInt 4) ].

Definition post (items : list (string * json)) : request :=
  Request (Ok (JObj items)).

Definition a_sample (ph : Z) : sample :=
  Sample (of_int ph) (of_int 200) (of_int 20000) (of_int 7) (of_int 300)
         (of_int 400) (of_int 15) (of_int 70) (of_int 4).

(** A learner for running the training script: every candidate
    classifies by a threshold on the first feature. *)
Definition threshold (th : Z) (with_proba : bool) (name : string) : pyobj :=
  let label r := match r with
                 | v :: _ => if float_le v (of_int th) then 1%Z else 0%Z
                 | [] => 0%Z
                 end in
  PyObj name (no_method "transform")
        (fun a => Ok (map label (rows a)))
        (if with_proba
         then fun a => Ok (map (fun r => if Z.eqb (label r) 1
                                         then [Fin (1 # 4); Fin (3 # 4)]
                                         else [Fin (3 # 4); Fin (1 # 4)]) (rows a))
         else no_method "predict_proba").

(** The proportion of positions at which two label lists agree. *)
Definition proportion_equal (y_true y_pred : list Z) : result Q :=
  if Nat.eqb (length y_true) (length y_pred)
  then Ok (Qmake (Z.of_nat (length (List.filter (fun p => Z.eqb p.1 p.2)
                                                 (combine y_true y_pred))))
                  (Pos.of_nat (length y_true)))
  else Err (Raise ValueError "Found input variables with inconsistent numbers of samples").

Definition learner : Learner := {|
  new_estimator := fun name =>
    if String.eqb name "SVM" then threshold 8 false "SVC"
    else threshold (Z.of_nat (String.length name)) true name;
  fit := fun m => Ok m;
  X_test_scaled := NdArray [[of_int 5]; [of_int 12]; [of_int 15]; [of_int 20]];
  y_test := [1; 1; 0; 0]%Z;
  accuracy_score := proportion_equal;
  feature_importances_ := fun _ => Ok tt;
  fitted_scaler := passthrough "StandardScaler";
  fitted_imputer := passthrough "SimpleImputer";
  columns := required_params;
|}.

(** A model directory holding two saved models. *)
Definition earlier : datetime := DateTime 2025 1 15 10 30 0.
Definition later : datetime := DateTime 2025 1 16 9 0 0.

Definition saved_at (d : datetime) (m : pyobj) : list (string * file) :=
  [ (model_path "saved_models" (strftime d), PickleFile m);
    (scaler_path "saved_models" (strftime d), PickleFile (passthrough "StandardScaler"));
    (imputer_path "saved_models" (strftime d), PickleFile (passthrough "SimpleImputer"));
    (metadata_path "saved_models" (strftime d), JsonFile metadata) ].

Definition two_models : state :=
  State (list_to_map (app (saved_at earlier svc) (saved_at later forest)))
        {["saved_models"]} clock false None [].

(** One run of [save_trained_model] on an empty disk, and one run of
    the training script. *)
Definition one_result : list (string * train_result) :=
  [ ("Random Forest", TrainResult forest (Fin 1) [1%Z]) ].

Definition save_run : result json * state :=
  save_trained_model one_result "Random Forest" (passthrough "StandardScaler")
    (passthrough "SimpleImputer") required_params "saved_models" not_started.

Definition train_run : result json * state :=
  @train_script learner not_started.

Definition value_of {A} (default : A) (r : result A) : A :=
  match r with
  | Ok a => a
  | Err _ => default
  end.

End Demo.

(** * The rest of the service

    The informational endpoints of [main.py], the listing of saved
    models of [download.py] and the rule-based check of
    [water_quality_check.py], with the vocabulary and the concrete inputs
    of their properties. *)

(** ** main.py: the informational endpoints *)

Module Endpoints.
Import Download Predict Main.

(** [d.get(k, default)]; only a dict has the method. *)
Definition dict_get (d : json) (k : string) (default : json) : result json :=
  match d with
  | JObj kv => Ok (match assoc k kv with Some v => v | None => default end)
  | _ => Err (Raise AttributeError "object has no attribute 'get'")
  end.

(** GET /api/health *)
Definition health_check : M state response :=
  s <- get ;;
  ret (JObj [ ("status", JStr "healthy");
              ("model_loaded", JBool (model_loaded s));
              ("timestamp", JStr (isoformat (now s))) ],
       200%Z).

Definition model_info_not_loaded : response :=
  (JObj [ ("status", JStr "not_loaded");
          ("message", JStr "Model not loaded or metadata not available") ],
   200%Z).

Definition model_info_error (e : exn) : response :=
  (JObj [ ("status", JStr "error"); ("message", JStr (exn_msg e)) ], 500%Z).

(** GET /api/model-info.  The dictionary [load_trained_model] returns
    is never empty and always has the key ['metadata']. *)
Definition model_info : M state response :=
  try_except
    (s <- get ;;
     match _model_components s with
     | Some c =>
         let metadata := metadata c in
         model_name <- lift (dict_get metadata "model_name" (JStr "Unknown")) ;;
         model_type <- lift (dict_get metadata "model_type" (JStr "Unknown")) ;;
         accuracy <- lift (dict_get metadata "accuracy" (JStr "Unknown")) ;;
         training_date <- lift (dict_get metadata "training_date" (JStr "Unknown")) ;;
         feature_names <- lift (dict_get metadata "feature_names" (JArr [])) ;;
         ret (JObj [ ("model_name", model_name);
                     ("model_type", model_type);
                     ("accuracy", accuracy);
                     ("training_date", training_date);
                     ("feature_names", feature_names);
                     ("status", JStr "loaded") ],
              200%Z)
     | None => ret model_info_not_loaded
     end)
    [ ([Exception], fun e => ret (model_info_error e)) ].

End Endpoints.

(** ** download.py: listing the saved models *)

Module Listing.
Import Download.

(** What [list_saved_models] prints: one constructor per [print] call,
    the fields of its f-string kept as values. *)
Inductive line :=
| DirectoryNotFound (model_dir : string)
| NoSavedModels
| ListingTitle
| ListingRule
| ModelName (model_name : json)
| ModelDate (timestamp : string)
| ModelAccuracy (accuracy : pyfloat)
| ModelFile (model_file : string)
| BlankLine
| MetadataNotFound (model_file : string).

(** The process while it lists: the world and the lines printed so far,
    oldest first. *)
Definition console : Type := state * list line.

Definition print (l : line) : M console unit :=
  modify (fun c => (c.1, app c.2 [l])).

(** A computation on the world, run while listing. *)
Definition world {A} (m : M state A) : M console A :=
  fun c => ((m c.1).1, ((m c.1).2, c.2)).

(** [s.split(sep)] for a separator of one character. *)
Fixpoint split (sep : ascii) (s : string) : list string :=
  match s with
  | EmptyString => [EmptyString]
  | String c s' =>
      if Ascii.eqb c sep then EmptyString :: split sep s'
      else match split sep s' with
           | h :: t => String c h :: t
           | [] => [String c EmptyString]
           end
  end.

(** [xs[-1]] *)
Definition index_last {A} (xs : list A) : result A :=
  match xs with
  | [] => Err (Raise IndexError "list index out of range")
  | x :: xs' => Ok (List.last xs' x)
  end.

(** [sorted(xs)] on strings: ascending by character code. *)
Fixpoint insert_sorted (x : string) (l : list string) : list string :=
  match l with
  | [] => [x]
  | y :: l' => if str_gt x y then y :: insert_sorted x l' else x :: l
  end.

Definition sorted (xs : list string) : list string := foldr insert_sorted [] xs.

(** [f"{v:.4f}"]: the number shown; only numbers accept the format. *)
Definition format_4f (v : json) : result pyfloat :=
  match v with
  | JFloat f => Ok f
  | JInt z =>
      if (Z.abs z <? float_overflow_bound)%Z then Ok (of_int z)
      else Err (Raise OverflowError "int too large to convert to float")
  | JBool b => Ok (of_int (if b then 1 else 0))
  | JStr _ => Err (Raise ValueError "Unknown format code 'f' for object of type 'str'")
  | JNull | JArr _ | JObj _ =>
      Err (Raise TypeError "unsupported format string passed to __format__")
  end.

(** [for x in xs: body(x)] *)
Fixpoint for_each {A} (xs : list A) (body : A -> M console unit) : M console unit :=
  match xs with
  | [] => ret tt
  | x :: xs' => body x ;;; for_each xs' body
  end.

(** The body of the loop over the model files. *)
Definition list_entry (model_dir model_file : string) : M console unit :=
  last <- lift (index_last (split "_" model_file)) ;;
  let timestamp := remove_all last ".pkl" in
  let metadata_file := metadata_path model_dir timestamp in
  try_except
    (metadata <- world (json_load metadata_file) ;;
     model_name <- lift (getitem metadata "model_name") ;;
     print (ModelName model_name) ;;;
     print (ModelDate timestamp) ;;;
     accuracy <- lift (getitem metadata "accuracy") ;;
     shown <- lift (format_4f accuracy) ;;
     print (ModelAccuracy shown) ;;;
     print (ModelFile model_file) ;;;
     print BlankLine)
    [ ([FileNotFoundError], fun _ => print (MetadataNotFound model_file)) ].

Definition list_saved_models (model_dir : string) : M console unit :=
  c <- get ;;
  if negb (path_exists c.1 model_dir) then print (DirectoryNotFound model_dir) else
  entries <- world (listdir model_dir) ;;
  let model_files :=
    List.filter (fun f => startswith f "water_quality_model_") entries in
  match model_files with
  | [] => print NoSavedModels
  | _ =>
      print ListingTitle ;;;
      print ListingRule ;;;
      for_each (sorted model_files) (list_entry model_dir)
  end.

End Listing.

(** ** water_quality_check.py: the rule-based check *)

Module RuleCheck.

(** What the script prints last. *)
Inductive verdict :=
| InvalidInput
| Potable
| NotPotable.

(** [float(input(prompt))]: the state is the lines still to be read
    from standard input; reading past the end raises [EOFError]. *)
Definition read_float `{Runtime} : M (list string) pyfloat :=
  fun stdin =>
    match stdin with
    | [] => (Err (Raise Exception "EOFError: EOF when reading a line"), [])
    | l :: rest => (py_float (JStr l), rest)
    end.

(** The simple rule-based check: the thresholds, in source order. *)
Definition rule_check (x : sample) : bool :=
  let safe := true in
  let safe := if negb (float_le (Fin (13 # 2)) (ph x) && float_le (ph x) (Fin (17 # 2)))
              then false else safe in
  let safe := if float_gt (hardness x) (of_int 200) then false else safe in
  let safe := if float_gt (solids x) (of_int 500) then false else safe in
  let safe := if float_gt (chloramines x) (of_int 4) then false else safe in
  let safe := if float_gt (sulfate x) (of_int 250) then false else safe in
  let safe := if float_gt (conductivity x) (of_int 500) then false else safe in
  let safe := if float_gt (organic_carbon x) (of_int 10) then false else safe in
  let safe := if float_gt (trihalomethanes x) (of_int 80) then false else safe in
  let safe := if float_gt (turbidity x) (of_int 5) then false else safe in
  safe.

Section Functions.
Context `{Runtime}.

Definition read_sample : M (list string) sample :=
  ph <- read_float ;;
  hardness <- read_float ;;
  solids <- read_float ;;
  chloramines <- read_float ;;
  sulfate <- read_float ;;
  conductivity <- read_float ;;
  organic_carbon <- read_float ;;
  trihalomethanes <- read_float ;;
  turbidity <- read_float ;;
  ret (Sample ph hardness solids chloramines sulfate conductivity
              organic_carbon trihalomethanes turbidity).

Definition check_water_quality : M (list string) verdict :=
  read <- try_except
            (x <- read_sample ;; ret (Some x))
            [ ([Exception], fun _ => ret None) ] ;;
  match read with
  | None => ret InvalidInput
  | Some x => ret (if rule_check x then Potable else NotPotable)
  end.

End Functions.
End RuleCheck.

(** * More specification vocabulary *)

Module Frame.
Import Download Predict Main.

(** What serving may change: the trace of calls, and the cache when it
    is empty.  The disk, the clock and the [model_loaded] flag stay, and
    cached components are never replaced. *)
Definition serves_only (s s' : state) : Prop :=
  files s' = files s ∧ dirs s' = dirs s ∧ now s' = now s
  ∧ model_loaded s' = model_loaded s
  ∧ (is_Some (_model_components s) -> _model_components s' = _model_components s).

(** A computation that leaves the state as it is. *)
Definition reads_only {A} (m : M state A) : Prop :=
  ∀ s, (m s).2 = s.

(** A computation that changes no more than that, from every state. *)
Definition preserves {A} (m : M state A) : Prop :=
  ∀ s, serves_only s (m s).2.

(** Whenever the flag says the model is loaded, the components are
    cached. *)
Definition cache_ok (s : state) : Prop :=
  model_loaded s = true -> is_Some (_model_components s).

(** The path [p] is no directory, and the file at [p] is absent or
    holds a pickled object / a JSON document: nothing of the wrong kind
    is in the way. *)
Definition pickle_or_missing (s : state) (p : string) : Prop :=
  (p ∉ dirs s)
  ∧ match files s !! p with
    | Some (JsonFile _) => False
    | _ => True
    end.

Definition json_or_missing (s : state) (p : string) : Prop :=
  (p ∉ dirs s)
  ∧ match files s !! p with
    | Some (PickleFile _) => False
    | _ => True
    end.

(** No entry of the directory that looks like a model file carries a
    timestamp greater than [t]. *)
Definition no_newer_model (dir : string) (s : state) (t : string) : Prop :=
  ∀ p f, is_Some (files s !! p) ∨ p ∈ dirs s ->
         entry_of dir p = Some f ->
         startswith f "water_quality_model_" = true ->
         Spec.str_le (extract_timestamp f) t.

(** One accuracy is strictly below another; both are proportions. *)
Definition accuracy_lt (a b : pyfloat) : Prop :=
  match a, b with
  | Fin x, Fin y => (x < y)%Q
  | _, _ => False
  end.

(** The part of [strftime] after its underscore. *)
Definition time_of_day (d : datetime) : string :=
  digits 2 (hour d) +:+ digits 2 (minute d) +:+ digits 2 (second d).

(** A computation that only prints: the world stays, and the lines
    printed before stay in front. *)
Definition prints_only {A} (m : M Listing.console A) : Prop :=
  ∀ c, ∃ printed, (m c).2 = (c.1, app c.2 printed).

(** Everything in directory [dir] was written by [save_trained_model]:
    each entry is one of the five files of some clock reading. *)
Definition written_by_saves (dir : string) (s : state) : Prop :=
  ∀ p f, is_Some (files s !! p) ∨ p ∈ dirs s ->
         entry_of dir p = Some f ->
         ∃ d, p ∈ [ model_path dir (strftime d); scaler_path dir (strftime d);
                    imputer_path dir (strftime d); metadata_path dir (strftime d);
                    results_path dir (strftime d) ].

(** A path in normal form: relative, its components non-empty and none
    of them [.] or [..].  Two such paths that are spelled differently
    name different files. *)
Definition normal_path (p : string) : Prop :=
  Forall (fun c => c ≠ "" ∧ c ≠ "." ∧ c ≠ "..") (Listing.split "/" p).

(** The state [s] with the clock reading [d]. *)
Definition at_time (d : datetime) (s : state) : state :=
  State (files s) (dirs s) d (model_loaded s) (_model_components s) (trace s).

End Frame.

(** * More concrete inputs *)

Module Samples.
Import Download Predict Main Train Endpoints Listing RuleCheck Frame.

(** An integer no float can hold. *)
Definition huge : Z := 2 ^ 1024.

(** Two candidates of equal accuracy, in the order of [models]. *)
Definition tied : list (string * train_result) :=
  [ ("Random Forest", TrainResult Demo.forest (Fin (3 # 4)) [1%Z]);
    ("Extra Trees", TrainResult Demo.svc (Fin (3 # 4)) [1%Z]);
    ("SVM", TrainResult Demo.svc (Fin (1 # 2)) [0%Z]) ].

(** A model directory that exists and is empty. *)
Definition empty_dir : state :=
  State ∅ {["saved_models"]} Demo.clock false None [].

(** A second save, a day after the one of [Demo.save_run]. *)
Definition second_run : result json * state :=
  save_trained_model Demo.one_result "Random Forest" (Demo.passthrough "StandardScaler")
    (Demo.passthrough "SimpleImputer") required_params "saved_models"
    (at_time Demo.later Demo.save_run.2).


(** The training script's save, run beside a serving process. *)
Definition save_while_serving : result json * state :=
  save_trained_model Demo.one_result "Random Forest" (Demo.passthrough "StandardScaler")
    (Demo.passthrough "SimpleImputer") required_params "saved_models" Demo.started.

(** A learner for which the [SVC], the one candidate without
    [predict_proba], is the most accurate: it gets all four test labels
    right, every other candidate three. *)
Definition svm_learner : Learner := {|
  new_estimator := fun name =>
    if String.eqb name "SVM" then Demo.threshold 12 false "SVC"
    else Demo.threshold 8 true name;
  fit := fun m => Ok m;
  X_test_scaled := NdArray [[of_int 5]; [of_int 12]; [of_int 15]; [of_int 20]];
  y_test := [1; 1; 0; 0]%Z;
  accuracy_score := Demo.proportion_equal;
  feature_importances_ := fun _ => Ok tt;
  fitted_scaler := Demo.passthrough "StandardScaler";
  fitted_imputer := Demo.passthrough "SimpleImputer";
  columns := required_params;
|}.

Definition svm_results : list (string * train_result) :=
  Demo.value_of [] (@train_loop svm_learner (@models svm_learner) []).

Definition svm_best : train_result :=
  TrainResult (Demo.threshold 12 false "SVC") (Fin (4 # 4)) [1; 1; 0; 0]%Z.

Definition svm_run : result json * state :=
  @train_script svm_learner Demo.not_started.

(** A runtime whose [float] reads unsigned decimal integers. *)
Fixpoint decimal (acc : N) (s : string) : option N :=
  match s with
  | EmptyString => Some acc
  | String c s' =>
      let n := N_of_ascii c in
      if (48 <=? n)%N && (n <=? 57)%N then decimal (acc * 10 + (n - 48)) s'
      else None
  end.

Definition runtime : Runtime := {|
  float_of_str := fun s =>
    if String.eqb s "" then None
    else option_map (fun n => of_int (Z.of_N n)) (decimal 0 s);
  format_float := fun _ => "?";
  pd_DataFrame := @pd_DataFrame Demo.runtime
|}.

(** Nine readings the rules accept, and nine with a line that is not a
    number. *)
Definition potable_lines : list string :=
  [ "7"; "150"; "300"; "2"; "100"; "400"; "5"; "50"; "3" ].

Definition broken_lines : list string :=
  [ "7"; "150"; "n/a"; "2"; "100"; "400"; "5"; "50"; "3" ].

End Samples.

(** * Proofs *)

(** ** Running monadic code *)

Arguments Py.truthy : simpl never.
Arguments Main.missing_in : simpl never.
Arguments Main.extract_parameters : simpl never.
Arguments Main.prediction_response : simpl never.
Arguments Main.required_params : simpl never.
Arguments Predict.validate_input_parameters : simpl never.
Arguments Predict.predictWaterQuality : simpl never.
Arguments Predict.get_water_quality_prediction : simpl never.
Arguments Download.predict_with_saved_model : simpl never.
Arguments Download.load_trained_model : simpl never.
Arguments Download.save_trained_model : simpl never.
Arguments World.isoformat : simpl never.
Arguments World.strftime : simpl never.
Arguments World.record_event : simpl never.
Arguments Spec.violations : simpl never.
Arguments Spec.all_in_range : simpl never.

Lemma after_nil s : Spec.after s [] = s.
Proof. destruct s. unfold Spec.after. simpl. by rewrite app_nil_r. Qed.

Lemma after_after s evs evs' :
  Spec.after (Spec.after s evs) evs' = Spec.after s (app evs evs').
Proof. unfold Spec.after. simpl. by rewrite app_assoc. Qed.

Lemma record_event_after s e : record_event e s = Spec.after s [e].
Proof. reflexivity. Qed.

Lemma filter_nil_iff {A} (P : A -> Prop) `{!∀ x, Decision (P x)} (l : list A) :
  filter P l = [] ↔ Forall (fun x => ¬ P x) l.
Proof.
  induction l as [|a l IH]; [done|].
  rewrite filter_cons. destruct (decide (P a)) as [Hp|Hp].
  - split; [done|]. inversion 1; tauto.
  - rewrite IH. split; [by constructor|by inversion 1].
Qed.

Ltac trace_eq :=
  unfold Spec.after, record_event; simpl; rewrite <- ?app_assoc; simpl; reflexivity.

Ltac unfold_monad :=
  unfold Py.bind, Py.ret, Py.raise, Py.lift, Py.get, Py.modify,
         Py.try_except, emit, Download.call in *.


(** ** Range validation ([validate_input_parameters]) *)

Section Validation.
Context `{Runtime}.
Import Predict Spec.

Lemma within_in_range name v lo hi :
  within lo hi v = true ↔ in_range (name, v, (lo, hi)).
Proof.
  unfold within, in_range, float_le, of_int; simpl.
  destruct v; simpl; rewrite ?andb_true_iff, ?Qle_bool_iff; intuition congruence.
Qed.

Lemma validate_loop_table (table : list (string * pyfloat * (Z * Z))) acc :
  Forall (fun e => ranges !! e.1.1 = Some e.2) table ->
  validate_loop (map fst table) acc
  = Ok (app acc (map message_of (filter (fun e => ¬ in_range e) table))).
Proof.
  intros Hall. revert acc.
  induction Hall as [|[[name v] [lo hi]] table Hlk _ IH]; intros acc.
  - simpl. by rewrite app_nil_r.
  - simpl in Hlk. cbn [map fst validate_loop]. rewrite Hlk.
    rewrite filter_cons.
    destruct (within lo hi v) eqn:E; simpl.
    + rewrite IH. destruct (decide _) as [Hn|_]; [|done].
      exfalso. apply Hn. by apply within_in_range.
    + rewrite IH. destruct (decide _) as [_|Hn].
      * by rewrite <- app_assoc.
      * exfalso. apply Hn. intros Hr. apply within_in_range in Hr. congruence.
Qed.

Lemma ranges_documented x :
  Forall (fun e => ranges !! e.1.1 = Some e.2) (documented x).
Proof. repeat constructor. Qed.

Lemma no_violations_iff (t : list (string * pyfloat * (Z * Z))) :
  filter (fun e => ¬ in_range e) t = [] ↔ Forall in_range t.
Proof.
  induction t as [|e t IH]; [done|].
  rewrite filter_cons. destruct (decide (¬ in_range e)) as [Hn|Hn]; simpl.
  - split; [done|]. inversion 1; tauto.
  - rewrite IH. split; [|by inversion 1].
    intros Ht. constructor; [|done]. by destruct (decide (in_range e)).
Qed.

Lemma validate_input_parameters_eq x :
  validate_input_parameters x
  = Ok (bool_decide (all_in_range x), map message_of (violations x)).
Proof.
  unfold validate_input_parameters, violations, all_in_range.
  change (params x) with (map fst (documented x)).
  rewrite (validate_loop_table _ [] (ranges_documented x)). simpl app.
  f_equal. f_equal. rewrite length_map.
  apply eq_true_iff_eq. rewrite bool_decide_eq_true, <- no_violations_iff.
  rewrite Nat.eqb_eq. apply length_zero_iff_nil.
Qed.

(** C2. [validate_input_parameters] always returns a pair
    [(is_valid, warnings)]; [is_valid] holds exactly when every one of
    the nine values lies within its documented inclusive range;
    [warnings] holds exactly one message for each parameter outside
    its range, in parameter order; and [is_valid] holds exactly when
    [warnings] is empty. *)
Theorem validate_input_parameters_correct (x : sample) :
  ∃ is_valid warnings,
    validate_input_parameters x = Ok (is_valid, warnings)
    ∧ (is_valid = true ↔ all_in_range x)
    ∧ warnings = map message_of (violations x)
    ∧ length warnings = length (violations x)
    ∧ (is_valid = true ↔ warnings = []).
Proof.
  eexists _, _. split; [apply validate_input_parameters_eq|].
  split; [apply bool_decide_eq_true|]. split; [done|].
  split; [by rewrite length_map|].
  rewrite bool_decide_eq_true. unfold all_in_range, violations.
  rewrite <- no_violations_iff.
  split; [by intros ->|]. intros Hm. by apply map_eq_nil in Hm.
Qed.

End Validation.

(** ** The preprocessing pipeline ([predict_with_saved_model]) *)

Section Pipeline.
Context `{Runtime}.
Import Download Spec.

Lemma predict_with_saved_model_calls mc x s :
  ∃ evs,
    (predict_with_saved_model mc x s).2 = after s evs
    ∧ pipeline_calls mc x evs
    ∧ ∀ label probability,
        (predict_with_saved_model mc x s).1 = Ok (label, probability) ->
        classified mc x label probability ∧ length evs = 4%nat.
Proof.
  unfold predict_with_saved_model. unfold_monad.
  destruct (getitem (metadata mc) "feature_names") as [names|e] eqn:Hn; simpl.
  2:{ exists []. rewrite after_nil. split; [done|]. split; [constructor|]. done. }
  destruct (pd_DataFrame _ names) as [df|e] eqn:Hdf; simpl.
  2:{ exists []. rewrite after_nil. split; [done|]. split; [constructor|]. done. }
  destruct (transform (imputer mc) df) as [imputed|e] eqn:Hi; simpl.
  2:{ exists [ImputerTransform df]. split; [trace_eq|]. split; [by econstructor|]. done. }
  destruct (transform (scaler mc) imputed) as [scaled|e] eqn:Hs; simpl.
  2:{ exists [ImputerTransform df; ScalerTransform imputed].
      split; [trace_eq|]. split; [by econstructor|]. done. }
  destruct (predict (model mc) scaled) as [labels|e] eqn:Hp; simpl.
  2:{ exists [ImputerTransform df; ScalerTransform imputed; ModelPredict scaled].
      split; [trace_eq|].
      split; [by eapply (calls_predict _ _ _ _ _ _ false)|]. done. }
  exists [ImputerTransform df; ScalerTransform imputed; ModelPredict scaled;
          ModelPredictProba scaled].
  assert (Hcalls : pipeline_calls mc x
            [ImputerTransform df; ScalerTransform imputed; ModelPredict scaled;
             ModelPredictProba scaled])
    by (by eapply (calls_predict _ _ _ _ _ _ true)).
  destruct (predict_proba (model mc) scaled) as [probs|e] eqn:Hq; simpl.
  - unfold index. destruct (labels !! 0%nat) as [l0|] eqn:Hl; simpl.
    + destruct (probs !! 0%nat) as [p0|] eqn:Hp0; simpl.
      * split; [trace_eq|]. split; [done|]. intros label probability [= <- <-].
        split; [|done]. exists names, df, imputed, scaled, labels. eauto 10.
      * split; [trace_eq|]. split; [done|]. done.
    + split; [trace_eq|]. split; [done|]. done.
  - destruct e as [cls msg]. destruct cls; simpl;
      try (split; [trace_eq|]; split; [done|]; done).
    unfold index. destruct (labels !! 0%nat) as [l0|] eqn:Hl; simpl.
    + split; [trace_eq|]. split; [done|]. intros label probability [= <- <-].
      split; [|done]. exists names, df, imputed, scaled, labels.
      repeat (split; [done|]). eexists; split; done.
    + split; [trace_eq|]. split; [done|]. done.
Qed.

End Pipeline.

Section PipelineRun.
Context `{Runtime}.
Import Download Predict Spec.

(** The four estimator calls of a prediction that returns. *)
Lemma predict_with_saved_model_returns mc x label probability s :
  classified mc x label probability ->
  ∃ evs, predict_with_saved_model mc x s = (Ok (label, probability), after s evs)
         ∧ pipeline_calls mc x evs ∧ length evs = 4%nat.
Proof.
  intros (names & df & imputed & scaled & labels & Hn & Hdf & Hi & Hs & Hp & Hl & Hq).
  exists [ImputerTransform df; ScalerTransform imputed; ModelPredict scaled;
          ModelPredictProba scaled].
  split; [|split; [by eapply (calls_predict _ _ _ _ _ _ true)|done]].
  unfold predict_with_saved_model. unfold_monad. unfold feature_row in Hdf.
  rewrite Hn; simpl. rewrite Hdf; simpl. rewrite Hi; simpl. rewrite Hs; simpl.
  rewrite Hp; simpl. unfold index.
  destruct probability as [p|].
  - destruct Hq as (probs & Hq & Hp0). rewrite Hq; simpl. rewrite Hl; simpl.
    rewrite Hp0; simpl. f_equal. trace_eq.
  - destruct Hq as ([cls msg] & Hq & Hcls). simpl in Hcls. subst cls.
    rewrite Hq; simpl. rewrite Hl; simpl. f_equal. trace_eq.
Qed.

(** The calls made are those of [pipeline_trace], whatever the
    outcome. *)
Lemma predict_with_saved_model_trace_eq mc x s :
  (predict_with_saved_model mc x s).2 = after s (pipeline_trace mc x).
Proof.
  unfold predict_with_saved_model, pipeline_trace. unfold_monad.
  destruct (getitem (metadata mc) "feature_names") as [names|e]; simpl;
    [|by rewrite after_nil].
  destruct (pd_DataFrame _ names) as [df|e]; simpl; [|by rewrite after_nil].
  destruct (transform (imputer mc) df) as [imputed|e]; simpl; [|trace_eq].
  destruct (transform (scaler mc) imputed) as [scaled|e]; simpl; [|trace_eq].
  destruct (predict (model mc) scaled) as [labels|e]; simpl; [|trace_eq].
  destruct (predict_proba (model mc) scaled) as [probs|e]; simpl.
  - unfold index. destruct (labels !! 0%nat); simpl; [|trace_eq].
    destruct (probs !! 0%nat); simpl; trace_eq.
  - destruct e as [cls msg]. destruct cls; simpl; try trace_eq.
    unfold index. destruct (labels !! 0%nat); simpl; trace_eq.
Qed.

Lemma pipeline_trace_calls mc x : pipeline_calls mc x (pipeline_trace mc x).
Proof.
  unfold pipeline_trace.
  destruct (getitem (metadata mc) "feature_names") as [names|e] eqn:Hn;
    [|constructor].
  destruct (pd_DataFrame _ names) as [df|e] eqn:Hdf; [|constructor].
  destruct (transform (imputer mc) df) as [imputed|e] eqn:Hi; [|by econstructor].
  destruct (transform (scaler mc) imputed) as [scaled|e] eqn:Hs; [|by econstructor].
  destruct (predict (model mc) scaled) as [labels|e] eqn:Hp.
  - by eapply (calls_predict _ _ _ _ _ _ true).
  - by eapply (calls_predict _ _ _ _ _ _ false).
Qed.

Lemma predictWaterQuality_returns s mc x label probability :
  _model_components s = Some mc ->
  classified mc x label probability ->
  ∃ evs, predictWaterQuality x s = (Ok (label, probability), after s evs)
         ∧ length evs = 5%nat.
Proof.
  intros Hmc Hc.
  destruct (predict_with_saved_model_returns mc x label probability
              (record_event (PredictWaterQuality x) s) Hc) as (evs & Hrun & _ & Hlen).
  exists (PredictWaterQuality x :: evs). split; [|simpl; lia].
  unfold predictWaterQuality, load_model. unfold_monad. simpl.
  rewrite Hmc. simpl. rewrite Hrun. f_equal. trace_eq.
Qed.

End PipelineRun.

(** ** The request handler ([predict_water_quality]) *)

Section Handler.
Context `{Runtime}.
Import Download Predict Main Spec.

Lemma missing_in_object items names :
  missing_in (JObj items) names
  = Ok (filter (fun name => assoc name items = None) names).
Proof.
  induction names as [|n names IH]; [done|].
  unfold missing_in; fold (missing_in (JObj items) names).
  rewrite IH. unfold py_in. rewrite filter_cons.
  destruct (assoc n items) as [v|] eqn:E.
  - rewrite bool_decide_eq_true_2 by eauto. by destruct (decide _).
  - rewrite bool_decide_eq_false_2 by (intros [? ?]; congruence).
    by destruct (decide _).
Qed.

Lemma numeric_body_fields items x :
  numeric_body items x ->
  float_field (JObj items) "ph" = Ok (ph x)
  ∧ float_field (JObj items) "hardness" = Ok (hardness x)
  ∧ float_field (JObj items) "solids" = Ok (solids x)
  ∧ float_field (JObj items) "chloramines" = Ok (chloramines x)
  ∧ float_field (JObj items) "sulfate" = Ok (sulfate x)
  ∧ float_field (JObj items) "conductivity" = Ok (conductivity x)
  ∧ float_field (JObj items) "organic_carbon" = Ok (organic_carbon x)
  ∧ float_field (JObj items) "trihalomethanes" = Ok (trihalomethanes x)
  ∧ float_field (JObj items) "turbidity" = Ok (turbidity x).
Proof.
  unfold numeric_body, required_params, feature_row. intros Hb.
  repeat match goal with
         | Hf : Forall2 _ (_ :: _) (_ :: _) |- _ =>
             apply Forall2_cons_1 in Hf; destruct Hf as [(? & ? & ?) Hf]
         end.
  unfold float_field, getitem.
  repeat split;
    match goal with
    | Ha : assoc ?k items = Some _ |- context [assoc ?k items] => by rewrite Ha
    end.
Qed.

Lemma numeric_body_present items x :
  numeric_body items x -> missing_names items = [] ∧ truthy (JObj items) = true.
Proof.
  unfold numeric_body, missing_names, required_params, feature_row. intros Hb.
  repeat match goal with
         | Hf : Forall2 _ (_ :: _) (_ :: _) |- _ =>
             apply Forall2_cons_1 in Hf; destruct Hf as [(? & ? & ?) Hf]
         end.
  split.
  - repeat (rewrite filter_cons;
            destruct (decide _) as [Hd|_]; [congruence|]).
    done.
  - destruct items; [done|done].
Qed.

Lemma extract_parameters_numeric items x s :
  numeric_body items x -> extract_parameters (JObj items) s = (Ok x, s).
Proof.
  intros Hb. apply numeric_body_fields in Hb.
  destruct Hb as (H1 & H2 & H3 & H4 & H5 & H6 & H7 & H8 & H9).
  unfold extract_parameters. unfold_monad.
  rewrite H1, H2, H3, H4, H5, H6, H7, H8, H9. simpl. by destruct x.
Qed.


Lemma get_water_quality_prediction_returns s mc x label probability details :
  _model_components s = Some mc ->
  classified mc x label probability ->
  (∀ p, probability = Some p -> 2 <= length p) ->
  ∃ r evs,
    get_water_quality_prediction x details s = (Ok r, after s evs)
    ∧ prediction r = label
    ∧ is_safe_to_drink r = Z.eqb label 1
    ∧ safety_status r = (if Z.eqb label 1 then "Safe to drink" else "Not safe to drink")
    ∧ length evs = 5%nat.
Proof.
  intros Hmc Hc Hlen.
  destruct (predictWaterQuality_returns s mc x label probability Hmc Hc)
    as (evs & Hrun & Hn).
  unfold get_water_quality_prediction. unfold_monad. rewrite Hrun. simpl.
  destruct probability as [p|]; simpl.
  - specialize (Hlen p eq_refl).
    destruct p as [|p0 [|p1 p']]; simpl in Hlen; try lia. simpl.
    eexists _, evs. split; [reflexivity|]. done.
  - eexists _, evs. split; [reflexivity|]. done.
Qed.

(** The response of a request that reaches the classifier and gets a
    label with class probabilities. *)
Lemma predict_water_quality_serves req s mc items x label p :
  serving s mc ->
  get_json req = Ok (JObj items) ->
  numeric_body items x ->
  classified mc x label (Some p) ->
  2 <= length p ->
  ∃ conf p0 p1 evs,
    py_max p = Ok conf ∧ p !! 0%nat = Some p0 ∧ p !! 1%nat = Some p1
    ∧ predict_water_quality req s
      = (Ok (prediction_response x label (Some conf) (Some p0) (Some p1)
               (bool_decide (all_in_range x)) (map message_of (violations x))
               (isoformat (now s)), 200%Z),
         after s evs).
Proof.
  intros [Hloaded Hmc] Hjson Hbody Hc Hlen.
  destruct (numeric_body_present items x Hbody) as [Hmiss Htruthy].
  pose (s1 := record_event (ValidateInput x) (record_event GetJson s)).
  destruct (predictWaterQuality_returns s1 mc x label (Some p) Hmc Hc)
    as (evs1 & Hrun1 & _).
  destruct (get_water_quality_prediction_returns (after s1 evs1) mc x label (Some p) true
              Hmc Hc) as (r & evs2 & Hrun2 & _).
  { intros ? [= <-]. done. }
  destruct p as [|p0 [|p1 p']]; simpl in Hlen; try lia.
  eexists _, p0, p1, _. split; [reflexivity|]. split; [done|]. split; [done|].
  unfold predict_water_quality. unfold_monad. rewrite Hloaded. cbn.
  rewrite Hjson. cbn. rewrite Htruthy. cbn.
  rewrite missing_in_object. fold (missing_names items). rewrite Hmiss. cbn.
  rewrite (extract_parameters_numeric items x _ Hbody). cbn.
  rewrite validate_input_parameters_eq. cbn.
  fold s1. rewrite Hrun1. cbn. rewrite Hrun2. cbn.
  subst s1. rewrite !record_event_after.
  rewrite !after_after. reflexivity.
Qed.


(** Every response is one of the four early answers, the 500 answer,
    or a served prediction. *)
Lemma predict_water_quality_cases req s :
  ∃ r s', predict_water_quality req s = (Ok r, s')
    ∧ (r.2 ≠ 200%Z
       ∨ ∃ x label conf p0 p1 valid warnings ts,
           r = (prediction_response x label conf p0 p1 valid warnings ts, 200%Z)).
Proof.
  unfold predict_water_quality. unfold_monad.
  destruct (model_loaded s); cbn.
  2:{ eexists _, _. split; [reflexivity|]. by left. }
  destruct (get_json req) as [data|e]; cbn.
  2:{ eexists _, _. split; [reflexivity|]. by left. }
  destruct (truthy data); cbn.
  2:{ eexists _, _. split; [reflexivity|]. by left. }
  destruct (missing_in data required_params) as [[|m ms]|e]; cbn.
  2,3:eexists _, _; (split; [reflexivity|]); by left.
  destruct (extract_parameters data _) as [[x|e] s1]; cbn.
  2:{ match goal with |- context [if ?b then _ else _] => destruct b end; cbn;
      eexists _, _; (split; [reflexivity|]); by left. }
  destruct (validate_input_parameters x) as [[valid warnings]|e]; cbn.
  2:{ eexists _, _. split; [reflexivity|]. by left. }
  destruct (predictWaterQuality x _) as [[[label probability]|e] s2]; cbn.
  2:{ eexists _, _. split; [reflexivity|]. by left. }
  destruct (get_water_quality_prediction x true s2) as [[r|e] s3]; cbn.
  2:{ eexists _, _. split; [reflexivity|]. by left. }
  destruct (max_opt probability) as [conf|e]; cbn.
  2:{ eexists _, _. split; [reflexivity|]. by left. }
  destruct (index_opt probability 0) as [p0|e]; cbn.
  2:{ eexists _, _. split; [reflexivity|]. by left. }
  destruct (index_opt probability 1) as [p1|e]; cbn.
  2:{ eexists _, _. split; [reflexivity|]. by left. }
  destruct (log_confidence probability) as [c|e]; cbn.
  2:{ eexists _, _. split; [reflexivity|]. by left. }
  eexists _, _. split; [reflexivity|]. right. eauto 10.
Qed.

(** A request that reaches a classifier without [predict_proba]. *)
Lemma predict_water_quality_without_proba req s mc items x label :
  serving s mc ->
  get_json req = Ok (JObj items) ->
  numeric_body items x ->
  classified mc x label None ->
  ∃ evs,
    predict_water_quality req s
    = (Ok (prediction_failed (Raise TypeError "'NoneType' object is not iterable")),
       after s evs).
Proof.
  intros [Hloaded Hmc] Hjson Hbody Hc.
  destruct (numeric_body_present items x Hbody) as [Hmiss Htruthy].
  pose (s1 := record_event (ValidateInput x) (record_event GetJson s)).
  destruct (predictWaterQuality_returns s1 mc x label None Hmc Hc)
    as (evs1 & Hrun1 & _).
  destruct (get_water_quality_prediction_returns (after s1 evs1) mc x label None true
              Hmc Hc) as (r & evs2 & Hrun2 & _); [done|].
  eexists.
  unfold predict_water_quality. unfold_monad. rewrite Hloaded. cbn.
  rewrite Hjson. cbn. rewrite Htruthy. cbn.
  rewrite missing_in_object. fold (missing_names items). rewrite Hmiss. cbn.
  rewrite (extract_parameters_numeric items x _ Hbody). cbn.
  rewrite validate_input_parameters_eq. cbn.
  fold s1. rewrite Hrun1. cbn. rewrite Hrun2. cbn.
  subst s1. rewrite !record_event_after.
  rewrite !after_after. reflexivity.
Qed.

Lemma predict_water_quality_not_loaded req s :
  model_loaded s = false -> predict_water_quality req s = (Ok model_not_loaded, s).
Proof.
  intros Hl. unfold predict_water_quality. unfold_monad. by rewrite Hl.
Qed.


Lemma elem_of_missing_names items name :
  name ∈ missing_names items ↔ name ∈ required_params ∧ assoc name items = None.
Proof. unfold missing_names. rewrite list_elem_of_filter. tauto. Qed.

Lemma predict_water_quality_missing req s items :
  model_loaded s = true ->
  get_json req = Ok (JObj items) ->
  items ≠ [] ->
  missing_names items ≠ [] ->
  predict_water_quality req s
  = (Ok (missing_parameters (missing_names items)), after s [GetJson]).
Proof.
  intros Hloaded Hjson Hne Hmiss.
  unfold predict_water_quality. unfold_monad. rewrite Hloaded. cbn.
  rewrite Hjson. cbn.
  assert (Ht : truthy (JObj items) = true) by (by destruct items).
  rewrite Ht. cbn. rewrite missing_in_object. fold (missing_names items).
  destruct (missing_names items) as [|m ms]; [done|]. reflexivity.
Qed.

Lemma py_float_error_class j e :
  py_float j = Err e -> ¬ too_large j ->
  exn_class e = ValueError ∨ exn_class e = TypeError.
Proof.
  destruct j as [|b|z|f|str|l|kv]; simpl; intros Hf Hn;
    try (injection Hf as <-; simpl; tauto); try discriminate.
  - destruct (Z.abs z <? float_overflow_bound)%Z eqn:E; [discriminate|].
    exfalso. apply Hn. exists z. split; [done|]. apply Z.ltb_ge in E. lia.
  - destruct (float_of_str str); [discriminate|]. injection Hf as <-. simpl. tauto.
Qed.

Lemma extract_parameters_invalid items s :
  (∀ name, name ∈ required_params ->
     ∃ v, assoc name items = Some v ∧ ¬ too_large v) ->
  (∃ name v, name ∈ required_params ∧ assoc name items = Some v
             ∧ is_ok (py_float v) = false) ->
  ∃ e, extract_parameters (JObj items) s = (Err e, s)
       ∧ (exn_class e = ValueError ∨ exn_class e = TypeError).
Proof.
  intros Hall (name & v & Hin & Hv & Hbad).
  assert (Hcls : ∀ n e, n ∈ required_params ->
            float_field (JObj items) n = Err e ->
            exn_class e = ValueError ∨ exn_class e = TypeError).
  { intros n e Hn. destruct (Hall n Hn) as (w & Hw & Hnl).
    unfold float_field, getitem. rewrite Hw. intros Hf.
    by eapply py_float_error_class. }
  assert (Hfail : is_ok (float_field (JObj items) name) = false).
  { unfold float_field, getitem. by rewrite Hv. }
  unfold extract_parameters. unfold_monad. unfold required_params in *.
  repeat match goal with
         | |- context [float_field (JObj items) ?k] =>
             let E := fresh "E" in
             destruct (float_field (JObj items) k) as [?|?] eqn:E; cbn;
             [| eexists; split; [reflexivity|]; eapply Hcls; [|exact E]; solve [repeat constructor] ]
         end.
  exfalso. set_unfold in Hin.
  repeat match goal with
         | Hin : _ ∨ _ |- _ => destruct Hin as [->|Hin]
         | E : float_field _ ?k = Ok _, Hf : is_ok (float_field _ ?k) = false |- _ =>
             rewrite E in Hf; discriminate
         end.
  done.
Qed.

Lemma predict_water_quality_invalid req s items :
  model_loaded s = true ->
  get_json req = Ok (JObj items) ->
  (∀ name, name ∈ required_params ->
     ∃ v, assoc name items = Some v ∧ ¬ too_large v) ->
  (∃ name v, name ∈ required_params ∧ assoc name items = Some v
             ∧ is_ok (py_float v) = false) ->
  predict_water_quality req s
  = (Ok invalid_parameter_values, after s [GetJson]).
Proof.
  intros Hloaded Hjson Hall Hbad.
  destruct (extract_parameters_invalid items (record_event GetJson s) Hall Hbad)
    as (e & He & Hcls).
  assert (Hmiss : missing_names items = []).
  { unfold missing_names. apply filter_nil_iff, Forall_forall.
    intros n Hn Hnone. destruct (Hall n Hn) as (w & Hw & _). congruence. }
  assert (Ht : truthy (JObj items) = true).
  { destruct items; [|done]. destruct Hbad as (? & ? & _ & Hv & _). done. }
  unfold predict_water_quality. unfold_monad. rewrite Hloaded. cbn.
  rewrite Hjson. cbn. rewrite Ht. cbn.
  rewrite missing_in_object. fold (missing_names items). rewrite Hmiss. cbn.
  rewrite He. destruct e as [cls msg]. simpl in Hcls.
  destruct Hcls as [-> | ->]; reflexivity.
Qed.

Lemma initialize_model_failure s e s' :
  load_model s = (Err e, s') -> model_loaded (initialize_model s).2 = false.
Proof.
  intros Hl. unfold initialize_model. unfold_monad. rewrite Hl. cbn.
  destruct e as [cls msg]. by destruct cls.
Qed.

Lemma get_water_quality_prediction_label x details s r s' :
  get_water_quality_prediction x details s = (Ok r, s') ->
  is_safe_to_drink r = Z.eqb (prediction r) 1
  ∧ safety_status r
    = (if Z.eqb (prediction r) 1 then "Safe to drink" else "Not safe to drink").
Proof.
  unfold get_water_quality_prediction. unfold_monad.
  destruct (predictWaterQuality x s) as [[[label probability]|e] s1]; cbn; [|done].
  destruct (max_opt probability); cbn; [|done].
  destruct (index_opt probability 1); cbn; [|done].
  destruct (index_opt probability 0); cbn; [|done].
  by intros [= <- <-].
Qed.

End Handler.

(** ** Persistence ([save_trained_model], [load_trained_model]) *)

Section Persistence.
Import Download Spec.

Lemma append_inj_l (a b c : string) : a +:+ b = a +:+ c -> b = c.
Proof. induction a as [|ch a IH]; simpl; [done|]. intros [= Heq]. auto. Qed.

Ltac path_neq :=
  unfold model_path, scaler_path, imputer_path, metadata_path, results_path;
  let Hp := fresh "Hp" in
  intros Hp; apply append_inj_l in Hp; simpl in Hp; discriminate Hp.

Lemma save_trained_model_files
    results best_model_name scaler imputer feature_names model_dir s out s' :
  save_trained_model results best_model_name scaler imputer feature_names model_dir s
  = (Ok out, s') ->
  let t := strftime (now s) in
  ∃ r md,
    assoc best_model_name results = Some r
    ∧ is_metadata_of md best_model_name r feature_names
    ∧ model_dir ∈ dirs s'
    ∧ files s' !! model_path model_dir t = Some (PickleFile (tr_model r))
    ∧ files s' !! scaler_path model_dir t = Some (PickleFile scaler)
    ∧ files s' !! imputer_path model_dir t = Some (PickleFile imputer)
    ∧ files s' !! metadata_path model_dir t = Some (JsonFile md).
Proof.
  unfold save_trained_model, makedirs, joblib_dump, json_dump, results_getitem.
  unfold_monad.
  destruct (String.eqb model_dir ""); cbn; [done|].
  destruct (bool_decide (is_Some (files s !! model_dir))); cbn; [done|].
  destruct (under_file s (ancestors model_dir)); cbn; [done|].
  destruct (assoc best_model_name results) as [r|] eqn:Hr; cbn; [|done].
  intros [= <- <-]. cbn. eexists r, _. split; [done|].
  match goal with |- _ ∧ ?B => assert (HB : B) end.
  { split; [set_solver|].
    repeat split; rewrite ?lookup_insert_ne by path_neq; by rewrite lookup_insert_eq. }
  split; [|exact HB]. repeat split.
Qed.

Lemma load_trained_model_at model_dir t s m sc im md :
  path_exists s model_dir = true ->
  files s !! model_path model_dir t = Some (PickleFile m) ->
  files s !! scaler_path model_dir t = Some (PickleFile sc) ->
  files s !! imputer_path model_dir t = Some (PickleFile im) ->
  files s !! metadata_path model_dir t = Some (JsonFile md) ->
  load_trained_model model_dir (Some t) s = (Ok (Components m sc im md), s).
Proof.
  intros He Hm Hs Hi Hd.
  unfold load_trained_model, joblib_load, json_load. unfold_monad.
  rewrite He. cbn. rewrite Hm. cbn. rewrite Hs. cbn. rewrite Hi. cbn.
  by rewrite Hd.
Qed.

End Persistence.

(** ** Ordering strings and picking the maximum *)

Section Maximum.
Context {A : Type} (gt : A -> A -> bool) (le : A -> A -> Prop).
Hypothesis le_refl : ∀ a, le a a.
Hypothesis le_trans : ∀ a b c, le a b -> le b c -> le a c.
Hypothesis gt_false : ∀ a b, gt a b = false -> le a b.
Hypothesis gt_true : ∀ a b, gt a b = true -> le b a.

Lemma fold_max_spec (xs : list A) (m0 : A) :
  let m := fold_left (fun m y => if gt y m then y else m) xs m0 in
  (m = m0 ∨ m ∈ xs) ∧ le m0 m ∧ ∀ y, y ∈ xs -> le y m.
Proof.
  revert m0. induction xs as [|x xs IH]; intros m0; simpl.
  - split; [by left|]. split; [done|]. intros y Hy. by apply elem_of_nil in Hy.
  - destruct (gt x m0) eqn:E.
    + destruct (IH x) as (Hin & Hle & Hall). split; [|split].
      * right. destruct Hin as [->|Hin]; [left|by right].
      * eapply le_trans; [|exact Hle]. by apply gt_true.
      * intros y [->|Hy]%elem_of_cons; [done|by apply Hall].
    + destruct (IH m0) as (Hin & Hle & Hall). split; [|split].
      * destruct Hin as [->|Hin]; [by left|right; by right].
      * done.
      * intros y [->|Hy]%elem_of_cons; [|by apply Hall].
        eapply le_trans; [|exact Hle]. by apply gt_false.
Qed.

Lemma py_max_by_spec (xs : list A) :
  xs ≠ [] ->
  ∃ m, py_max_by gt xs = Ok m ∧ m ∈ xs ∧ ∀ y, y ∈ xs -> le y m.
Proof.
  destruct xs as [|x xs]; [done|]. intros _. simpl.
  destruct (fold_max_spec xs x) as (Hin & Hle & Hall).
  eexists. split; [reflexivity|]. split.
  - destruct Hin as [->|Hin]; [left|by right].
  - intros y [->|Hy]%elem_of_cons; [done|by apply Hall].
Qed.

End Maximum.

Section StringOrder.
Import Spec.

Lemma ascii_compare_refl c : Ascii.compare c c = Eq.
Proof. unfold Ascii.compare. apply N.compare_refl. Qed.

Lemma string_compare_refl a : String.compare a a = Eq.
Proof. induction a as [|c a IH]; simpl; [done|]. by rewrite ascii_compare_refl. Qed.

Lemma str_le_refl a : str_le a a.
Proof. unfold str_le. by rewrite string_compare_refl. Qed.

Lemma str_le_trans a b c : str_le a b -> str_le b c -> str_le a c.
Proof.
  unfold str_le. revert b c.
  induction a as [|x a IH]; intros [|y b] [|z c]; simpl; try done.
  unfold Ascii.compare.
  destruct (N.compare_spec (N_of_ascii x) (N_of_ascii y)) as [Hxy|Hxy|Hxy];
    destruct (N.compare_spec (N_of_ascii y) (N_of_ascii z)) as [Hyz|Hyz|Hyz];
    destruct (N.compare_spec (N_of_ascii x) (N_of_ascii z)) as [Hxz|Hxz|Hxz];
    try done; try lia.
  apply IH.
Qed.

Lemma str_gt_false a b : str_gt a b = false -> str_le a b.
Proof. unfold str_gt, str_le. by destruct (String.compare a b). Qed.

Lemma str_gt_true a b : str_gt a b = true -> str_le b a.
Proof.
  unfold str_gt, str_le. intros Hgt. rewrite (String.compare_antisym b a).
  by destruct (String.compare a b).
Qed.

Lemma py_max_str_spec (xs : list string) :
  xs ≠ [] ->
  ∃ m, py_max_str xs = Ok m ∧ m ∈ xs ∧ ∀ y, y ∈ xs -> str_le y m.
Proof.
  apply (py_max_by_spec str_gt str_le str_le_refl str_le_trans
           str_gt_false str_gt_true).
Qed.

End StringOrder.

(** ** Timestamps ([strftime], [extract_timestamp]) *)

Section Timestamps.
Import Download Spec.

Lemma append_cons c (a b : string) : String c a +:+ b = String c (a +:+ b).
Proof. reflexivity. Qed.

Lemma append_nil_l (b : string) : "" +:+ b = b.
Proof. reflexivity. Qed.

Lemma append_nil_r (a : string) : a +:+ "" = a.
Proof. induction a as [|c a IH]; [done|]. rewrite append_cons. by f_equal. Qed.

Lemma digit_code n : N_of_ascii (digit n) = N.of_nat (48 + n mod 10).
Proof.
  unfold digit, ascii_of_nat. apply N_ascii_embedding.
  pose proof (Nat.mod_upper_bound n 10). lia.
Qed.

Lemma digit_compare a b :
  a < 10 -> b < 10 -> Ascii.compare (digit a) (digit b) = Nat.compare a b.
Proof.
  intros Ha Hb. unfold Ascii.compare. rewrite !digit_code.
  rewrite !Nat.mod_small by done.
  rewrite <- Nat2N.inj_compare.
  destruct (Nat.compare_spec a b) as [->|Hlt|Hgt].
  - apply Nat.compare_refl.
  - apply Nat.compare_lt_iff. lia.
  - apply Nat.compare_gt_iff. lia.
Qed.

Lemma digits_compare w : ∀ a b s1 s2,
  a < 10 ^ w -> b < 10 ^ w ->
  String.compare (digits w a +:+ s1) (digits w b +:+ s2)
  = match Nat.compare a b with
    | Eq => String.compare s1 s2
    | c => c
    end.
Proof.
  induction w as [|w IH]; intros a b s1 s2 Ha Hb.
  - simpl in Ha, Hb. assert (a = 0) as -> by lia. assert (b = 0) as -> by lia.
    reflexivity.
  - cbn [digits]. rewrite !append_cons. cbn [String.compare].
    assert (Hp : 10 ^ w ≠ 0) by (apply Nat.pow_nonzero; lia).
    set (p := 10 ^ w) in *.
    assert (Hqa : a / p < 10).
    { apply Nat.Div0.div_lt_upper_bound. rewrite Nat.pow_succ_r' in Ha. lia. }
    assert (Hqb : b / p < 10).
    { apply Nat.Div0.div_lt_upper_bound. rewrite Nat.pow_succ_r' in Hb. lia. }
    pose proof (Nat.div_mod_eq a p) as Ea. pose proof (Nat.div_mod_eq b p) as Eb.
    pose proof (Nat.mod_upper_bound a p Hp) as Ra.
    pose proof (Nat.mod_upper_bound b p Hp) as Rb.
    rewrite digit_compare by done.
    destruct (Nat.compare_spec (a / p) (b / p)) as [Heq|Hlt|Hgt].
    + rewrite IH by lia.
      destruct (Nat.compare_spec (a mod p) (b mod p)) as [Hr|Hr|Hr].
      * assert (a = b) as -> by nia. by rewrite Nat.compare_refl.
      * symmetry. assert (Hab : a < b) by nia.
        apply Nat.compare_lt_iff in Hab. by rewrite Hab.
      * symmetry. assert (Hab : b < a) by nia.
        apply Nat.compare_gt_iff in Hab. by rewrite Hab.
    + assert (Hab : a < b) by nia.
      apply Nat.compare_lt_iff in Hab. by rewrite Hab.
    + assert (Hab : b < a) by nia.
      apply Nat.compare_gt_iff in Hab. by rewrite Hab.
Qed.

(** The printed timestamps are ordered as the clock readings are. *)
Lemma strftime_compare a b :
  fits_format a -> fits_format b ->
  String.compare (strftime a) (strftime b) = dt_compare a b.
Proof.
  intros (Ay & Am & Ad & Ah & Ai & As) (By & Bm & Bd & Bh & Bi & Bs).
  unfold strftime, dt_compare.
  rewrite <- (append_nil_r (digits 2 (second a))).
  rewrite <- (append_nil_r (digits 2 (second b))).
  rewrite digits_compare by done.
  destruct (Nat.compare (year a) (year b)); try done.
  rewrite digits_compare by done.
  destruct (Nat.compare (month a) (month b)); try done.
  rewrite digits_compare by done.
  destruct (Nat.compare (day a) (day b)); try done.
  rewrite !append_cons, !append_nil_l. cbn [String.compare].
  rewrite ascii_compare_refl.
  rewrite digits_compare by done.
  destruct (Nat.compare (hour a) (hour b)); try done.
  rewrite digits_compare by done.
  destruct (Nat.compare (minute a) (minute b)); try done.
  rewrite digits_compare by done.
  by destruct (Nat.compare (second a) (second b)).
Qed.


Lemma each_char_append P (a b : string) :
  each_char P (a +:+ b) ↔ each_char P a ∧ each_char P b.
Proof.
  induction a as [|c a IH]; [rewrite append_nil_l; simpl; tauto|].
  rewrite append_cons. simpl. rewrite IH. tauto.
Qed.

Lemma digit_plain n : plain (digit n).
Proof.
  unfold digit. pose proof (Nat.mod_upper_bound n 10 ltac:(lia)) as Hn.
  destruct (n mod 10) as [|[|[|[|[|[|[|[|[|[|k]]]]]]]]]]; [by split..|lia].
Qed.

Lemma digits_plain w n : each_char plain (digits w n).
Proof.
  revert n. induction w as [|w IH]; intros n; simpl; [done|].
  split; [apply digit_plain|apply IH].
Qed.

Lemma strftime_plain d : each_char plain (strftime d).
Proof.
  unfold strftime. rewrite !each_char_append.
  split_and!; try apply digits_plain. by repeat split.
Qed.

(** Deleting a pattern from text in which its first character does not
    occur leaves the text as it is. *)
Lemma remove_from_absent c0 pat (a tail : string) :
  each_char (fun c => c ≠ c0) a ->
  remove_from (String c0 pat) 0 (a +:+ tail)
  = a +:+ remove_from (String c0 pat) 0 tail.
Proof.
  induction a as [|c a IH]; intros Ha; [by rewrite !append_nil_l|].
  destruct Ha as [Hc Ha]. rewrite !append_cons.
  cbn [remove_from startswith].
  assert (E : Ascii.eqb c0 c = false) by (apply Ascii.eqb_neq; congruence).
  rewrite E. cbn [andb]. by rewrite IH.
Qed.

Lemma each_char_impl (P Q : ascii -> Prop) s :
  (∀ c, P c -> Q c) -> each_char P s -> each_char Q s.
Proof. intros HPQ. induction s; simpl; [done|]. intros [? ?]. auto. Qed.

(** From a model-file name built around a timestamp of plain
    characters, the loader extracts that timestamp. *)
Lemma extract_timestamp_plain ts :
  each_char plain ts ->
  extract_timestamp ("water_quality_model_" +:+ ts +:+ ".pkl") = ts.
Proof.
  intros Hp.
  assert (Hw : each_char (fun c => c ≠ "w"%char) ts).
  { eapply each_char_impl; [|exact Hp]. by intros c [? ?]. }
  assert (Hd : each_char (fun c => c ≠ "."%char) ts).
  { eapply each_char_impl; [|exact Hp]. by intros c [? ?]. }
  unfold extract_timestamp, remove_all.
  rewrite !append_cons, append_nil_l.
  cbn [remove_from startswith Ascii.eqb Bool.eqb andb negb String.eqb
       String.length Nat.sub].
  rewrite (remove_from_absent _ _ _ _ Hw).
  change (remove_from "water_quality_model_" 0 ".pkl") with ".pkl".
  rewrite (remove_from_absent _ _ _ _ Hd).
  change (remove_from ".pkl" 0 ".pkl") with "". apply append_nil_r.
Qed.

Lemma extract_timestamp_saved d :
  extract_timestamp (saved_model_name d) = strftime d.
Proof. apply extract_timestamp_plain, strftime_plain. Qed.

End Timestamps.

(** ** Loading the most recent model *)

Section MostRecent.
Import Download Spec.

Lemma listdir_state dir s : (listdir dir s).2 = s.
Proof.
  unfold listdir. unfold_monad.
  destruct (bool_decide (dir ∈ dirs s)); [done|]. by destruct (bool_decide _).
Qed.

Lemma most_recent_timestamp_spec dir s :
  model_files dir s ≠ [] ->
  ∃ t, most_recent_timestamp dir s = (Ok t, s)
       ∧ t ∈ map extract_timestamp (model_files dir s)
       ∧ ∀ t', t' ∈ map extract_timestamp (model_files dir s) -> str_le t' t.
Proof.
  unfold model_files, most_recent_timestamp. unfold_monad.
  pose proof (listdir_state dir s) as Hs.
  destruct (listdir dir s) as [[entries|e] s1]; simpl in Hs; subst s1; [|done].
  intros Hne.
  destruct (py_max_str_spec (map extract_timestamp
              (List.filter (fun f => startswith f "water_quality_model_") entries)))
    as (t & Ht & Hin & Hmax).
  { intros Hnil. apply map_eq_nil in Hnil. done. }
  exists t. split; [|done].
  destruct (List.filter _ entries); [done|]. by rewrite Ht.
Qed.

Lemma load_trained_model_most_recent dir s :
  model_files dir s ≠ [] ->
  ∃ t, t ∈ map extract_timestamp (model_files dir s)
       ∧ (∀ t', t' ∈ map extract_timestamp (model_files dir s) -> str_le t' t)
       ∧ load_trained_model dir None s = load_trained_model dir (Some t) s.
Proof.
  intros Hne. destruct (most_recent_timestamp_spec dir s Hne) as (t & Ht & Hin & Hmax).
  exists t. split; [done|]. split; [done|].
  unfold load_trained_model. unfold_monad.
  destruct (path_exists s dir); cbn; [|done]. by rewrite Ht.
Qed.

(** When the model files are those saved at the clock readings [ds],
    the timestamp picked is that of the latest reading. *)
Lemma load_trained_model_latest dir s (ds : list datetime) :
  ds ≠ [] ->
  Forall fits_format ds ->
  model_files dir s ≡ₚ map saved_model_name ds ->
  ∃ d, d ∈ ds
       ∧ (∀ d', d' ∈ ds -> not_later d' d)
       ∧ load_trained_model dir None s
         = load_trained_model dir (Some (strftime d)) s.
Proof.
  intros Hne Hfit Hperm.
  assert (Hfiles : model_files dir s ≠ []).
  { intros Hnil. rewrite Hnil in Hperm. symmetry in Hperm.
    apply Permutation_nil_r in Hperm. apply map_eq_nil in Hperm. done. }
  destruct (load_trained_model_most_recent dir s Hfiles) as (t & Hin & Hmax & Hload).
  assert (Hts : ∀ u, u ∈ map extract_timestamp (model_files dir s)
                     ↔ ∃ d, d ∈ ds ∧ u = strftime d).
  { intros u. rewrite Hperm. rewrite list_elem_of_fmap. split.
    - intros (f & -> & Hf). apply list_elem_of_fmap in Hf as (d & -> & Hd).
      exists d. split; [done|]. apply extract_timestamp_saved.
    - intros (d & Hd & ->). exists (saved_model_name d).
      split; [by rewrite extract_timestamp_saved|].
      apply list_elem_of_fmap. eauto. }
  apply Hts in Hin as (d & Hd & ->).
  exists d. split; [done|]. split; [|done].
  intros d' Hd'. unfold not_later.
  rewrite <- strftime_compare.
  - apply Hmax, Hts. eauto.
  - by eapply Forall_forall in Hfit.
  - by eapply Forall_forall in Hfit.
Qed.

End MostRecent.

(** ** Model selection ([train.py]) *)

Section Selection.
Import Download Train Spec.

Lemma assoc_elem_of {A} k (l : list (string * A)) v :
  assoc k l = Some v -> (k, v) ∈ l.
Proof.
  induction l as [|[k' v'] l IH]; simpl; [done|].
  destruct (String.eqb_spec k k') as [->|Hne].
  - intros [= ->]. left.
  - intros Hl. right. auto.
Qed.

Lemma assoc_is_Some {A} k (l : list (string * A)) :
  k ∈ map fst l -> is_Some (assoc k l).
Proof.
  induction l as [|[k' v'] l IH]; simpl.
  - intros Hk. by apply elem_of_nil in Hk.
  - destruct (String.eqb_spec k k') as [->|Hne]; [eauto|].
    intros [?|?]%elem_of_cons; [done|auto].
Qed.

Lemma assoc_key {A} k (l : list (string * A)) v :
  assoc k l = Some v -> k ∈ map fst l.
Proof.
  intros Hl. apply assoc_elem_of in Hl.
  apply (list_elem_of_fmap_2 fst) in Hl. exact Hl.
Qed.

Lemma accuracy_le_refl a : (∃ q, a = Fin q) -> accuracy_le a a.
Proof. intros [q ->]. simpl. apply Qle_refl. Qed.

Lemma max_key_loop_spec (f : string -> result pyfloat) keys :
  ∀ best bv,
  f best = Ok bv -> (∃ q, bv = Fin q) ->
  (∀ k, k ∈ keys -> ∃ q, f k = Ok (Fin q)) ->
  ∃ out ov,
    max_key_loop f keys best bv = Ok out
    ∧ f out = Ok ov
    ∧ (out = best ∨ out ∈ keys)
    ∧ accuracy_le bv ov
    ∧ ∀ k, k ∈ keys -> ∃ v, f k = Ok v ∧ accuracy_le v ov.
Proof.
  induction keys as [|k keys IH]; intros best bv Hbest [qb ->] Hall.
  - exists best, (Fin qb). simpl. split; [done|]. split; [done|]. split; [by left|].
    split; [apply Qle_refl|]. intros k Hk. by apply elem_of_nil in Hk.
  - destruct (Hall k) as [qk Hk]; [left|].
    cbn [max_key_loop]. rewrite Hk. cbn [float_gt].
    destruct (Qle_bool qk qb) eqn:E; cbn [negb].
    + destruct (IH best (Fin qb) Hbest) as (out & ov & Hrun & Hout & Hin & Hle & Hmax);
        [eauto|intros; apply Hall; by right|].
      exists out, ov. split; [done|]. split; [done|].
      split; [destruct Hin; [by left|right; by right]|]. split; [done|].
      intros k' [->|Hk']%elem_of_cons; [|by apply Hmax].
      exists (Fin qk). split; [done|].
      destruct ov as [qo| | |]; simpl in Hle |- *; try done.
      apply Qle_bool_iff in E. by eapply Qle_trans.
    + destruct (IH k (Fin qk) Hk) as (out & ov & Hrun & Hout & Hin & Hle & Hmax);
        [eauto|intros; apply Hall; by right|].
      exists out, ov. split; [done|]. split; [done|].
      split; [right; destruct Hin as [->|?]; [left|by right]|].
      assert (Hlt : (qb <= qk)%Q).
      { apply Qlt_le_weak, Qnot_le_lt. intros Hc. apply Qle_bool_iff in Hc. congruence. }
      split.
      * destruct ov as [qo| | |]; simpl in Hle |- *; try done. by eapply Qle_trans.
      * intros k' [->|Hk']%elem_of_cons; [|by apply Hmax].
        exists (Fin qk). split; [done|]. done.
Qed.

(** [find_best] returns a key of maximal accuracy. *)
Lemma find_best_spec (results : list (string * train_result)) :
  results ≠ [] ->
  Forall (fun kr => ∃ q, tr_accuracy kr.2 = Fin q) results ->
  ∃ best r,
    find_best results = Ok best
    ∧ best ∈ map fst results
    ∧ assoc best results = Some r
    ∧ ∀ m r', assoc m results = Some r' -> accuracy_le (tr_accuracy r') (tr_accuracy r).
Proof.
  intros Hne Hfin.
  assert (Hf : ∀ k, k ∈ map fst results ->
            ∃ q, accuracy_of results k = Ok (Fin q)).
  { intros k Hk. destruct (assoc_is_Some k results Hk) as [r Hr].
    unfold accuracy_of, results_getitem. rewrite Hr.
    apply assoc_elem_of in Hr. eapply Forall_forall in Hfin; [|exact Hr].
    destruct Hfin as [q Hq]. simpl in Hq. rewrite Hq. eauto. }
  unfold find_best, py_max_key.
  destruct results as [|[k0 r0] rest]; [done|]. cbn [map fst].
  destruct (Hf k0) as [q0 Hq0]; [left|]. rewrite Hq0.
  destruct (max_key_loop_spec (accuracy_of ((k0, r0) :: rest)) (map fst rest)
              k0 (Fin q0) Hq0) as (out & ov & Hrun & Hout & Hin & Hle & Hmax);
    [eauto|intros; apply Hf; by right|].
  assert (Hok : out ∈ k0 :: map fst rest).
  { destruct Hin as [->|?]; [left|by right]. }
  destruct (assoc_is_Some out ((k0, r0) :: rest) Hok) as [r Hr].
  exists out, r. split; [done|]. split; [done|]. split; [done|].
  assert (Hov : ov = tr_accuracy r).
  { unfold accuracy_of, results_getitem in Hout. rewrite Hr in Hout. congruence. }
  subst ov. intros m r' Hm.
  assert (Hacc : accuracy_of ((k0, r0) :: rest) m = Ok (tr_accuracy r')).
  { unfold accuracy_of, results_getitem. by rewrite Hm. }
  apply assoc_key in Hm. cbn [map fst] in Hm.
  apply elem_of_cons in Hm as [->|Hm].
  - rewrite Hq0 in Hacc. injection Hacc as <-. done.
  - destruct (Hmax m Hm) as (v & Hv & Hvle). congruence.
Qed.

End Selection.

Section Script.
Import Download Train Spec.
Context `{Runtime} `{Learner}.

Lemma train_one_accuracy m r :
  train_one m = Ok r -> ∃ q, tr_accuracy r = Fin q.
Proof.
  unfold train_one. destruct (fit m) as [fitted|]; [|done].
  destruct (predict fitted X_test_scaled) as [y_pred|]; [|done].
  destruct (accuracy_score y_test y_pred) as [q|]; [|done].
  intros [= <-]. eauto.
Qed.

Lemma train_loop_spec items : ∀ acc results,
  train_loop items acc = Ok results ->
  ∃ rs, results = app acc rs
        ∧ map fst rs = map fst items
        ∧ Forall (fun kr => ∃ q, tr_accuracy kr.2 = Fin q) rs.
Proof.
  induction items as [|[name m] items IH]; intros acc results; cbn [train_loop].
  - intros [= <-]. exists []. by rewrite app_nil_r.
  - destruct (train_one m) as [r|] eqn:Hr; [|done].
    intros Hloop. destruct (IH _ _ Hloop) as (rs & -> & Hnames & Hfin).
    exists ((name, r) :: rs). rewrite <- app_assoc. split; [done|].
    split; [cbn [map fst]; by f_equal|].
    constructor; [|done]. by eapply train_one_accuracy.
Qed.

Lemma train_one_trained name r :
  train_one (new_estimator name) = Ok r -> trained name r.
Proof.
  unfold train_one, trained.
  destruct (fit (new_estimator name)) as [fitted|] eqn:Hf; [|done].
  destruct (predict fitted X_test_scaled) as [y_pred|] eqn:Hp; [|done].
  destruct (accuracy_score y_test y_pred) as [q|] eqn:Hq; [|done].
  intros [= <-]. by exists fitted, y_pred, q.
Qed.

(** Every entry of [results] is what training and evaluating the
    candidate of that name gave. *)
Lemma train_loop_trained names : ∀ acc results,
  train_loop (map (fun name => (name, new_estimator name)) names) acc = Ok results ->
  ∃ rs, results = app acc rs
        ∧ map fst rs = names
        ∧ Forall (fun kr => trained kr.1 kr.2) rs.
Proof.
  induction names as [|name names IH]; intros acc results; cbn [train_loop map].
  - intros [= <-]. exists []. by rewrite app_nil_r.
  - destruct (train_one (new_estimator name)) as [r|] eqn:Hr; [|done].
    intros Hloop. destruct (IH _ _ Hloop) as (rs & -> & Hnames & Htrained).
    exists ((name, r) :: rs). rewrite <- app_assoc. split; [done|].
    split; [cbn [map fst]; by f_equal|].
    constructor; [|done]. by apply train_one_trained.
Qed.

Lemma trained_accuracy name r : trained name r -> ∃ q, tr_accuracy r = Fin q.
Proof. intros (fitted & y_pred & q & _ & _ & _ & ->). eauto. Qed.

(** What the script has computed when it reaches the example
    prediction: the seven trained candidates and the most accurate of
    them. *)
Lemma train_script_selection results :
  train_loop models [] = Ok results ->
  map fst results = model_names
  ∧ Forall (fun kr => trained kr.1 kr.2) results
  ∧ ∃ best r,
      find_best results = Ok best
      ∧ best ∈ model_names
      ∧ assoc best results = Some r
      ∧ trained best r
      ∧ ∀ m r', assoc m results = Some r' ->
                accuracy_le (tr_accuracy r') (tr_accuracy r).
Proof.
  intros Hloop. destruct (train_loop_trained _ _ _ Hloop) as (rs & -> & Hnames & Htr).
  rewrite app_nil_l in *. split; [done|]. split; [done|].
  destruct (find_best_spec rs) as (best & r & Hbest & Hin & Hr & Hmax).
  { intros ->. done. }
  { eapply Forall_impl; [exact Htr|]. intros [k r'] Hk. by eapply trained_accuracy. }
  exists best, r. rewrite <- Hnames. split_and!; try done.
  apply assoc_elem_of in Hr. eapply Forall_forall in Htr; [|exact Hr]. done.
Qed.

Lemma models_names : map fst models = model_names.
Proof. reflexivity. Qed.

End Script.

(** * The properties of the prediction-serving contract *)

Section Claims.
Import Download Predict Main Train Spec.
Context `{Runtime}.

(** C3. For every sample and every loaded components dictionary,
    [predict_with_saved_model] builds the single row in the fixed
    feature order and calls the imputer's [transform] on it, then the
    scaler's [transform] on what the imputer returned, then the
    classifier's [predict] on what the scaler returned (then
    [predict_proba]).  The calls it makes are exactly these, in this
    order: each is made when, and only when, all steps before it
    returned, so that whenever the frame is built the imputer is called,
    whenever the imputer returns the scaler is called on its output, and
    whenever the scaler returns the classifier is called on its output.
    The function returns a label exactly when the classifier gave one on
    the preprocessed row, and that label is the first entry of what
    [predict] returned. *)
Theorem predict_with_saved_model_order (mc : components) (x : sample) (s : state) :
  (predict_with_saved_model mc x s).2 = after s (pipeline_trace mc x)
  ∧ pipeline_calls mc x (pipeline_trace mc x)
  ∧ (∀ names df,
       getitem (metadata mc) "feature_names" = Ok names ->
       pd_DataFrame [feature_row x] names = Ok df ->
       ∃ then_, pipeline_trace mc x = ImputerTransform df :: then_
         ∧ ∀ imputed,
             transform (imputer mc) df = Ok imputed ->
             ∃ then_', then_ = ScalerTransform imputed :: then_'
               ∧ ∀ scaled,
                   transform (scaler mc) imputed = Ok scaled ->
                   ∃ then_'', then_' = ModelPredict scaled :: then_''
                     ∧ ∀ labels,
                         predict (model mc) scaled = Ok labels ->
                         then_'' = [ModelPredictProba scaled])
  ∧ (∀ label probability,
       (predict_with_saved_model mc x s).1 = Ok (label, probability)
       ↔ classified mc x label probability).
Proof.
  split; [apply predict_with_saved_model_trace_eq|].
  split; [apply pipeline_trace_calls|].
  split.
  - intros names df Hn Hdf. unfold pipeline_trace. rewrite Hn, Hdf.
    eexists. split; [reflexivity|]. intros imputed Hi. rewrite Hi.
    eexists. split; [reflexivity|]. intros scaled Hs. rewrite Hs.
    eexists. split; [reflexivity|]. intros labels Hp. by rewrite Hp.
  - intros label probability. split.
    + intros Hrun.
      destruct (predict_with_saved_model_calls mc x s) as (evs & _ & _ & Hok).
      by destruct (Hok label probability Hrun).
    + intros Hc.
      destruct (predict_with_saved_model_returns mc x label probability s Hc)
        as (evs & Hrun & _).
      by rewrite Hrun.
Qed.

(** C1, for a server whose model is loaded.  A request whose body is
    an object binding all nine parameters to values [float] converts,
    and for which the classifier returns a label with at least two
    class probabilities, gets a 200 prediction response whatever the
    ranges: values out of range only add one warning each to
    [validation.warnings] and make [validation.is_valid] false. *)
Theorem out_of_range_values_only_warn
    (req : request) (s : state) (mc : components)
    (items : list (string * json)) (x : sample) (label : Z) (p : list pyfloat) :
  serving s mc ->
  get_json req = Ok (JObj items) ->
  numeric_body items x ->
  classified mc x label (Some p) ->
  2 <= length p ->
  ∃ body s',
    predict_water_quality req s = (Ok (body, 200%Z), s')
    ∧ at_path body ["prediction"; "raw_prediction"] = Some (JInt label)
    ∧ at_path body ["validation"; "is_valid"]
      = Some (JBool (bool_decide (all_in_range x)))
    ∧ at_path body ["validation"; "warnings"]
      = Some (JArr (map JStr (map message_of (violations x))))
    ∧ (all_in_range x ↔ violations x = []).
Proof.
  intros Hs Hj Hb Hc Hlen.
  destruct (predict_water_quality_serves req s mc items x label p Hs Hj Hb Hc Hlen)
    as (conf & p0 & p1 & evs & _ & _ & _ & Hrun).
  eexists _, _. split; [exact Hrun|].
  split; [done|]. split; [done|]. split; [done|].
  unfold all_in_range, violations. by rewrite no_violations_iff.
Qed.

(** C4 does not hold for a loaded classifier that has no
    [predict_proba]: a request with nine numeric parameters is then
    answered 500 "Prediction failed", without a label or probability
    scores, because the final log line takes [max(probability)] of
    [None]. *)
Theorem prediction_without_proba_fails
    (req : request) (s : state) (mc : components)
    (items : list (string * json)) (x : sample) (label : Z) :
  serving s mc ->
  get_json req = Ok (JObj items) ->
  numeric_body items x ->
  classified mc x label None ->
  ∃ body s',
    predict_water_quality req s = (Ok (body, 500%Z), s')
    ∧ at_path body ["error"] = Some (JStr "Prediction failed")
    ∧ at_path body ["prediction"] = None.
Proof.
  intros Hs Hj Hb Hc.
  destruct (predict_water_quality_without_proba req s mc items x label Hs Hj Hb Hc)
    as (evs & Hrun).
  eexists _, _. split; [exact Hrun|]. done.
Qed.


(** C6, for a server whose model is loaded.  A request whose body is
    a non-empty object that omits some of the nine names gets the 400
    "Missing parameters" answer whose message lists exactly the omitted
    names; and one whose object binds all nine names, none to an
    integer beyond the float range, but some to a value [float] cannot
    convert, gets the 400 "Invalid parameter values" answer.  In both
    cases reading the body is the only call made: neither validation
    nor the predictor runs. *)
Theorem malformed_request_rejected
    (req : request) (s : state) (items : list (string * json)) :
  model_loaded s = true ->
  get_json req = Ok (JObj items) ->
  items ≠ [] ->
  (missing_names items ≠ [] ->
     predict_water_quality req s
     = (Ok (missing_parameters (missing_names items)), after s [GetJson])
     ∧ (missing_parameters (missing_names items)).2 = 400%Z
     ∧ at_path (missing_parameters (missing_names items)).1 ["message"]
       = Some (JStr ("Missing required parameters: "
                       +:+ repr_list (missing_names items)))
     ∧ ∀ name, name ∈ missing_names items
               ↔ name ∈ required_params ∧ assoc name items = None)
  ∧ ((∀ name, name ∈ required_params ->
        ∃ v, assoc name items = Some v ∧ ¬ too_large v) ->
     (∃ name v, name ∈ required_params ∧ assoc name items = Some v
                ∧ is_ok (py_float v) = false) ->
     predict_water_quality req s
     = (Ok invalid_parameter_values, after s [GetJson])
     ∧ invalid_parameter_values.2 = 400%Z
     ∧ at_path invalid_parameter_values.1 ["error"]
       = Some (JStr "Invalid parameter values")).
Proof.
  intros Hl Hj Hne. split.
  - intros Hm. split; [by apply (predict_water_quality_missing req s items)|].
    split; [done|]. split; [done|]. apply elem_of_missing_names.
  - intros Hall Hbad. split; [by apply (predict_water_quality_invalid req s items)|]. done.
Qed.

(** C9. When loading the model raised at startup, [initialize_model]
    leaves [model_loaded] false; and whenever [model_loaded] is false,
    every POST /api/predict is answered 503 "Model not loaded" with the
    state, and so the trace of calls, unchanged: the body is not read,
    and neither validation nor the predictor is called. *)
Theorem model_not_loaded_returns_503 (req : request) (s : state) :
  (is_ok (load_model s).1 = false -> model_loaded (initialize_model s).2 = false)
  ∧ (model_loaded s = false ->
       predict_water_quality req s = (Ok model_not_loaded, s)
       ∧ model_not_loaded.2 = 503%Z
       ∧ at_path model_not_loaded.1 ["error"] = Some (JStr "Model not loaded")
       ∧ trace (predict_water_quality req s).2 = trace s).
Proof.
  split.
  - destruct (load_model s) as [[c|e] s0] eqn:Hload; [done|]. intros _.
    by eapply initialize_model_failure.
  - intros Hl. rewrite (predict_water_quality_not_loaded req s Hl). done.
Qed.

End Claims.

Section PersistenceClaims.
Import Download Predict Main Train Spec.

Lemma save_trained_model_then_load
    (results : list (string * train_result)) (best_model_name : string)
    (scaler imputer : pyobj) (feature_names : list string) (model_dir : string)
    (s : state) (out : json) (s' : state) :
  save_trained_model results best_model_name scaler imputer feature_names model_dir s
  = (Ok out, s') ->
  ∃ r md,
    assoc best_model_name results = Some r
    ∧ load_trained_model model_dir (Some (strftime (now s))) s'
      = (Ok (Components (tr_model r) scaler imputer md), s')
    ∧ is_metadata_of md best_model_name r feature_names.
Proof.
  intros Hsave.
  destruct (save_trained_model_files _ _ _ _ _ _ _ _ _ Hsave)
    as (r & md & Hr & Hmd & Hdir & Hm & Hs & Hi & Hd).
  exists r, md. split; [done|]. split; [|done].
  apply load_trained_model_at; try done.
  unfold path_exists. by rewrite bool_decide_eq_true_2.
Qed.

(** C7. Save/load round trip: when [save_trained_model] persists the
    best model, the scaler, the imputer and the feature names in a
    model directory at clock reading [now s], then [load_trained_model]
    on that directory with the timestamp printed for [now s] returns a
    dictionary whose model, scaler and imputer are the saved objects and
    whose metadata records the saved model name, accuracy and feature
    names. *)
Theorem save_load_roundtrip
    (results : list (string * train_result)) (best_model_name : string)
    (scaler imputer : pyobj) (feature_names : list string) (model_dir : string)
    (s : state) (out : json) (s' : state) :
  save_trained_model results best_model_name scaler imputer feature_names model_dir s
  = (Ok out, s') ->
  ∃ r md,
    assoc best_model_name results = Some r
    ∧ load_trained_model model_dir (Some (strftime (now s))) s'
      = (Ok (Components (tr_model r) scaler imputer md), s')
    ∧ getitem md "model_name" = Ok (JStr best_model_name)
    ∧ getitem md "accuracy" = Ok (JFloat (tr_accuracy r))
    ∧ getitem md "feature_names" = Ok (JArr (map JStr feature_names)).
Proof.
  intros Hsave.
  destruct (save_trained_model_then_load _ _ _ _ _ _ _ _ _ Hsave)
    as (r & md & Hr & Hload & Hmd).
  exists r, md. split; [done|]. split; [done|]. exact Hmd.
Qed.

(** C10. Called without a timestamp on a directory that holds at least
    one model file, [load_trained_model] picks the lexicographically
    greatest of the timestamps extracted from the model files and loads
    the model, scaler, imputer and metadata files that carry it; when
    the model files are those [save_trained_model] wrote at the clock
    readings [ds], that timestamp is the one of the latest reading. *)
Theorem load_trained_model_picks_latest (dir : string) (s : state) :
  model_files dir s ≠ [] ->
  (∃ t,
     t ∈ map extract_timestamp (model_files dir s)
     ∧ (∀ t', t' ∈ map extract_timestamp (model_files dir s) -> str_le t' t)
     ∧ load_trained_model dir None s = load_trained_model dir (Some t) s
     ∧ ∀ m sc im md,
         files s !! model_path dir t = Some (PickleFile m) ->
         files s !! scaler_path dir t = Some (PickleFile sc) ->
         files s !! imputer_path dir t = Some (PickleFile im) ->
         files s !! metadata_path dir t = Some (JsonFile md) ->
         load_trained_model dir None s = (Ok (Components m sc im md), s))
  ∧ (∀ ds : list datetime,
       Forall fits_format ds ->
       model_files dir s ≡ₚ map saved_model_name ds ->
       ∃ d, d ∈ ds
            ∧ (∀ d', d' ∈ ds -> not_later d' d)
            ∧ load_trained_model dir None s
              = load_trained_model dir (Some (strftime d)) s).
Proof.
  intros Hne. split.
  - destruct (load_trained_model_most_recent dir s Hne) as (t & Hin & Hmax & Hload).
    exists t. split; [done|]. split; [done|]. split; [done|].
    intros m sc im md Hm Hs Hi Hd. rewrite Hload.
    apply load_trained_model_at; try done.
    unfold model_files, listdir in Hne. unfold_monad.
    unfold path_exists. destruct (bool_decide (dir ∈ dirs s)); [done|].
    by destruct (bool_decide (is_Some (files s !! dir))).
  - intros ds Hfit Hperm. apply load_trained_model_latest; try done.
    intros ->. apply Hne. by apply Permutation_nil_r.
Qed.

End PersistenceClaims.

Section TrainingClaims.
Import Download Predict Main Train Spec.
Context `{Runtime} `{Learner}.

(** C8. The script picks the candidate of maximal test accuracy, each
    accuracy being [accuracy_score] of what the fitted candidate
    predicts on the test set, but it does not always persist it.  Before
    saving, the script runs an example prediction that calls
    [predict_proba] on the best model without a check: when that call
    raises, as it does for the [SVC] the script constructs, the script
    stops with that exception and the state is as before, so that
    nothing is persisted for the endpoint to serve. *)
Theorem train_script_stops_before_saving
    (s : state) (results : list (string * train_result)) (best : string)
    (r : train_result) (scaled : array_like) (labels : list Z) (e : exn) :
  train_loop models [] = Ok results ->
  find_best results = Ok best ->
  assoc best results = Some r ->
  (contains best "Forest" || contains best "Trees" = true ->
   feature_importances_ (tr_model r) = Ok tt) ->
  transform fitted_scaler (NdArray [feature_row example_sample]) = Ok scaled ->
  predict (tr_model r) scaled = Ok labels ->
  predict_proba (tr_model r) scaled = Err e ->
  train_script s = (Err e, s)
  ∧ best ∈ model_names
  ∧ trained best r
  ∧ Forall (fun kr => trained kr.1 kr.2) results
  ∧ (∀ m r', assoc m results = Some r' ->
        accuracy_le (tr_accuracy r') (tr_accuracy r)).
Proof.
  intros Hloop Hbest Hr Himp Hscale Hpred Hproba.
  destruct (train_script_selection results Hloop)
    as (_ & Htrained & best' & r' & Hbest' & Hin & Hr' & Htr & Hmax).
  assert (best' = best) as -> by congruence.
  assert (r' = r) as -> by congruence.
  split; [|done].
  unfold train_script. unfold_monad. rewrite Hloop. cbn.
  rewrite Hbest. cbn. unfold results_getitem at 1. rewrite Hr. cbn.
  assert (Hex : example_prediction (tr_model r) example_sample = Err e).
  { unfold example_prediction. unfold feature_row in Hscale.
    rewrite Hscale, Hpred, Hproba. done. }
  destruct (contains best "Forest" || contains best "Trees").
  - rewrite Himp by done. cbn. by rewrite Hex.
  - cbn. by rewrite Hex.
Qed.

(** X23. When the training script runs to its end, the model it chose
    as best is one of the seven candidates, each entry of [results] is
    the fitted candidate with [accuracy_score] of its predictions on
    the test set, and no candidate has a higher accuracy; and the files
    [save_trained_model] wrote hold exactly this model, the fitted
    scaler and the fitted imputer, which is what [load_trained_model]
    then returns to the server. *)
Theorem train_script_saves_best (s : state) (out : json) (s' : state) :
  train_script s = (Ok out, s') ->
  ∃ results best r md,
    train_loop models [] = Ok results
    ∧ map fst results = model_names
    ∧ Forall (fun kr => trained kr.1 kr.2) results
    ∧ find_best results = Ok best
    ∧ best ∈ model_names
    ∧ assoc best results = Some r
    ∧ (∀ m r', assoc m results = Some r' ->
         accuracy_le (tr_accuracy r') (tr_accuracy r))
    ∧ load_trained_model "saved_models" (Some (strftime (now s))) s'
      = (Ok (Components (tr_model r) fitted_scaler fitted_imputer md), s')
    ∧ getitem md "model_name" = Ok (JStr best).
Proof.
  unfold train_script. unfold_monad.
  destruct (train_loop models []) as [results|] eqn:Hloop; cbn; [|done].
  destruct (train_script_selection results Hloop)
    as (Hnames & Htrained & best & r & Hbest & Hin & Hr & _ & Hmax).
  rewrite Hbest. cbn. unfold results_getitem at 1. rewrite Hr. cbn.
  match goal with
  | |- context [if ?b then _ else _] => destruct b
  end.
  - destruct (feature_importances_ (tr_model r)); cbn; [|done].
    destruct (example_prediction (tr_model r) example_sample) as [pp|]; cbn; [|done].
    destruct (py_max pp.2); cbn; [|done].
    intros Hsave. destruct (save_trained_model_then_load _ _ _ _ _ _ _ _ _ Hsave)
      as (r1 & md & Hr1 & Hload & Hn & _).
    assert (r1 = r) as -> by congruence.
    exists results, best, r, md. done.
  - destruct (example_prediction (tr_model r) example_sample) as [pp|]; cbn; [|done].
    destruct (py_max pp.2); cbn; [|done].
    intros Hsave. destruct (save_trained_model_then_load _ _ _ _ _ _ _ _ _ Hsave)
      as (r1 & md & Hr1 & Hload & Hn & _).
    assert (r1 = r) as -> by congruence.
    exists results, best, r, md. done.
Qed.

End TrainingClaims.

(** * The properties on concrete inputs *)

Section Instances.
Import Download Predict Main Train Spec.
#[local] Existing Instance Demo.runtime.
#[local] Existing Instance Demo.learner.

Ltac numeric :=
  unfold numeric_body, required_params, feature_row;
  repeat (apply List.Forall2_cons;
          [eexists; split; [reflexivity | vm_compute; reflexivity]|]);
  apply List.Forall2_nil.

Ltac classify p :=
  eexists _, _, _, _, _; split_and!; try reflexivity;
  try (exists p; split; reflexivity);
  try (eexists; split; reflexivity).

(** C2 on a sample whose pH and turbidity are out of range. *)
Example validate_two_violations :
  validate_input_parameters
    (Sample (of_int 15) (of_int 200) (of_int 20000) (of_int 7) (of_int 300)
            (of_int 400) (of_int 15) (of_int 70) (of_int 21))
  = Ok (false, [ "ph (?) is outside typical range (0-14)";
                 "turbidity (?) is outside typical range (0-20)" ]).
Proof. vm_compute. reflexivity. Qed.

(** C3 on the demo components: the four calls, in order. *)
Example pipeline_runs :
  predict_with_saved_model (Demo.loaded Demo.forest) (Demo.a_sample 7) Demo.started
  = (Ok (1%Z, Some [Fin (1 # 4); Fin (3 # 4)]),
     after Demo.started
       [ ImputerTransform
           (DataFrame (JArr (map JStr required_params)) [feature_row (Demo.a_sample 7)]);
         ScalerTransform (NdArray [feature_row (Demo.a_sample 7)]);
         ModelPredict (NdArray [feature_row (Demo.a_sample 7)]);
         ModelPredictProba (NdArray [feature_row (Demo.a_sample 7)]) ]).
Proof. vm_compute. reflexivity. Qed.

(** C1 does not hold when the model is not loaded: a request with
    nine numeric, in-range parameters is answered 503, not served. *)
Lemma unloaded_model_serves_nothing :
  numeric_body (Demo.body (JInt 7)) (Demo.a_sample 7)
  ∧ all_in_range (Demo.a_sample 7)
  ∧ ∃ body s',
      predict_water_quality (Demo.post (Demo.body (JInt 7))) Demo.not_started
      = (Ok (body, 503%Z), s')
      ∧ at_path body ["error"] = Some (JStr "Model not loaded")
      ∧ at_path body ["prediction"] = None.
Proof.
  split; [numeric|]. split.
  - unfold all_in_range, documented. repeat constructor; vm_compute; discriminate.
  - eexists _, _. split; [vm_compute; reflexivity|]. split; reflexivity.
Qed.

Lemma out_of_range_values_only_warn_witness :
  ∃ body s',
    predict_water_quality (Demo.post (Demo.body (JInt 15))) Demo.started
    = (Ok (body, 200%Z), s')
    ∧ at_path body ["prediction"; "raw_prediction"] = Some (JInt 0)
    ∧ at_path body ["validation"; "is_valid"]
      = Some (JBool (bool_decide (all_in_range (Demo.a_sample 15))))
    ∧ at_path body ["validation"; "warnings"]
      = Some (JArr (map JStr (map message_of (violations (Demo.a_sample 15)))))
    ∧ (all_in_range (Demo.a_sample 15) ↔ violations (Demo.a_sample 15) = []).
Proof.
  apply (out_of_range_values_only_warn
           (Demo.post (Demo.body (JInt 15))) Demo.started (Demo.loaded Demo.forest)
           (Demo.body (JInt 15)) (Demo.a_sample 15) 0%Z [Fin (3 # 4); Fin (1 # 4)]).
  - split; reflexivity.
  - reflexivity.
  - numeric.
  - classify [[Fin (3 # 4); Fin (1 # 4)]].
  - simpl. lia.
Defined.

Lemma prediction_without_proba_fails_witness :
  ∃ body s',
    predict_water_quality (Demo.post (Demo.body (JInt 7))) Demo.started_svc
    = (Ok (body, 500%Z), s')
    ∧ at_path body ["error"] = Some (JStr "Prediction failed")
    ∧ at_path body ["prediction"] = None.
Proof.
  apply (prediction_without_proba_fails
           (Demo.post (Demo.body (JInt 7))) Demo.started_svc (Demo.loaded Demo.svc)
           (Demo.body (JInt 7)) (Demo.a_sample 7) 1%Z).
  - split; reflexivity.
  - reflexivity.
  - numeric.
  - classify [[Fin (3 # 4); Fin (1 # 4)]].
Defined.



(** C6 does not hold when the model is not loaded: a non-empty body
    that omits eight names is answered 503, not 400. *)
Lemma unloaded_model_rejects_with_503 :
  [("ph", JInt 7)] ≠ ([] : list (string * json))
  ∧ missing_names [("ph", JInt 7)] ≠ []
  ∧ predict_water_quality (Demo.post [("ph", JInt 7)]) Demo.not_started
    = (Ok model_not_loaded, Demo.not_started)
  ∧ model_not_loaded.2 = 503%Z
  ∧ model_not_loaded.2 ≠ 400%Z.
Proof.
  split; [done|]. split; [vm_compute; discriminate|].
  split; [vm_compute; reflexivity|]. split; [reflexivity|]. vm_compute. discriminate.
Qed.

Lemma malformed_request_rejected_witness :
  predict_water_quality (Demo.post [("ph", JInt 7)]) Demo.started
  = (Ok (missing_parameters
           [ "hardness"; "solids"; "chloramines"; "sulfate"; "conductivity";
             "organic_carbon"; "trihalomethanes"; "turbidity" ]),
     after Demo.started [GetJson])
  ∧ predict_water_quality (Demo.post (Demo.body (JStr "abc"))) Demo.started
    = (Ok invalid_parameter_values, after Demo.started [GetJson]).
Proof.
  split.
  - destruct (malformed_request_rejected
                (Demo.post [("ph", JInt 7)]) Demo.started [("ph", JInt 7)]
                eq_refl eq_refl ltac:(done)) as [Hmissing _].
    destruct Hmissing as [Hrun _]; [vm_compute; discriminate|]. exact Hrun.
  - destruct (malformed_request_rejected
                (Demo.post (Demo.body (JStr "abc"))) Demo.started
                (Demo.body (JStr "abc")) eq_refl eq_refl ltac:(done)) as [_ Hinvalid].
    destruct Hinvalid as [Hrun _]; [| |exact Hrun].
    + intros name Hin. unfold required_params in Hin. set_unfold in Hin.
      destruct_or!; subst name; (eexists; split; [reflexivity|]);
        intros (z & Hz & Hbig); try discriminate Hz;
        injection Hz as <-; apply Z.leb_le in Hbig; vm_compute in Hbig;
        discriminate Hbig.
    + exists "ph", (JStr "abc"). split; [left|]. split; reflexivity.
Defined.

(** An integer too large for a float is not answered 400: [float]
    raises [OverflowError], which only the outer handler catches. *)
Example huge_integer_answers_500 :
  (predict_water_quality (Demo.post (Demo.body (JInt (10 ^ 400)))) Demo.started).1
  = Ok (prediction_failed (Raise OverflowError "int too large to convert to float")).
Proof. vm_compute. reflexivity. Qed.

(** A body that is a number is not answered 400 either: [in] raises
    [TypeError] on it. *)
Example number_body_answers_500 :
  (predict_water_quality (Request (Ok (JInt 5))) Demo.started).1
  = Ok (prediction_failed (Raise TypeError "argument is not iterable")).
Proof. vm_compute. reflexivity. Qed.

Lemma model_not_loaded_returns_503_witness :
  model_loaded (initialize_model Demo.not_started).2 = false
  ∧ predict_water_quality (Demo.post (Demo.body (JInt 7))) Demo.not_started
    = (Ok model_not_loaded, Demo.not_started)
  ∧ model_not_loaded.2 = 503%Z
  ∧ at_path model_not_loaded.1 ["error"] = Some (JStr "Model not loaded")
  ∧ trace (predict_water_quality (Demo.post (Demo.body (JInt 7))) Demo.not_started).2
    = trace Demo.not_started.
Proof.
  destruct (model_not_loaded_returns_503
              (Demo.post (Demo.body (JInt 7))) Demo.not_started) as [Hstart Hreq].
  split; [apply Hstart; vm_compute; reflexivity|]. apply Hreq. reflexivity.
Defined.

Lemma save_load_roundtrip_witness :
  ∃ r md,
    assoc "Random Forest" Demo.one_result = Some r
    ∧ load_trained_model "saved_models" (Some (strftime (now Demo.not_started)))
        Demo.save_run.2
      = (Ok (Components (tr_model r) (Demo.passthrough "StandardScaler")
               (Demo.passthrough "SimpleImputer") md), Demo.save_run.2)
    ∧ getitem md "model_name" = Ok (JStr "Random Forest")
    ∧ getitem md "accuracy" = Ok (JFloat (tr_accuracy r))
    ∧ getitem md "feature_names" = Ok (JArr (map JStr required_params)).
Proof.
  apply (save_load_roundtrip Demo.one_result "Random Forest"
           (Demo.passthrough "StandardScaler") (Demo.passthrough "SimpleImputer")
           required_params "saved_models" Demo.not_started
           (Demo.value_of JNull Demo.save_run.1)).
  vm_compute. reflexivity.
Defined.

Lemma train_script_saves_best_witness :
  ∃ results best r md,
    train_loop models [] = Ok results
    ∧ map fst results = model_names
    ∧ Forall (fun kr => trained kr.1 kr.2) results
    ∧ find_best results = Ok best
    ∧ best ∈ model_names
    ∧ assoc best results = Some r
    ∧ (∀ m r', assoc m results = Some r' ->
         accuracy_le (tr_accuracy r') (tr_accuracy r))
    ∧ load_trained_model "saved_models" (Some (strftime (now Demo.not_started)))
        Demo.train_run.2
      = (Ok (Components (tr_model r) fitted_scaler fitted_imputer md),
         Demo.train_run.2)
    ∧ getitem md "model_name" = Ok (JStr best).
Proof.
  apply (train_script_saves_best Demo.not_started
           (Demo.value_of JNull Demo.train_run.1)).
  vm_compute. reflexivity.
Defined.

(** The script above picks the forest, the only candidate that gets
    all four test labels right. *)
Example train_script_picks_forest :
  find_best (match train_loop models [] with Ok r => r | Err _ => [] end)
  = Ok "Random Forest".
Proof. vm_compute. reflexivity. Qed.

Lemma load_trained_model_picks_latest_witness :
  (∃ t,
     t ∈ map extract_timestamp (model_files "saved_models" Demo.two_models)
     ∧ (∀ t', t' ∈ map extract_timestamp (model_files "saved_models" Demo.two_models)
              -> str_le t' t)
     ∧ load_trained_model "saved_models" None Demo.two_models
       = load_trained_model "saved_models" (Some t) Demo.two_models
     ∧ ∀ m sc im md,
         files Demo.two_models !! model_path "saved_models" t = Some (PickleFile m) ->
         files Demo.two_models !! scaler_path "saved_models" t = Some (PickleFile sc) ->
         files Demo.two_models !! imputer_path "saved_models" t = Some (PickleFile im) ->
         files Demo.two_models !! metadata_path "saved_models" t = Some (JsonFile md) ->
         load_trained_model "saved_models" None Demo.two_models
         = (Ok (Components m sc im md), Demo.two_models))
  ∧ (∀ ds : list datetime,
       Forall fits_format ds ->
       model_files "saved_models" Demo.two_models ≡ₚ map saved_model_name ds ->
       ∃ d, d ∈ ds
            ∧ (∀ d', d' ∈ ds -> not_later d' d)
            ∧ load_trained_model "saved_models" None Demo.two_models
              = load_trained_model "saved_models" (Some (strftime d)) Demo.two_models).
Proof.
  apply (load_trained_model_picks_latest "saved_models" Demo.two_models).
  vm_compute. discriminate.
Defined.

(** Of the two saved models, the later one is loaded. *)
Example load_latest_of_two :
  (load_trained_model "saved_models" None Demo.two_models).1
  = Ok (Demo.loaded Demo.forest).
Proof. vm_compute. reflexivity. Qed.

End Instances.

(** * Further properties *)

(** ** What serving leaves alone *)

Section Frames.
Import Download Predict Main Endpoints Spec Frame.
Context `{Runtime}.

Lemma serves_only_refl s : serves_only s s.
Proof. by repeat split. Qed.

Lemma serves_only_trans s1 s2 s3 :
  serves_only s1 s2 -> serves_only s2 s3 -> serves_only s1 s3.
Proof.
  intros (Hf & Hd & Hn & Hl & Hc) (Hf' & Hd' & Hn' & Hl' & Hc').
  split_and!; try congruence.
  intros Hs. rewrite <- (Hc Hs). apply Hc'. by rewrite (Hc Hs).
Qed.

Lemma preserves_ret {A} (a : A) : preserves (ret a).
Proof. intros s. apply serves_only_refl. Qed.

Lemma preserves_raise {A} e : preserves (@raise state A e).
Proof. intros s. apply serves_only_refl. Qed.

Lemma preserves_lift {A} (r : result A) : preserves (lift r).
Proof. intros s. apply serves_only_refl. Qed.

Lemma preserves_get : preserves (@get state).
Proof. intros s. apply serves_only_refl. Qed.

Lemma preserves_emit e : preserves (emit e).
Proof. intros s. by repeat split. Qed.

Lemma preserves_bind {A B} (m : M state A) (k : A -> M state B) :
  preserves m -> (∀ a, preserves (k a)) -> preserves (bind m k).
Proof.
  intros Hm Hk s. unfold bind. specialize (Hm s).
  destruct (m s) as [[a|e] s1]; simpl in *; [|done].
  eapply serves_only_trans; [exact Hm|apply Hk].
Qed.

Lemma preserves_dispatch {A} e (clauses : list (list exn_kind * (exn -> M state A))) :
  Forall (fun c => ∀ e, preserves (c.2 e)) clauses -> preserves (dispatch e clauses).
Proof.
  induction 1 as [|[cls h] clauses Hh _ IH]; simpl; [apply preserves_raise|].
  destruct (existsb _ cls); [apply Hh|apply IH].
Qed.

Lemma preserves_try_except {A} (m : M state A) clauses :
  preserves m -> Forall (fun c => ∀ e, preserves (c.2 e)) clauses ->
  preserves (try_except m clauses).
Proof.
  intros Hm Hc s. unfold try_except. specialize (Hm s).
  destruct (m s) as [[a|e] s1]; simpl in *; [done|].
  eapply serves_only_trans; [exact Hm|]. by apply preserves_dispatch.
Qed.

Lemma reads_only_ret {A} (a : A) : reads_only (@ret state A a).
Proof. by intros s. Qed.

Lemma reads_only_raise {A} e : reads_only (@raise state A e).
Proof. by intros s. Qed.

Lemma reads_only_lift {A} (r : result A) : reads_only (@lift state A r).
Proof. by intros s. Qed.

Lemma reads_only_get : reads_only (@get state).
Proof. by intros s. Qed.

Lemma reads_only_bind {A B} (m : M state A) (k : A -> M state B) :
  reads_only m -> (∀ a, reads_only (k a)) -> reads_only (bind m k).
Proof.
  intros Hm Hk s. unfold bind. specialize (Hm s).
  destruct (m s) as [[a|e] s1]; simpl in *; subst s1; [apply Hk|done].
Qed.

Lemma reads_only_dispatch {A} e (clauses : list (list exn_kind * (exn -> M state A))) :
  Forall (fun c => ∀ e, reads_only (c.2 e)) clauses -> reads_only (dispatch e clauses).
Proof.
  induction 1 as [|[cls h] clauses Hh _ IH]; simpl; [apply reads_only_raise|].
  destruct (existsb _ cls); [apply Hh|apply IH].
Qed.

Lemma reads_only_try_except {A} (m : M state A) clauses :
  reads_only m -> Forall (fun c => ∀ e, reads_only (c.2 e)) clauses ->
  reads_only (try_except m clauses).
Proof.
  intros Hm Hc s. unfold try_except. specialize (Hm s).
  destruct (m s) as [[a|e] s1]; simpl in *; subst s1; [done|].
  by apply reads_only_dispatch.
Qed.

Ltac reads :=
  repeat first
    [ apply reads_only_ret | apply reads_only_raise | apply reads_only_lift
    | apply reads_only_get
    | apply reads_only_bind; [|intros]
    | apply reads_only_try_except; [|repeat constructor; simpl; intros]
    | match goal with
      | |- reads_only (if ?b then _ else _) => destruct b
      | |- reads_only (match ?x with _ => _ end) => destruct x
      end ].

Lemma joblib_load_reads p : reads_only (joblib_load p).
Proof. unfold joblib_load. reads. Qed.

Lemma json_load_reads p : reads_only (json_load p).
Proof. unfold json_load. reads. Qed.

Lemma listdir_reads dir : reads_only (listdir dir).
Proof. unfold listdir. reads. Qed.

(** [load_trained_model] only reads. *)
Lemma load_trained_model_reads dir ts : reads_only (load_trained_model dir ts).
Proof.
  unfold load_trained_model, most_recent_timestamp.
  reads; first [apply joblib_load_reads | apply json_load_reads | apply listdir_reads].
Qed.

Lemma load_model_preserves : preserves load_model.
Proof.
  intros s. unfold load_model. unfold_monad. simpl.
  destruct (_model_components s) as [c|] eqn:Hc; simpl; [apply serves_only_refl|].
  pose proof (load_trained_model_reads "saved_models" None s) as Hl.
  destruct (load_trained_model "saved_models" None s) as [[c|e] s1];
    simpl in Hl; subst s1; simpl; [|apply serves_only_refl].
  split_and!; simpl; try done. rewrite Hc. by intros [? ?].
Qed.

Lemma predict_with_saved_model_preserves mc x :
  preserves (predict_with_saved_model mc x).
Proof.
  intros s. destruct (predict_with_saved_model_calls mc x s) as (evs & -> & _).
  by repeat split.
Qed.

Lemma predictWaterQuality_preserves x : preserves (predictWaterQuality x).
Proof.
  unfold predictWaterQuality.
  apply preserves_bind; [apply preserves_emit|intros _].
  apply preserves_bind; [apply load_model_preserves|intros mc].
  apply predict_with_saved_model_preserves.
Qed.

Ltac keeps :=
  repeat first
    [ apply preserves_ret | apply preserves_raise | apply preserves_lift
    | apply preserves_get | apply preserves_emit
    | apply predictWaterQuality_preserves
    | apply preserves_bind; [|intros]
    | apply preserves_try_except; [|repeat constructor; simpl; intros]
    | match goal with
      | |- preserves (if ?b then _ else _) => destruct b
      | |- preserves (match ?x with _ => _ end) => destruct x
      end ].

Lemma get_water_quality_prediction_preserves x details :
  preserves (get_water_quality_prediction x details).
Proof. unfold get_water_quality_prediction. keeps. Qed.

Lemma extract_parameters_preserves data : preserves (extract_parameters data).
Proof. unfold extract_parameters. keeps. Qed.

Lemma predict_water_quality_preserves req : preserves (predict_water_quality req).
Proof.
  unfold predict_water_quality.
  keeps; first [apply get_water_quality_prediction_preserves
               | apply extract_parameters_preserves].
Qed.

(** X1. No endpoint writes a file, creates a directory or changes the
    clock, the [model_loaded] flag or components already cached:
    whatever the request, POST /api/predict only extends the trace of
    calls and may fill an empty cache, and the health and model-info
    endpoints leave the whole state as it is. *)
Theorem endpoints_leave_the_disk_alone (req : request) (s : state) :
  serves_only s (predict_water_quality req s).2
  ∧ (health_check s).2 = s
  ∧ (model_info s).2 = s.
Proof.
  split; [apply predict_water_quality_preserves|]. split.
  - revert s. change (reads_only health_check). unfold health_check. reads.
  - revert s. change (reads_only model_info). unfold model_info. reads.
Qed.

Lemma predict_water_quality_serves_only_cache req s :
  cache_ok s -> cache_ok (predict_water_quality req s).2.
Proof.
  intros Hc. destruct (predict_water_quality_preserves req s)
    as (_ & _ & _ & Hl & Hm).
  intros Hloaded. rewrite Hl in Hloaded. specialize (Hc Hloaded).
  by rewrite (Hm Hc).
Qed.

Lemma initialize_model_state s :
  (∃ mc, (initialize_model s).2
         = set_model_loaded true (set_model_components (Some mc) s)
         ∧ (_model_components s = None ∨ _model_components s = Some mc))
  ∨ (initialize_model s).2 = set_model_loaded false s.
Proof.
  unfold initialize_model, load_model. unfold_monad. simpl.
  destruct (_model_components s) as [c|] eqn:Hc; simpl.
  - left. exists c. split; [|by right]. destruct s; simpl in *. by subst.
  - pose proof (load_trained_model_reads "saved_models" None s) as Hl.
    destruct (load_trained_model "saved_models" None s) as [[c|e] s1];
      simpl in Hl; subst s1; simpl.
    + left. exists c. split; [done|by left].
    + right. destruct e as [cls msg]. by destruct cls.
Qed.

(** X2. The flag and the cache agree: after [initialize_model] the flag
    [model_loaded] is true only with components cached, the disk and the
    clock are as before, and POST /api/predict keeps that agreement. *)
Theorem model_loaded_implies_cached (req : request) (s : state) :
  cache_ok (initialize_model s).2
  ∧ files (initialize_model s).2 = files s
  ∧ dirs (initialize_model s).2 = dirs s
  ∧ now (initialize_model s).2 = now s
  ∧ (cache_ok s -> cache_ok (predict_water_quality req s).2).
Proof.
  destruct (initialize_model_state s) as [(mc & -> & _)| ->].
  - split_and!; try done.
    + intros _. simpl. eauto.
    + apply predict_water_quality_serves_only_cache.
  - split_and!; try done. apply predict_water_quality_serves_only_cache.
Qed.

End Frames.

Section Paths.
Import Download Predict Main Endpoints Spec Frame.

Lemma startswith_append_l (a b pat : string) :
  a ≠ "" -> String.length pat = 1 -> startswith (a +:+ b) pat = startswith a pat.
Proof.
  destruct a as [|c a]; [done|]. intros _.
  destruct pat as [|x [|y pat]]; [done| |done]. intros _. by rewrite append_cons.
Qed.

Lemma no_slash_start (f : string) :
  each_char (fun c => c ≠ "/"%char) f -> startswith f "/" = false.
Proof.
  destruct f as [|x f]; [done|]. intros [Hx _]. cbn [startswith].
  assert (E : Ascii.eqb "/" x = false) by (apply Ascii.eqb_neq; congruence).
  by rewrite E.
Qed.

Lemma ancestors_no_slash (f : string) :
  each_char (fun c => c ≠ "/"%char) f -> ancestors f = [].
Proof.
  induction f as [|c f IH]; [done|]. intros [Hc Hf]. cbn [ancestors].
  by rewrite (IH Hf), (no_slash_start f Hf).
Qed.

Lemma ancestors_root_entry (f : string) :
  each_char (fun c => c ≠ "/"%char) f -> ancestors ("/" +:+ f) = [].
Proof.
  intros Hf. rewrite append_cons, append_nil_l. cbn [ancestors].
  by rewrite (ancestors_no_slash f Hf), (no_slash_start f Hf).
Qed.

(** Above a file directly in directory [a] are [a] and what is above
    [a]. *)
Lemma ancestors_entry (a f : string) :
  a ≠ "" -> each_char (fun c => c ≠ "/"%char) f ->
  ancestors (a +:+ "/" +:+ f) = a :: ancestors a.
Proof.
  intros Ha Hf. induction a as [|c a IH]; [done|].
  rewrite append_cons. cbn [ancestors].
  destruct a as [|c' a].
  - rewrite !append_nil_l, (ancestors_root_entry f Hf).
    rewrite append_cons. reflexivity.
  - rewrite IH by done.
    rewrite (startswith_append_l (String c' a) ("/" +:+ f) "/") by done.
    reflexivity.
Qed.

(** A path directly in an existing directory that is neither a file
    nor a directory is simply missing. *)
Lemma open_error_in_dir (dir f : string) (s : state) :
  dir ∈ dirs s -> each_char (fun c => c ≠ "/"%char) f ->
  dir +:+ "/" +:+ f ∉ dirs s ->
  open_error s (dir +:+ "/" +:+ f)
  = Raise FileNotFoundError ("No such file or directory: " +:+ dir +:+ "/" +:+ f).
Proof.
  intros Hd Hf Hp. unfold open_error. rewrite bool_decide_eq_false_2 by done.
  destruct (decide (dir = "")) as [->|Hne].
  - rewrite append_nil_l, (ancestors_root_entry f Hf). reflexivity.
  - rewrite (ancestors_entry dir f Hne Hf). simpl.
    by rewrite bool_decide_eq_true_2.
Qed.

Lemma no_slash_append (a b : string) :
  each_char (fun c => c ≠ "/"%char) a -> each_char (fun c => c ≠ "/"%char) b ->
  each_char (fun c => c ≠ "/"%char) (a +:+ b).
Proof. intros Ha Hb. by apply each_char_append. Qed.

End Paths.

(** ** Loading: when it succeeds and how it fails *)

Section Loading.
Import Download Predict Main Endpoints Spec Frame.

Ltac load_fails :=
  match goal with
  | |- context [if ?b then _ else _] => destruct b
  end; done.

(** X3. [load_trained_model] with a timestamp returns exactly when the
    directory exists and the four files of that timestamp are there,
    three pickles and a JSON document; what it returns is their
    contents, and the state is as before. *)
Theorem load_trained_model_returns_iff
    (dir t : string) (s : state) (c : components) :
  load_trained_model dir (Some t) s = (Ok c, s)
  ↔ path_exists s dir = true
    ∧ files s !! model_path dir t = Some (PickleFile (model c))
    ∧ files s !! scaler_path dir t = Some (PickleFile (scaler c))
    ∧ files s !! imputer_path dir t = Some (PickleFile (imputer c))
    ∧ files s !! metadata_path dir t = Some (JsonFile (metadata c)).
Proof.
  split.
  - unfold load_trained_model, joblib_load, json_load. unfold_monad.
    destruct (path_exists s dir) eqn:He; cbn; [|done].
    destruct (files s !! model_path dir t) as [[?|?]|]; cbn; try done;
      [|load_fails].
    destruct (files s !! scaler_path dir t) as [[?|?]|]; cbn; try done;
      [|load_fails].
    destruct (files s !! imputer_path dir t) as [[?|?]|]; cbn; try done;
      [|load_fails].
    destruct (files s !! metadata_path dir t) as [[?|?]|]; cbn; try done;
      [|load_fails].
    by intros [= <-].
  - intros (He & Hm & Hs & Hi & Hd).
    unfold load_trained_model, joblib_load, json_load. unfold_monad.
    rewrite He. cbn. rewrite Hm. cbn. rewrite Hs. cbn. rewrite Hi. cbn.
    rewrite Hd. cbn. by destruct c.
Qed.

(** The path of each of the four files lies directly in the model
    directory when the timestamp has no slash. *)
Lemma component_names dir t :
  each_char (fun c => c ≠ "/"%char) t ->
  ∃ fm fs fi fd,
    model_path dir t = dir +:+ "/" +:+ fm ∧ scaler_path dir t = dir +:+ "/" +:+ fs
    ∧ imputer_path dir t = dir +:+ "/" +:+ fi ∧ metadata_path dir t = dir +:+ "/" +:+ fd
    ∧ each_char (fun c => c ≠ "/"%char) fm ∧ each_char (fun c => c ≠ "/"%char) fs
    ∧ each_char (fun c => c ≠ "/"%char) fi ∧ each_char (fun c => c ≠ "/"%char) fd.
Proof.
  intros Ht.
  exists ("water_quality_model_" +:+ t +:+ ".pkl"), ("scaler_" +:+ t +:+ ".pkl"),
         ("imputer_" +:+ t +:+ ".pkl"), ("model_metadata_" +:+ t +:+ ".json").
  unfold model_path, scaler_path, imputer_path, metadata_path.
  split_and!; try (f_equal; reflexivity);
    (apply no_slash_append; [by repeat split|];
     apply no_slash_append; [done|by repeat split]).
Qed.

(** X4. How loading fails.  A missing directory raises [FileNotFoundError]
    naming it; a directory without model files raises
    [FileNotFoundError] "No saved models found" when no timestamp is
    given; and in an existing directory, for a timestamp without a
    slash, when some of the four files is missing, none of the four
    paths being a directory or holding a file of the wrong kind, the
    error is a [FileNotFoundError] whose message starts "Required model
    file not found: ".  The state is unchanged in each case. *)
Theorem load_trained_model_not_found (dir : string) (s : state) :
  (∀ ts, path_exists s dir = false ->
     load_trained_model dir ts s
     = (Err (Raise FileNotFoundError ("Model directory '" +:+ dir +:+ "' not found")),
        s))
  ∧ (dir ∈ dirs s -> model_files dir s = [] ->
     load_trained_model dir None s
     = (Err (Raise FileNotFoundError "No saved models found"), s))
  ∧ (∀ t, dir ∈ dirs s ->
       each_char (fun c => c ≠ "/"%char) t ->
       pickle_or_missing s (model_path dir t) ->
       pickle_or_missing s (scaler_path dir t) ->
       pickle_or_missing s (imputer_path dir t) ->
       json_or_missing s (metadata_path dir t) ->
       (files s !! model_path dir t = None ∨ files s !! scaler_path dir t = None
        ∨ files s !! imputer_path dir t = None
        ∨ files s !! metadata_path dir t = None) ->
       ∃ e, load_trained_model dir (Some t) s = (Err e, s)
            ∧ exn_class e = FileNotFoundError
            ∧ startswith (exn_msg e) "Required model file not found: " = true).
Proof.
  split_and!.
  - intros ts He. unfold load_trained_model. unfold_monad. by rewrite He.
  - intros Hd Hnone. unfold load_trained_model, most_recent_timestamp. unfold_monad.
    unfold path_exists. rewrite (bool_decide_eq_true_2 _ Hd). cbn.
    unfold model_files in Hnone. pose proof (listdir_state dir s) as Hs.
    unfold listdir in *. unfold_monad. rewrite (bool_decide_eq_true_2 _ Hd) in *.
    cbn in *. by rewrite Hnone.
  - intros t Hdir Ht [Hmd Hm] [Hsd Hs] [Hid Hi] [Hdd Hd] Hmiss.
    destruct (component_names dir t Ht)
      as (fm & fs & fi & fd & Em & Es & Ei & Ed & Nm & Ns & Ni & Nd).
    assert (He : path_exists s dir = true).
    { unfold path_exists. by rewrite bool_decide_eq_true_2. }
    unfold load_trained_model, joblib_load, json_load. unfold_monad.
    rewrite He. cbn. rewrite Em, Es, Ei, Ed in *.
    destruct (files s !! (dir +:+ "/" +:+ fm)) as [[?|?]|]; cbn; try done.
    2:{ rewrite (open_error_in_dir dir fm s Hdir Nm Hmd). by eexists. }
    destruct (files s !! (dir +:+ "/" +:+ fs)) as [[?|?]|]; cbn; try done.
    2:{ rewrite (open_error_in_dir dir fs s Hdir Ns Hsd). by eexists. }
    destruct (files s !! (dir +:+ "/" +:+ fi)) as [[?|?]|]; cbn; try done.
    2:{ rewrite (open_error_in_dir dir fi s Hdir Ni Hid). by eexists. }
    destruct (files s !! (dir +:+ "/" +:+ fd)) as [[?|?]|]; cbn; try done.
    2:{ rewrite (open_error_in_dir dir fd s Hdir Nd Hdd). by eexists. }
    destruct Hmiss as [?|[?|[?|?]]]; done.
Qed.

End Loading.

(** ** Saving: what is written and what is left *)

Section Saving.
Import Download Predict Main Endpoints Spec Frame.

Lemma length_append (a b : string) :
  String.length (a +:+ b) = String.length a + String.length b.
Proof.
  induction a as [|c a IH]; [done|]. rewrite append_cons. simpl. by rewrite IH.
Qed.

Lemma append_inj_r (a b c : string) : a +:+ c = b +:+ c -> a = b.
Proof.
  revert b. induction a as [|x a IH]; intros [|y b] Heq; [done| | |].
  - apply (f_equal String.length) in Heq.
    rewrite append_nil_l, append_cons in Heq. simpl in Heq.
    rewrite length_append in Heq. lia.
  - apply (f_equal String.length) in Heq.
    rewrite append_nil_l, append_cons in Heq. simpl in Heq.
    rewrite length_append in Heq. lia.
  - rewrite !append_cons in Heq. injection Heq as -> Heq. f_equal. by apply IH.
Qed.

Lemma save_trained_model_other_paths
    results best_model_name scaler imputer feature_names model_dir s out s' p :
  save_trained_model results best_model_name scaler imputer feature_names model_dir s
  = (Ok out, s') ->
  let t := strftime (now s) in
  p ≠ model_path model_dir t -> p ≠ scaler_path model_dir t ->
  p ≠ imputer_path model_dir t -> p ≠ metadata_path model_dir t ->
  p ≠ results_path model_dir t ->
  files s' !! p = files s !! p.
Proof.
  unfold save_trained_model, makedirs, joblib_dump, json_dump, results_getitem.
  unfold_monad.
  destruct (String.eqb model_dir ""); cbn; [done|].
  destruct (bool_decide (is_Some (files s !! model_dir))); cbn; [done|].
  destruct (under_file s (ancestors model_dir)); cbn; [done|].
  destruct (assoc best_model_name results) as [r|] eqn:Hr; cbn; [|done].
  intros [= <- <-]. cbn. intros. by rewrite !lookup_insert_ne.
Qed.

Lemma save_trained_model_rest
    results best_model_name scaler imputer feature_names model_dir s out s' :
  save_trained_model results best_model_name scaler imputer feature_names model_dir s
  = (Ok out, s') ->
  dirs s' = {[model_dir]} ∪ list_to_set (ancestors model_dir) ∪ dirs s
  ∧ now s' = now s
  ∧ model_loaded s' = model_loaded s
  ∧ _model_components s' = _model_components s ∧ trace s' = trace s.
Proof.
  unfold save_trained_model, makedirs, joblib_dump, json_dump, results_getitem.
  unfold_monad.
  destruct (String.eqb model_dir ""); cbn; [done|].
  destruct (bool_decide (is_Some (files s !! model_dir))); cbn; [done|].
  destruct (under_file s (ancestors model_dir)); cbn; [done|].
  destruct (assoc best_model_name results) as [r|] eqn:Hr; cbn; [|done].
  by intros [= <- <-].
Qed.


(** X6. A best-model name that is not a key of [results] raises [KeyError]
    naming it, when [os.makedirs] succeeds: the model directory and
    those above it have been created by then, but no file has been
    written. *)
Theorem save_trained_model_unknown_best
    (results : list (string * train_result)) (best_model_name : string)
    (scaler imputer : pyobj) (feature_names : list string) (model_dir : string)
    (s : state) :
  normal_path model_dir ->
  assoc best_model_name results = None ->
  (makedirs model_dir s).1 = Ok tt ->
  ∃ s',
    save_trained_model results best_model_name scaler imputer feature_names model_dir s
    = (Err (Raise KeyError best_model_name), s')
    ∧ files s' = files s
    ∧ dirs s' = {[model_dir]} ∪ list_to_set (ancestors model_dir) ∪ dirs s.
Proof.
  intros _ Hr.
  unfold save_trained_model, makedirs, joblib_dump, json_dump, results_getitem.
  unfold_monad.
  destruct (String.eqb model_dir ""); cbn; [done|].
  destruct (bool_decide (is_Some (files s !! model_dir))); cbn; [done|].
  destruct (under_file s (ancestors model_dir)); cbn; [done|].
  intros _. rewrite Hr. cbn. eexists. split; [reflexivity|]. done.
Qed.

End Saving.

(** ** Saving and loading together *)

Section SaveThenLoad.
Import Download Predict Main Train Endpoints Spec Frame.

Lemma strftime_inj a b :
  fits_format a -> fits_format b -> strftime a = strftime b -> a = b.
Proof.
  intros Ha Hb Heq.
  pose proof (strftime_compare a b Ha Hb) as Hc.
  rewrite Heq, string_compare_refl in Hc. unfold dt_compare in Hc.
  destruct a as [y1 m1 d1 h1 i1 s1], b as [y2 m2 d2 h2 i2 s2]. simpl in Hc.
  destruct (Nat.compare_spec y1 y2); try done.
  destruct (Nat.compare_spec m1 m2); try done.
  destruct (Nat.compare_spec d1 d2); try done.
  destruct (Nat.compare_spec h1 h2); try done.
  destruct (Nat.compare_spec i1 i2); try done.
  destruct (Nat.compare_spec s1 s2); try done.
  by subst.
Qed.

Ltac other_time Hne :=
  unfold model_path, scaler_path, imputer_path, metadata_path, results_path;
  let Hp := fresh "Hp" in
  intros Hp; apply append_inj_l in Hp;
  first
    [ simpl in Hp; discriminate Hp
    | apply append_inj_l in Hp; apply append_inj_r in Hp; apply Hne; congruence ].

(** X7. Two saves at different clock readings do not disturb each other:
    after the second, the model saved first still loads under its own
    timestamp, and the second under its own. *)
Theorem two_saves_keep_both
    (results1 results2 : list (string * train_result)) (best1 best2 : string)
    (scaler1 imputer1 scaler2 imputer2 : pyobj) (names1 names2 : list string)
    (model_dir : string) (later : datetime)
    (s : state) (out1 : json) (s1 : state) (out2 : json) (s2 : state) :
  save_trained_model results1 best1 scaler1 imputer1 names1 model_dir s = (Ok out1, s1) ->
  save_trained_model results2 best2 scaler2 imputer2 names2 model_dir (at_time later s1)
  = (Ok out2, s2) ->
  fits_format (now s) -> fits_format later -> now s ≠ later ->
  ∃ r1 md1 r2 md2,
    assoc best1 results1 = Some r1 ∧ assoc best2 results2 = Some r2
    ∧ load_trained_model model_dir (Some (strftime (now s))) s2
      = (Ok (Components (tr_model r1) scaler1 imputer1 md1), s2)
    ∧ is_metadata_of md1 best1 r1 names1
    ∧ load_trained_model model_dir (Some (strftime later)) s2
      = (Ok (Components (tr_model r2) scaler2 imputer2 md2), s2)
    ∧ is_metadata_of md2 best2 r2 names2.
Proof.
  intros Hsave1 Hsave2 Hfit1 Hfit2 Hne.
  destruct (save_trained_model_files _ _ _ _ _ _ _ _ _ Hsave1)
    as (r1 & md1 & Hr1 & Hmd1 & Hdir1 & Hm & Hs & Hi & Hd).
  destruct (save_trained_model_then_load _ _ _ _ _ _ _ _ _ Hsave2)
    as (r2 & md2 & Hr2 & Hload2 & Hmd2).
  destruct (save_trained_model_rest _ _ _ _ _ _ _ _ _ Hsave2) as (Hdirs & _).
  pose proof (fun p => save_trained_model_other_paths _ _ _ _ _ _ _ _ _ p Hsave2)
    as Hother.
  change (now (at_time later s1)) with later in *.
  exists r1, md1, r2, md2. split_and!; try done.
  assert (Ht : strftime (now s) ≠ strftime later).
  { intros Heq. by apply Hne, strftime_inj. }
  assert (Ht' : strftime later ≠ strftime (now s)) by congruence.
  simpl in Hother. change (now (at_time later s1)) with later in Hother.
  change (files (at_time later s1)) with (files s1) in Hother.
  apply load_trained_model_at.
  - unfold path_exists. rewrite Hdirs. rewrite bool_decide_eq_true_2; [done|].
    do 2 apply elem_of_union_l. by apply elem_of_singleton.
  - rewrite Hother; [exact Hm|other_time Ht..].
  - rewrite Hother; [exact Hs|other_time Ht..].
  - rewrite Hother; [exact Hi|other_time Ht..].
  - rewrite Hother; [exact Hd|other_time Ht..].
Qed.


Lemma append_assoc (a b c : string) : (a +:+ b) +:+ c = a +:+ (b +:+ c).
Proof.
  induction a as [|x a IH]; [done|]. rewrite !append_cons. by f_equal.
Qed.

Lemma strip_prefix_app (a b : string) : strip_prefix a (a +:+ b) = Some b.
Proof.
  induction a as [|x a IH]; [by destruct b|].
  rewrite append_cons. simpl. by rewrite Ascii.eqb_refl.
Qed.

Lemma strip_prefix_Some (a s b : string) : strip_prefix a s = Some b -> s = a +:+ b.
Proof.
  revert s. induction a as [|x a IH]; intros s; simpl.
  - intros [= ->]. by rewrite append_nil_l.
  - destruct s as [|y s]; [done|].
    destruct (Ascii.eqb_spec x y) as [->|]; [|done].
    intros Hs. rewrite append_cons. f_equal. by apply IH.
Qed.

Lemma entry_of_Some dir p f : entry_of dir p = Some f -> p = dir +:+ "/" +:+ f.
Proof.
  unfold entry_of. destruct (strip_prefix (dir +:+ "/") p) as [n|] eqn:Hs; [|done].
  destruct (contains n "/" || String.eqb n ""); [done|]. intros [= ->].
  apply strip_prefix_Some in Hs. by rewrite Hs, append_assoc.
Qed.

Lemma contains_absent c (s : string) :
  each_char (fun x => x ≠ c) s -> contains s (String c "") = false.
Proof.
  induction s as [|x s IH]; [done|]. intros [Hx Hs]. simpl.
  rewrite (IH Hs).
  assert (E : Ascii.eqb c x = false) by (apply Ascii.eqb_neq; congruence).
  by rewrite E.
Qed.

Lemma entry_of_file dir (f : string) :
  each_char (fun x => x ≠ "/"%char) f -> f ≠ "" ->
  entry_of dir (dir +:+ "/" +:+ f) = Some f.
Proof.
  intros Hf Hne. unfold entry_of.
  rewrite <- append_assoc, strip_prefix_app, (contains_absent _ _ Hf).
  destruct (String.eqb_spec f ""); done.
Qed.

Lemma entry_of_self dir : entry_of dir dir = None.
Proof.
  unfold entry_of. destruct (strip_prefix (dir +:+ "/") dir) as [n|] eqn:Hs; [|done].
  apply strip_prefix_Some in Hs. apply (f_equal String.length) in Hs.
  rewrite !length_append in Hs. simpl in Hs. lia.
Qed.

Lemma ancestors_shorter (p a : string) :
  a ∈ ancestors p -> String.length a < String.length p.
Proof.
  revert a. induction p as [|c p IH]; intros a; cbn [ancestors].
  - by intros ?%elem_of_nil.
  - rewrite elem_of_app, list_elem_of_fmap. intros [(a' & -> & Ha)|Ha].
    + specialize (IH a' Ha). simpl. lia.
    + destruct p as [|x p]; [by apply elem_of_nil in Ha|].
      destruct (startswith (String x p) "/"); [|by apply elem_of_nil in Ha].
      apply list_elem_of_singleton in Ha as ->. simpl. lia.
Qed.

(** A directory above [dir] is no entry of [dir]. *)
Lemma entry_of_ancestor dir a : a ∈ ancestors dir -> entry_of dir a = None.
Proof.
  intros Ha%ancestors_shorter. unfold entry_of.
  destruct (strip_prefix (dir +:+ "/") a) as [n|] eqn:Hs; [|done].
  apply strip_prefix_Some in Hs. apply (f_equal String.length) in Hs.
  rewrite !length_append in Hs. simpl in Hs. lia.
Qed.

Lemma digit_not_slash n : digit n ≠ "/"%char.
Proof.
  unfold digit. pose proof (Nat.mod_upper_bound n 10 ltac:(lia)) as Hn.
  destruct (n mod 10) as [|[|[|[|[|[|[|[|[|[|k]]]]]]]]]]; [done..|lia].
Qed.

Lemma digits_no_slash w n : each_char (fun x => x ≠ "/"%char) (digits w n).
Proof.
  revert n. induction w as [|w IH]; intros n; simpl; [done|].
  split; [apply digit_not_slash|apply IH].
Qed.

Lemma saved_model_name_no_slash d :
  each_char (fun x => x ≠ "/"%char) (saved_model_name d).
Proof.
  unfold saved_model_name, strftime. rewrite !each_char_append.
  split_and!; try apply digits_no_slash; by repeat split.
Qed.

Lemma model_path_entry dir d :
  model_path dir (strftime d) = dir +:+ "/" +:+ saved_model_name d.
Proof.
  unfold model_path, saved_model_name. generalize (strftime d). intros ts.
  f_equal.
Qed.

Lemma elem_of_model_files dir s f :
  f ∈ model_files dir s
  ↔ dir ∈ dirs s ∧ startswith f "water_quality_model_" = true
    ∧ ∃ p, (is_Some (files s !! p) ∨ p ∈ dirs s) ∧ entry_of dir p = Some f.
Proof.
  unfold model_files, listdir. unfold_monad.
  destruct (bool_decide (dir ∈ dirs s)) eqn:Hd.
  - apply bool_decide_eq_true in Hd. cbn.
    rewrite list_elem_of_In, filter_In, <- list_elem_of_In, elem_of_app.
    rewrite !list_elem_of_omap. split.
    + intros [[([p v] & Hin & He)|(p & Hin & He)] Hs].
      * apply elem_of_map_to_list in Hin. split_and!; try done.
        exists p. split; [left; eauto|done].
      * apply elem_of_elements in Hin. split_and!; try done.
        exists p. split; [by right|done].
    + intros (_ & Hs & p & [[v Hv]|Hin] & He).
      * split; [|done]. left. exists (p, v). split; [|done].
        by apply elem_of_map_to_list.
      * split; [|done]. right. exists p. split; [|done]. by apply elem_of_elements.
  - apply bool_decide_eq_false in Hd.
    destruct (bool_decide (is_Some (files s !! dir))); cbn;
      (split; [by intros ?%elem_of_nil|by intros [? _]]).
Qed.

Lemma str_le_antisym a b : str_le a b -> str_le b a -> a = b.
Proof.
  unfold str_le. intros Hab Hba.
  pose proof (String.compare_antisym a b) as Hs.
  destruct (String.compare a b) eqn:E; [by apply String.compare_eq_iff|..].
  - exfalso. apply Hba. by destruct (String.compare b a).
  - done.
Qed.

Ltac other_entry Hpath Hstart :=
  apply append_inj_l in Hpath; rewrite !append_cons, !append_nil_l in Hpath;
  injection Hpath as Hpath; rewrite <- Hpath in Hstart; simpl in Hstart;
  discriminate Hstart.

(** After a save, the timestamp [load_trained_model] picks on its own
    is that of the save, provided no earlier model file carries a
    greater one. *)
Lemma save_trained_model_latest_timestamp
    results best_model_name scaler imputer feature_names model_dir s out s' :
  save_trained_model results best_model_name scaler imputer feature_names model_dir s
  = (Ok out, s') ->
  no_newer_model model_dir s (strftime (now s)) ->
  load_trained_model model_dir None s'
  = load_trained_model model_dir (Some (strftime (now s))) s'.
Proof.
  intros Hsave Hold.
  destruct (save_trained_model_files _ _ _ _ _ _ _ _ _ Hsave)
    as (r0 & md0 & _ & _ & Hdir & Hm & _).
  destruct (save_trained_model_rest _ _ _ _ _ _ _ _ _ Hsave) as (Hdirs & _).
  pose proof (fun p => save_trained_model_other_paths _ _ _ _ _ _ _ _ _ p Hsave)
    as Hother. simpl in Hother.
  set (t := strftime (now s)) in *.
  pose proof (model_path_entry model_dir (now s)) as Hname. fold t in Hname.
  assert (Hnew : saved_model_name (now s) ∈ model_files model_dir s').
  { apply elem_of_model_files. split_and!; [done|done|].
    exists (model_path model_dir t). split; [left; eauto|].
    rewrite Hname. apply entry_of_file; [apply saved_model_name_no_slash|done]. }
  assert (Hne : model_files model_dir s' ≠ []).
  { intros Hnil. rewrite Hnil in Hnew. by apply elem_of_nil in Hnew. }
  destruct (load_trained_model_most_recent model_dir s' Hne) as (u & Hin & Hmax & Hpick).
  assert (Hu : u = t); [|by subst u].
  apply str_le_antisym.
  - apply list_elem_of_fmap in Hin as (f & -> & Hf).
    apply elem_of_model_files in Hf as (_ & Hstart & p & Hp & He).
    destruct (decide (p = model_path model_dir t)) as [->|Hp1].
    { rewrite Hname in He. rewrite entry_of_file in He;
        [|apply saved_model_name_no_slash|done].
      injection He as <-. rewrite extract_timestamp_saved. apply str_le_refl. }
    pose proof (entry_of_Some _ _ _ He) as Hpath.
    destruct (decide (p = scaler_path model_dir t)) as [->|Hp2].
    { unfold scaler_path in Hpath. other_entry Hpath Hstart. }
    destruct (decide (p = imputer_path model_dir t)) as [->|Hp3].
    { unfold imputer_path in Hpath. other_entry Hpath Hstart. }
    destruct (decide (p = metadata_path model_dir t)) as [->|Hp4].
    { unfold metadata_path in Hpath. other_entry Hpath Hstart. }
    destruct (decide (p = results_path model_dir t)) as [->|Hp5].
    { unfold results_path in Hpath. other_entry Hpath Hstart. }
    apply (Hold p f); [|done|done].
    rewrite Hother in Hp by done. rewrite Hdirs in Hp.
    destruct Hp as [Hp|Hp]; [by left|].
    apply elem_of_union in Hp as [[Hp|Hp]%elem_of_union|Hp]; [| |by right].
    { apply elem_of_singleton in Hp. subst p. by rewrite entry_of_self in He. }
    apply elem_of_list_to_set in Hp. by rewrite (entry_of_ancestor _ _ Hp) in He.
  - apply Hmax. apply list_elem_of_fmap. exists (saved_model_name (now s)).
    split; [by rewrite extract_timestamp_saved|done].
Qed.

(** X8. After a save, [load_trained_model] called without a timestamp
    returns what was just saved, provided no model file already in the
    directory carries a greater timestamp than the clock reading of the
    save. *)
Theorem save_then_load_without_timestamp
    results best_model_name scaler imputer feature_names model_dir s out s' :
  save_trained_model results best_model_name scaler imputer feature_names model_dir s
  = (Ok out, s') ->
  no_newer_model model_dir s (strftime (now s)) ->
  ∃ r md,
    assoc best_model_name results = Some r
    ∧ load_trained_model model_dir None s'
      = (Ok (Components (tr_model r) scaler imputer md), s')
    ∧ is_metadata_of md best_model_name r feature_names.
Proof.
  intros Hsave Hold.
  destruct (save_trained_model_then_load _ _ _ _ _ _ _ _ _ Hsave)
    as (r & md & Hr & Hload & Hmd).
  exists r, md. split; [done|]. split; [|done].
  by rewrite (save_trained_model_latest_timestamp _ _ _ _ _ _ _ _ _ Hsave Hold).
Qed.

End SaveThenLoad.

(** ** From the training script to the server *)

Section Deployment.
Import Download Predict Main Train Endpoints Spec Frame.
Context `{Runtime} `{Learner}.

(** What the script did when it ran to its end. *)
Lemma train_script_inv s out s' :
  train_script s = (Ok out, s') ->
  ∃ results best,
    train_loop models [] = Ok results
    ∧ find_best results = Ok best
    ∧ save_trained_model results best fitted_scaler fitted_imputer columns
        "saved_models" s = (Ok out, s').
Proof.
  unfold train_script. unfold_monad.
  destruct (train_loop models []) as [results|] eqn:Hloop; cbn; [|done].
  destruct (find_best results) as [best|] eqn:Hbest; cbn; [|done].
  destruct (results_getitem results best) as [r|] eqn:Hr; cbn; [|done].
  match goal with
  | |- context [if ?b then _ else _] => destruct b
  end.
  - destruct (feature_importances_ (tr_model r)); cbn; [|done].
    destruct (example_prediction (tr_model r) example_sample) as [pp|]; cbn; [|done].
    destruct (py_max pp.2); cbn; [|done]. eauto.
  - destruct (example_prediction (tr_model r) example_sample) as [pp|]; cbn; [|done].
    destruct (py_max pp.2); cbn; [|done]. eauto.
Qed.

Lemma initialize_model_loads s c :
  _model_components s = None ->
  load_trained_model "saved_models" None s = (Ok c, s) ->
  initialize_model s
  = (Ok tt, set_model_loaded true (set_model_components (Some c) s)).
Proof.
  intros Hnone Hload. unfold initialize_model, load_model. unfold_monad. simpl.
  rewrite Hnone. simpl. by rewrite Hload.
Qed.

Lemma dict_get_getitem md k v d : getitem md k = Ok v -> dict_get md k d = Ok v.
Proof.
  destruct md as [| | | | | |kv]; simpl; try done.
  destruct (assoc k kv); by intros [= ->].
Qed.

(** A server with cached components whose metadata has the three keys
    answers GET /api/model-info with them. *)
Lemma model_info_loaded s c name r feature_names :
  _model_components s = Some c ->
  is_metadata_of (metadata c) name r feature_names ->
  ∃ body,
    model_info s = (Ok (body, 200%Z), s)
    ∧ at_path body ["status"] = Some (JStr "loaded")
    ∧ at_path body ["model_name"] = Some (JStr name)
    ∧ at_path body ["accuracy"] = Some (JFloat (tr_accuracy r))
    ∧ at_path body ["feature_names"] = Some (JArr (map JStr feature_names)).
Proof.
  intros Hc (Hname & Hacc & Hfeat).
  unfold model_info. unfold_monad. simpl. rewrite Hc. simpl.
  rewrite (dict_get_getitem _ _ _ _ Hname), (dict_get_getitem _ _ _ _ Hacc),
    (dict_get_getitem _ _ _ _ Hfeat).
  destruct (metadata c) as [| | | | | |kv]; try done. simpl.
  eexists. split; [reflexivity|]. done.
Qed.

(** X9. The training script, then a server start on the disk it left: the
    server serves the model the script chose as best, with the fitted
    scaler and imputer, and GET /api/model-info names that model.  The
    server process starts with an empty cache, and no model file
    already in [saved_models] may carry a greater timestamp. *)
Theorem trained_model_is_served (s : state) (out : json) (s' : state) :
  train_script s = (Ok out, s') ->
  _model_components s = None ->
  no_newer_model "saved_models" s (strftime (now s)) ->
  ∃ results best r md body,
    train_loop models [] = Ok results
    ∧ find_best results = Ok best
    ∧ assoc best results = Some r
    ∧ (initialize_model s').1 = Ok tt
    ∧ serving (initialize_model s').2
        (Components (tr_model r) fitted_scaler fitted_imputer md)
    ∧ files (initialize_model s').2 = files s'
    ∧ (model_info (initialize_model s').2).1 = Ok (body, 200%Z)
    ∧ at_path body ["model_name"] = Some (JStr best)
    ∧ at_path body ["accuracy"] = Some (JFloat (tr_accuracy r)).
Proof.
  intros Hrun Hnone Hold.
  destruct (train_script_inv _ _ _ Hrun) as (results & best & Hloop & Hbest & Hsave).
  destruct (save_trained_model_then_load _ _ _ _ _ _ _ _ _ Hsave)
    as (r & md & Hr & Hload & Hmd).
  rewrite <- (save_trained_model_latest_timestamp _ _ _ _ _ _ _ _ _ Hsave Hold)
    in Hload.
  destruct (save_trained_model_rest _ _ _ _ _ _ _ _ _ Hsave)
    as (_ & _ & _ & Hcache & _).
  rewrite Hnone in Hcache.
  rewrite (initialize_model_loads s' _ Hcache Hload). cbn [fst snd].
  destruct (model_info_loaded
              (set_model_loaded true
                 (set_model_components
                    (Some (Components (tr_model r) fitted_scaler fitted_imputer md)) s'))
              _ best r columns eq_refl Hmd)
    as (body & Hinfo & _ & Hn & Ha & _).
  exists results, best, r, md, body. rewrite Hinfo. by split_and!.
Qed.

(** X10. A running server does not see a later save: with components
    cached, [load_model] returns them from the state a save leaves,
    although [load_trained_model] on that state, given the timestamp of
    the save, returns the newly saved ones, and so it does without a
    timestamp when no model file already in [saved_models] carries a
    greater one. *)
Theorem running_server_keeps_its_model
    results best_model_name scaler imputer feature_names (s : state)
    (mc : components) out s' :
  serving s mc ->
  save_trained_model results best_model_name scaler imputer feature_names
    "saved_models" s = (Ok out, s') ->
  serving s' mc
  ∧ load_model s' = (Ok mc, s')
  ∧ ∃ r md, assoc best_model_name results = Some r
      ∧ load_trained_model "saved_models" (Some (strftime (now s))) s'
        = (Ok (Components (tr_model r) scaler imputer md), s')
      ∧ (no_newer_model "saved_models" s (strftime (now s)) ->
         load_trained_model "saved_models" None s'
         = (Ok (Components (tr_model r) scaler imputer md), s')).
Proof.
  intros [Hl Hc] Hsave.
  destruct (save_trained_model_rest _ _ _ _ _ _ _ _ _ Hsave)
    as (_ & _ & Hl' & Hc' & _).
  destruct (save_trained_model_then_load _ _ _ _ _ _ _ _ _ Hsave)
    as (r & md & Hr & Hload & _).
  split_and!.
  - split; congruence.
  - unfold load_model. unfold_monad. simpl. by rewrite Hc', Hc.
  - exists r, md. split; [done|]. split; [done|]. intros Hold.
    by rewrite (save_trained_model_latest_timestamp _ _ _ _ _ _ _ _ _ Hsave Hold).
Qed.

End Deployment.

(** ** Ties between models *)

Section Ties.
Import Download Predict Main Train Endpoints Spec Frame.

Lemma max_key_loop_first (f : string -> result pyfloat) keys :
  ∀ best bv,
  f best = Ok bv -> (∃ q, bv = Fin q) ->
  (∀ k, k ∈ keys -> ∃ q, f k = Ok (Fin q)) ->
  ∃ out ov,
    max_key_loop f keys best bv = Ok out
    ∧ f out = Ok ov
    ∧ ((out = best ∧ ov = bv
        ∧ ∀ k, k ∈ keys -> ∃ v, f k = Ok v ∧ accuracy_le v bv)
       ∨ ∃ pre post,
           keys = app pre (out :: post)
           ∧ accuracy_lt bv ov
           ∧ (∀ k, k ∈ pre -> ∃ v, f k = Ok v ∧ accuracy_lt v ov)
           ∧ (∀ k, k ∈ post -> ∃ v, f k = Ok v ∧ accuracy_le v ov)).
Proof.
  induction keys as [|k keys IH]; intros best bv Hbest [qb ->] Hall.
  - exists best, (Fin qb). simpl. split; [done|]. split; [done|]. left.
    split; [done|]. split; [done|]. intros k Hk. by apply elem_of_nil in Hk.
  - destruct (Hall k) as [qk Hk]; [left|].
    cbn [max_key_loop]. rewrite Hk. cbn [float_gt].
    destruct (Qle_bool qk qb) eqn:E; cbn [negb].
    + apply Qle_bool_iff in E.
      destruct (IH best (Fin qb) Hbest) as (out & ov & Hrun & Hout & Hcase);
        [eauto|intros; apply Hall; by right|].
      exists out, ov. split; [done|]. split; [done|].
      destruct Hcase as [(-> & -> & Hle)|(pre & post & -> & Hlt & Hpre & Hpost)].
      * left. split; [done|]. split; [done|].
        intros k' [->|Hk']%elem_of_cons; [|by apply Hle].
        exists (Fin qk). by split.
      * right. exists (k :: pre), post. split; [done|]. split; [done|].
        split; [|done].
        intros k' [->|Hk']%elem_of_cons; [|by apply Hpre].
        exists (Fin qk). split; [done|].
        destruct ov as [qo| | |]; simpl in Hlt |- *; try done.
        by eapply Qle_lt_trans.
    + assert (Hlt : (qb < qk)%Q).
      { apply Qnot_le_lt. intros Hc. apply Qle_bool_iff in Hc. congruence. }
      destruct (IH k (Fin qk) Hk) as (out & ov & Hrun & Hout & Hcase);
        [eauto|intros; apply Hall; by right|].
      exists out, ov. split; [done|]. split; [done|]. right.
      destruct Hcase as [(-> & -> & Hle)|(pre & post & -> & Hlt' & Hpre & Hpost)].
      * exists [], keys. split; [done|]. split; [done|]. split; [|done].
        intros k' Hk'. by apply elem_of_nil in Hk'.
      * exists (k :: pre), post. split; [done|].
        destruct ov as [qo| | |]; simpl in Hlt' |- *; try done.
        split; [by eapply Qlt_trans|]. split; [|done].
        intros k' [->|Hk']%elem_of_cons; [|by apply Hpre].
        exists (Fin qk). by split.
Qed.

Lemma accuracy_of_Ok results k v :
  accuracy_of results k = Ok v ->
  ∃ r, assoc k results = Some r ∧ tr_accuracy r = v.
Proof.
  unfold accuracy_of, results_getitem.
  destruct (assoc k results) as [r|]; [|done]. intros [= <-]. eauto.
Qed.

(** X11. [max] keeps the first of equally accurate models: the name
    [find_best] returns splits the keys of [results], in insertion
    order, into names of strictly lower accuracy before it and names of
    at most its accuracy after it.  In the script the order is that of
    the [models] dictionary, so that on a tie the model listed first is
    the one saved. *)
Theorem find_best_first_maximum (results : list (string * train_result)) :
  results ≠ [] ->
  Forall (fun kr => ∃ q, tr_accuracy kr.2 = Fin q) results ->
  ∃ best r pre post,
    find_best results = Ok best
    ∧ assoc best results = Some r
    ∧ map fst results = app pre (best :: post)
    ∧ (∀ k, k ∈ pre ->
         ∃ r', assoc k results = Some r'
               ∧ accuracy_lt (tr_accuracy r') (tr_accuracy r))
    ∧ (∀ k, k ∈ post ->
         ∃ r', assoc k results = Some r'
               ∧ accuracy_le (tr_accuracy r') (tr_accuracy r)).
Proof.
  intros Hne Hfin.
  assert (Hf : ∀ k, k ∈ map fst results ->
            ∃ q, accuracy_of results k = Ok (Fin q)).
  { intros k Hk. destruct (assoc_is_Some k results Hk) as [r Hr].
    unfold accuracy_of, results_getitem. rewrite Hr.
    apply assoc_elem_of in Hr. eapply Forall_forall in Hfin; [|exact Hr].
    destruct Hfin as [q Hq]. simpl in Hq. rewrite Hq. eauto. }
  unfold find_best, py_max_key.
  destruct results as [|[k0 r0] rest]; [done|]. cbn [map fst] in *.
  set (results := (k0, r0) :: rest) in *.
  destruct (Hf k0) as [q0 Hq0]; [left|]. rewrite Hq0.
  destruct (max_key_loop_first (accuracy_of results) (map fst rest)
              k0 (Fin q0) Hq0) as (out & ov & Hrun & Hout & Hcase);
    [eauto|intros; apply Hf; by right|].
  destruct (accuracy_of_Ok _ _ _ Hout) as (r & Hr & <-).
  assert (Hlift : ∀ (P : pyfloat -> Prop) k,
            (∃ v, accuracy_of results k = Ok v ∧ P v) ->
            ∃ r', assoc k results = Some r' ∧ P (tr_accuracy r')).
  { intros P k (v & Hv & HP). destruct (accuracy_of_Ok _ _ _ Hv) as (r' & Hr' & <-).
    eauto. }
  destruct Hcase as [(-> & Hv & Hle)|(pre & post & Hkeys & Hlt & Hpre & Hpost)].
  - exists k0, r, [], (map fst rest). split_and!; try done.
    + intros k Hk. by apply elem_of_nil in Hk.
    + intros k Hk. apply (Hlift (fun v => accuracy_le v (tr_accuracy r))).
      rewrite Hv. by apply Hle.
  - exists out, r, (k0 :: pre), post. split_and!; try done.
    + by rewrite Hkeys.
    + intros k [->|Hk]%elem_of_cons.
      * apply (Hlift (fun v => accuracy_lt v (tr_accuracy r))). eauto.
      * apply (Hlift (fun v => accuracy_lt v (tr_accuracy r))). by apply Hpre.
    + intros k Hk. apply (Hlift (fun v => accuracy_le v (tr_accuracy r))).
      by apply Hpost.
Qed.

End Ties.

(** ** The request handler at its edges *)

Section HandlerEdges.
Import Download Predict Main Train Endpoints Spec Frame.
Context `{Runtime}.

(** X12. The handler always answers: it never raises, its status is 200,
    400, 500 or 503, and it is 503 exactly when the model is not
    loaded. *)
Theorem predict_water_quality_always_answers (req : request) (s : state) :
  ∃ body code s',
    predict_water_quality req s = (Ok (body, code), s')
    ∧ code ∈ [200; 400; 500; 503]%Z
    ∧ (code = 503%Z ↔ model_loaded s = false).
Proof.
  unfold predict_water_quality. unfold_monad.
  destruct (model_loaded s); cbn.
  2:{ eexists _, _, _. split; [reflexivity|]. split; [|done].
      rewrite !elem_of_cons. tauto. }
  assert (Hno : ∀ c : Z, (c = 200 ∨ c = 400 ∨ c = 500)%Z ->
            c ∈ [200; 400; 500; 503]%Z ∧ (c = 503%Z ↔ true = false)).
  { intros c Hc. split; [rewrite !elem_of_cons; tauto|]. split; [lia|done]. }
  destruct (get_json req) as [data|e]; cbn.
  2:{ eexists _, _, _. split; [reflexivity|]. apply Hno. tauto. }
  destruct (truthy data); cbn.
  2:{ eexists _, _, _. split; [reflexivity|]. apply Hno. tauto. }
  destruct (missing_in data required_params) as [[|m ms]|e]; cbn.
  2,3:eexists _, _, _; (split; [reflexivity|]); apply Hno; tauto.
  destruct (extract_parameters data _) as [[x|e] s1]; cbn.
  2:{ match goal with |- context [if ?b then _ else _] => destruct b end; cbn;
      eexists _, _, _; (split; [reflexivity|]); apply Hno; tauto. }
  destruct (validate_input_parameters x) as [[valid warnings]|e]; cbn.
  2:{ eexists _, _, _. split; [reflexivity|]. apply Hno. tauto. }
  destruct (predictWaterQuality x _) as [[[label probability]|e] s2]; cbn.
  2:{ eexists _, _, _. split; [reflexivity|]. apply Hno. tauto. }
  destruct (get_water_quality_prediction x true s2) as [[r|e] s3]; cbn.
  2:{ eexists _, _, _. split; [reflexivity|]. apply Hno. tauto. }
  destruct (max_opt probability) as [conf|e]; cbn.
  2:{ eexists _, _, _. split; [reflexivity|]. apply Hno. tauto. }
  destruct (index_opt probability 0) as [p0|e]; cbn.
  2:{ eexists _, _, _. split; [reflexivity|]. apply Hno. tauto. }
  destruct (index_opt probability 1) as [p1|e]; cbn.
  2:{ eexists _, _, _. split; [reflexivity|]. apply Hno. tauto. }
  destruct (log_confidence probability) as [c|e]; cbn.
  2:{ eexists _, _, _. split; [reflexivity|]. apply Hno. tauto. }
  eexists _, _, _. split; [reflexivity|]. apply Hno. tauto.
Qed.

(** X13. A body the handler cannot use.  When [get_json] returns something
    falsy (null, false, zero, the empty string, list or object) the
    answer is 400 "No input data"; when [get_json] raises, the outer
    handler answers 500 with the exception's message.  Either way only
    [get_json] was called. *)
Theorem predict_water_quality_unusable_body (req : request) (s : state) :
  model_loaded s = true ->
  match get_json req with
  | Ok data =>
      truthy data = false ->
      predict_water_quality req s = (Ok no_input_data, after s [GetJson])
  | Err e =>
      predict_water_quality req s = (Ok (prediction_failed e), after s [GetJson])
  end.
Proof.
  intros Hloaded. unfold predict_water_quality. unfold_monad. rewrite Hloaded. cbn.
  destruct (get_json req) as [data|e]; cbn.
  - intros ->. reflexivity.
  - destruct e as [cls msg]. by destruct cls.
Qed.

Lemma missing_in_iterable data names :
  (∃ l, data = JArr l) ∨ (∃ str, data = JStr str) ->
  ∃ l, missing_in data names = Ok l.
Proof.
  intros Hd. induction names as [|n names [l IH]]; [by eexists|].
  unfold missing_in; fold (missing_in data names). rewrite IH.
  destruct Hd as [[l' ->]|[str ->]]; unfold py_in; eauto.
Qed.

(** X14. A body that is not a JSON object never gets a prediction: the
    answer is 400 or 500, and nothing but [get_json] was called.  A
    list or a string that contains all nine names passes the check for
    missing parameters and is rejected by the conversion. *)
Theorem predict_water_quality_non_object (req : request) (s : state) (data : json) :
  model_loaded s = true ->
  get_json req = Ok data ->
  (∀ items, data ≠ JObj items) ->
  ∃ body code,
    predict_water_quality req s = (Ok (body, code), after s [GetJson])
    ∧ (code = 400%Z ∨ code = 500%Z).
Proof.
  intros Hloaded Hjson Hobj.
  unfold predict_water_quality. unfold_monad. rewrite Hloaded. cbn.
  rewrite Hjson. cbn.
  destruct (truthy data) eqn:Ht; cbn.
  2:{ eexists _, _. split; [reflexivity|]. by left. }
  destruct data as [|b|z|f|str|l|items].
  - done.
  - eexists _, _. split; [reflexivity|]. by right.
  - eexists _, _. split; [reflexivity|]. by right.
  - eexists _, _. split; [reflexivity|]. by right.
  - destruct (missing_in_iterable (JStr str) required_params) as [[|m ms] ->];
      [eauto| |]; cbn.
    + eexists _, _. split; [reflexivity|]. by left.
    + eexists _, _. split; [reflexivity|]. by left.
  - destruct (missing_in_iterable (JArr l) required_params) as [[|m ms] ->];
      [eauto| |]; cbn.
    + eexists _, _. split; [reflexivity|]. by left.
    + eexists _, _. split; [reflexivity|]. by left.
  - by destruct (Hobj items).
Qed.

Lemma py_float_too_large v :
  too_large v ->
  py_float v = Err (Raise OverflowError "int too large to convert to float").
Proof.
  intros (z & -> & Hz). simpl.
  destruct (Z.abs z <? float_overflow_bound)%Z eqn:E; [|done].
  apply Z.ltb_lt in E. lia.
Qed.

(** X15. An integer too large for a float is not a client error to the
    handler: when every parameter is present and each value either
    converts or is such an integer, and at least one is, [float] raises
    [OverflowError], which the inner [except (ValueError, TypeError)]
    lets through, and the answer is 500 "Prediction failed". *)
Theorem predict_water_quality_overflow (req : request) (s : state)
    (items : list (string * json)) :
  model_loaded s = true ->
  get_json req = Ok (JObj items) ->
  (∀ name, name ∈ required_params ->
     ∃ v, assoc name items = Some v
          ∧ (is_ok (py_float v) = true ∨ too_large v)) ->
  (∃ name v, name ∈ required_params ∧ assoc name items = Some v ∧ too_large v) ->
  predict_water_quality req s
  = (Ok (prediction_failed
           (Raise OverflowError "int too large to convert to float")),
     after s [GetJson]).
Proof.
  intros Hloaded Hjson Hall (name & v & Hin & Hv & Hbig).
  assert (Hmiss : missing_names items = []).
  { unfold missing_names. apply filter_nil_iff, Forall_forall.
    intros n Hn Hnone. destruct (Hall n Hn) as (w & Hw & _). congruence. }
  assert (Ht : truthy (JObj items) = true) by (by destruct items).
  assert (Hcls : ∀ n e, n ∈ required_params ->
            float_field (JObj items) n = Err e ->
            e = Raise OverflowError "int too large to convert to float").
  { intros n e Hn. destruct (Hall n Hn) as (w & Hw & [Hok|Hw']).
    - unfold float_field, getitem. rewrite Hw. by destruct (py_float w).
    - unfold float_field, getitem. rewrite Hw, (py_float_too_large _ Hw').
      by intros [= <-]. }
  assert (Hfail : is_ok (float_field (JObj items) name) = false).
  { unfold float_field, getitem. by rewrite Hv, (py_float_too_large _ Hbig). }
  unfold predict_water_quality. unfold_monad. rewrite Hloaded. cbn.
  rewrite Hjson. cbn. rewrite Ht. cbn.
  rewrite missing_in_object. fold (missing_names items). rewrite Hmiss. cbn.
  unfold extract_parameters. unfold_monad. unfold required_params in *.
  repeat match goal with
         | |- context [float_field (JObj items) ?k] =>
             let E := fresh "E" in
             destruct (float_field (JObj items) k) as [?|?] eqn:E; cbn;
             [| apply Hcls in E; [subst; reflexivity|solve [repeat constructor]] ]
         end.
  exfalso. set_unfold in Hin.
  repeat match goal with
         | Hin : _ ∨ _ |- _ => destruct Hin as [->|Hin]
         | E : float_field _ ?k = Ok _, Hf : is_ok (float_field _ ?k) = false |- _ =>
             rewrite E in Hf; discriminate
         end.
  done.
Qed.

End HandlerEdges.

(** ** The informational endpoints *)

Section Information.
Import Download Predict Main Train Endpoints Spec Frame.
Context `{Runtime}.

(** X16. GET /api/model-info always answers and changes nothing.  It says
    "not_loaded" exactly when no components are cached, and answers 500
    exactly when the cached metadata is not a JSON object (then
    [metadata.get] raises); otherwise the status is 200. *)
Theorem model_info_always_answers (s : state) :
  ∃ body code,
    model_info s = (Ok (body, code), s)
    ∧ (code = 200%Z ∨ code = 500%Z)
    ∧ (code = 500%Z
       ↔ ∃ c, _model_components s = Some c ∧ ∀ kv, metadata c ≠ JObj kv)
    ∧ (at_path body ["status"] = Some (JStr "not_loaded")
       ↔ _model_components s = None).
Proof.
  unfold model_info. unfold_monad. simpl.
  destruct (_model_components s) as [c|] eqn:Hc; simpl.
  - destruct (metadata c) as [| | | | | |kv] eqn:Hmd; simpl.
    1-6:(eexists _, _; split; [reflexivity|]; split; [by right|];
         split; [|done]; split; [|done]; intros _; exists c;
         split; [done|]; intros kv; by rewrite Hmd).
    eexists _, _. split; [reflexivity|]. split; [by left|].
    split; [|done]. split; [done|].
    intros (c' & [= <-] & Hno). rewrite Hmd in Hno. by destruct (Hno kv).
  - eexists _, _. split; [reflexivity|]. split; [by left|].
    split; [|done]. split; [done|]. by intros (c & Hc' & _).
Qed.

(** X17. GET /api/health after start-up: the answer is 200 "healthy" whether
    or not the model could be loaded, and its [model_loaded] field tells
    which: it is true exactly when [load_model] returned. *)
Theorem health_check_reports_startup (s : state) :
  ∃ body,
    health_check (initialize_model s).2 = (Ok (body, 200%Z), (initialize_model s).2)
    ∧ at_path body ["status"] = Some (JStr "healthy")
    ∧ at_path body ["model_loaded"] = Some (JBool (is_ok (load_model s).1)).
Proof.
  eexists. split; [reflexivity|]. split; [done|].
  unfold initialize_model, try_except. unfold_monad.
  destruct (load_model s) as [[c|e] s1]; simpl; [done|].
  destruct e as [cls msg]. by destruct cls.
Qed.

End Information.

(** ** Listing the saved models *)

Section ListingOfModels.
Import Download Predict Main Train Endpoints Listing Spec Frame.

Lemma split_plain sep (b : string) :
  each_char (fun c => c ≠ sep) b -> split sep b = [b].
Proof.
  induction b as [|c b IH]; [done|]. intros [Hc Hb]. simpl.
  assert (E : Ascii.eqb c sep = false) by (by apply Ascii.eqb_neq).
  by rewrite E, (IH Hb).
Qed.

Lemma split_app sep (a b : string) :
  each_char (fun c => c ≠ sep) a ->
  split sep (a +:+ String sep b) = a :: split sep b.
Proof.
  induction a as [|c a IH].
  - intros _. rewrite append_nil_l. simpl. by rewrite Ascii.eqb_refl.
  - intros [Hc Ha]. rewrite append_cons. simpl.
    assert (E : Ascii.eqb c sep = false) by (by apply Ascii.eqb_neq).
    by rewrite E, (IH Ha).
Qed.

Lemma digit_not_underscore n : digit n ≠ "_"%char.
Proof.
  unfold digit. pose proof (Nat.mod_upper_bound n 10 ltac:(lia)) as Hn.
  destruct (n mod 10) as [|[|[|[|[|[|[|[|[|[|k]]]]]]]]]]; [done..|lia].
Qed.

Lemma digits_no_underscore w n : each_char (fun x => x ≠ "_"%char) (digits w n).
Proof.
  revert n. induction w as [|w IH]; intros n; simpl; [done|].
  split; [apply digit_not_underscore|apply IH].
Qed.

Lemma time_of_day_plain d : each_char plain (time_of_day d).
Proof.
  unfold time_of_day. rewrite !each_char_append. split_and!; apply digits_plain.
Qed.

(** [model_file.split("_")[-1]] on a name [save_trained_model] gives:
    only the time of day is left of the timestamp. *)
Lemma last_segment_saved d :
  index_last (split "_" (saved_model_name d)) = Ok (time_of_day d +:+ ".pkl").
Proof.
  assert (E : saved_model_name d
              = "water" +:+ String "_" ("quality" +:+ String "_" ("model" +:+ String "_"
                  ((digits 4 (year d) +:+ digits 2 (month d) +:+ digits 2 (day d))
                   +:+ String "_" (time_of_day d +:+ ".pkl"))))).
  { unfold saved_model_name, strftime, time_of_day. rewrite !append_assoc.
    reflexivity. }
  rewrite E.
  rewrite (split_app "_" "water") by (by repeat split).
  rewrite (split_app "_" "quality") by (by repeat split).
  rewrite (split_app "_" "model") by (by repeat split).
  rewrite split_app
    by (rewrite !each_char_append; split_and!; apply digits_no_underscore).
  rewrite split_plain; [done|].
  unfold time_of_day. rewrite !each_char_append.
  split_and!; try apply digits_no_underscore. by repeat split.
Qed.

Lemma remove_pkl ts : each_char plain ts -> remove_all (ts +:+ ".pkl") ".pkl" = ts.
Proof.
  intros Hp.
  assert (Hd : each_char (fun c => c ≠ "."%char) ts).
  { eapply each_char_impl; [|exact Hp]. by intros c [? ?]. }
  unfold remove_all. rewrite (remove_from_absent _ _ _ _ Hd).
  change (remove_from ".pkl" 0 ".pkl") with "". apply append_nil_r.
Qed.

(** The loop body on a saved model whose probed metadata file is
    absent. *)
Lemma list_entry_saved dir d s out :
  dir ∈ dirs s ->
  files s !! metadata_path dir (time_of_day d) = None ->
  metadata_path dir (time_of_day d) ∉ dirs s ->
  list_entry dir (saved_model_name d) (s, out)
  = (Ok tt, (s, app out [MetadataNotFound (saved_model_name d)])).
Proof.
  intros Hin Hfile Hdir.
  assert (E : metadata_path dir (time_of_day d)
              = dir +:+ "/" +:+ ("model_metadata_" +:+ time_of_day d +:+ ".json")).
  { unfold metadata_path. f_equal. }
  assert (Hmissing : exn_class (open_error s (metadata_path dir (time_of_day d)))
                     = FileNotFoundError).
  { rewrite E in Hdir |- *. rewrite open_error_in_dir; [done|done| |done].
    rewrite !each_char_append. split_and!; [by repeat split| |by repeat split].
    unfold time_of_day. rewrite !each_char_append.
    split_and!; apply digits_no_slash. }
  unfold list_entry. unfold_monad.
  rewrite last_segment_saved. cbn [fst snd].
  rewrite (remove_pkl _ (time_of_day_plain d)).
  unfold world, json_load. unfold_monad. cbn [fst snd]. rewrite Hfile. cbn [fst snd].
  destruct (open_error s (metadata_path dir (time_of_day d))) as [cls msg].
  simpl in Hmissing. subst cls. reflexivity.
Qed.

Lemma metadata_entry dir ts :
  each_char (fun x => x ≠ "/"%char) ts ->
  entry_of dir (metadata_path dir ts) = Some ("model_metadata_" +:+ ts +:+ ".json").
Proof.
  intros Hts.
  assert (E : metadata_path dir ts = dir +:+ "/" +:+ ("model_metadata_" +:+ ts +:+ ".json")).
  { unfold metadata_path. f_equal. }
  rewrite E. apply entry_of_file; [|done].
  rewrite !each_char_append. split_and!; [by repeat split|done|by repeat split].
Qed.

(** In a directory that only [save_trained_model] wrote to, the file
    the listing probes for a saved model does not exist. *)
Lemma probe_absent dir s d :
  written_by_saves dir s ->
  files s !! metadata_path dir (time_of_day d) = None
  ∧ metadata_path dir (time_of_day d) ∉ dirs s.
Proof.
  intros Hw.
  assert (Hno : ¬ (is_Some (files s !! metadata_path dir (time_of_day d))
                   ∨ metadata_path dir (time_of_day d) ∈ dirs s)).
  { intros Hp.
    destruct (Hw _ _ Hp (metadata_entry dir (time_of_day d) ltac:(
      unfold time_of_day; rewrite !each_char_append;
      split_and!; apply digits_no_slash))) as (d' & Hin).
    rewrite !elem_of_cons in Hin.
    destruct Hin as [Hq|[Hq|[Hq|[Hq|[Hq|Hq]]]]];
      try (by apply elem_of_nil in Hq);
      unfold metadata_path, model_path, scaler_path, imputer_path, results_path in Hq;
      apply append_inj_l in Hq;
      rewrite !append_cons in Hq; discriminate Hq. }
  split.
  - destruct (files s !! _) eqn:E; [|done]. exfalso. apply Hno. left. eauto.
  - intros Hin. apply Hno. by right.
Qed.

Lemma for_each_saved dir s (l : list string) : ∀ out,
  dir ∈ dirs s ->
  written_by_saves dir s ->
  Forall (fun f => ∃ d, f = saved_model_name d) l ->
  for_each l (list_entry dir) (s, out)
  = (Ok tt, (s, app out (map MetadataNotFound l))).
Proof.
  induction l as [|f l IH]; intros out Hin Hw Hl.
  - simpl. unfold_monad. by rewrite app_nil_r.
  - apply Forall_cons in Hl as [[d ->] Hl].
    destruct (probe_absent dir s d Hw) as [Hf Hd].
    cbn [for_each]. unfold bind at 1.
    rewrite (list_entry_saved dir d s out Hin Hf Hd).
    rewrite (IH _ Hin Hw Hl). by rewrite <- app_assoc.
Qed.

Lemma elem_of_insert_sorted x y l : x ∈ insert_sorted y l ↔ x = y ∨ x ∈ l.
Proof.
  induction l as [|z l IH]; simpl.
  - rewrite elem_of_cons. done.
  - destruct (str_gt y z); rewrite !elem_of_cons, ?IH; tauto.
Qed.

Lemma elem_of_sorted x l : x ∈ sorted l ↔ x ∈ l.
Proof.
  induction l as [|y l IH]; [done|]. unfold sorted in *. simpl.
  rewrite elem_of_insert_sorted, elem_of_cons, IH. done.
Qed.

Ltac not_a_model Hpath Hstart :=
  apply append_inj_l in Hpath; rewrite !append_cons, !append_nil_l in Hpath;
  injection Hpath as Hpath; rewrite <- Hpath in Hstart; simpl in Hstart;
  discriminate Hstart.

(** The model files of a directory that only [save_trained_model]
    wrote to carry the names it gives. *)
Lemma model_files_saved dir s f :
  written_by_saves dir s -> f ∈ model_files dir s -> ∃ d, f = saved_model_name d.
Proof.
  intros Hw Hf.
  apply elem_of_model_files in Hf as (_ & Hstart & p & Hp & He).
  destruct (Hw _ _ Hp He) as (d & Hin). exists d.
  pose proof (entry_of_Some _ _ _ He) as Hpath.
  rewrite !elem_of_cons in Hin.
  destruct Hin as [Hq|[Hq|[Hq|[Hq|[Hq|Hq]]]]];
    try (by apply elem_of_nil in Hq); subst p.
  - rewrite model_path_entry in Hpath. apply append_inj_l in Hpath.
    rewrite !append_cons, !append_nil_l in Hpath. by injection Hpath.
  - unfold scaler_path in Hpath. not_a_model Hpath Hstart.
  - unfold imputer_path in Hpath. not_a_model Hpath Hstart.
  - unfold metadata_path in Hpath. not_a_model Hpath Hstart.
  - unfold results_path in Hpath. not_a_model Hpath Hstart.
Qed.

Lemma listdir_model_files dir s :
  dir ∈ dirs s ->
  ∃ entries,
    listdir dir s = (Ok entries, s)
    ∧ model_files dir s
      = List.filter (fun f => startswith f "water_quality_model_") entries.
Proof.
  intros Hdir. unfold model_files, listdir. unfold_monad.
  rewrite bool_decide_eq_true_2 by done. eexists. split; reflexivity.
Qed.

(** X18. The listing never shows the metadata of a model that
    [save_trained_model] saved.  The last segment of the file name after
    an underscore is only the time of day of the timestamp, so the
    metadata file looked for is not the one that was written: in a
    directory that holds only what [save_trained_model] wrote, every
    model is listed as "Metadata not found", in ascending order of file
    name. *)
Theorem list_saved_models_misses_metadata (dir : string) (s : state) (out : list line) :
  dir ∈ dirs s ->
  written_by_saves dir s ->
  list_saved_models dir (s, out)
  = (Ok tt,
     (s, app out
           match model_files dir s with
           | [] => [NoSavedModels]
           | fs => ListingTitle :: ListingRule :: map MetadataNotFound (sorted fs)
           end)).
Proof.
  intros Hdir Hw.
  assert (Hall : Forall (fun f => ∃ d, f = saved_model_name d) (sorted (model_files dir s))).
  { apply Forall_forall. intros f Hf. apply (proj1 (elem_of_sorted _ _)) in Hf.
    exact (model_files_saved dir s f Hw Hf). }
  destruct (listdir_model_files dir s Hdir) as (entries & Hl & Hm).
  rewrite Hm in *. clear Hm.
  assert (Hex : path_exists s dir = true).
  { unfold path_exists. by rewrite bool_decide_eq_true_2. }
  unfold list_saved_models, world. unfold_monad. cbn [fst snd].
  rewrite Hex. cbn [fst snd negb]. rewrite Hl. cbn [fst snd].
  revert Hall.
  generalize (List.filter (fun f => startswith f "water_quality_model_") entries).
  intros fs Hall. destruct fs as [|f fs]; [done|].
  unfold print at 1 2. unfold_monad. cbn [fst snd].
  rewrite (for_each_saved dir s _ _ Hdir Hw Hall).
  by rewrite <- !app_assoc.
Qed.

(** A save keeps the directory one that only saves wrote to. *)
Lemma save_trained_model_written_by_saves
    results best_model_name scaler imputer feature_names model_dir s out s' :
  save_trained_model results best_model_name scaler imputer feature_names model_dir s
  = (Ok out, s') ->
  written_by_saves model_dir s -> written_by_saves model_dir s'.
Proof.
  intros Hsave Hw p f Hp He.
  destruct (save_trained_model_rest _ _ _ _ _ _ _ _ _ Hsave) as (Hdirs & _).
  pose proof (save_trained_model_other_paths _ _ _ _ _ _ _ _ _ p Hsave) as Hother.
  simpl in Hother.
  destruct (decide (p = model_path model_dir (strftime (now s)))) as [->|H1].
  { exists (now s). rewrite !elem_of_cons. tauto. }
  destruct (decide (p = scaler_path model_dir (strftime (now s)))) as [->|H2].
  { exists (now s). rewrite !elem_of_cons. tauto. }
  destruct (decide (p = imputer_path model_dir (strftime (now s)))) as [->|H3].
  { exists (now s). rewrite !elem_of_cons. tauto. }
  destruct (decide (p = metadata_path model_dir (strftime (now s)))) as [->|H4].
  { exists (now s). rewrite !elem_of_cons. tauto. }
  destruct (decide (p = results_path model_dir (strftime (now s)))) as [->|H5].
  { exists (now s). rewrite !elem_of_cons. tauto. }
  apply (Hw p f); [|done].
  rewrite Hother in Hp by done. rewrite Hdirs in Hp.
  destruct Hp as [Hp|Hp]; [by left|].
  apply elem_of_union in Hp as [[Hp|Hp]%elem_of_union|Hp]; [| |by right].
  { apply elem_of_singleton in Hp. subst p. by rewrite entry_of_self in He. }
  apply elem_of_list_to_set in Hp. by rewrite (entry_of_ancestor _ _ Hp) in He.
Qed.

(** The model file of a save is among the model files afterwards. *)
Lemma save_trained_model_model_file
    results best_model_name scaler imputer feature_names model_dir s out s' :
  save_trained_model results best_model_name scaler imputer feature_names model_dir s
  = (Ok out, s') ->
  saved_model_name (now s) ∈ model_files model_dir s'.
Proof.
  intros Hsave.
  destruct (save_trained_model_files _ _ _ _ _ _ _ _ _ Hsave)
    as (r0 & md0 & _ & _ & Hdir & Hm & _).
  apply elem_of_model_files. split_and!; [done|done|].
  exists (model_path model_dir (strftime (now s))). split; [left; eauto|].
  rewrite model_path_entry. apply entry_of_file; [apply saved_model_name_no_slash|done].
Qed.

(** X19. Right after a save into a directory that only saves wrote to, the
    listing names the model file just written, and reports its metadata
    as not found, like that of every earlier model, although the save
    wrote the metadata file. *)
Theorem saved_model_listed_without_metadata
    (results : list (string * train_result)) (best_model_name : string)
    (scaler imputer : pyobj) (feature_names : list string) (model_dir : string)
    (s : state) (out : json) (s' : state) (printed : list line) :
  save_trained_model results best_model_name scaler imputer feature_names model_dir s
  = (Ok out, s') ->
  written_by_saves model_dir s ->
  ∃ names,
    list_saved_models model_dir (s', printed)
    = (Ok tt,
       (s', app printed (ListingTitle :: ListingRule :: map MetadataNotFound names)))
    ∧ saved_model_name (now s) ∈ names
    ∧ is_Some (files s' !! metadata_path model_dir (strftime (now s))).
Proof.
  intros Hsave Hw.
  pose proof (save_trained_model_written_by_saves _ _ _ _ _ _ _ _ _ Hsave Hw) as Hw'.
  pose proof (save_trained_model_model_file _ _ _ _ _ _ _ _ _ Hsave) as Hnew.
  destruct (save_trained_model_files _ _ _ _ _ _ _ _ _ Hsave)
    as (r0 & md0 & _ & _ & Hdir & _ & _ & _ & Hmd).
  simpl in Hmd.
  assert (Hdir' : model_dir ∈ dirs s') by done.
  destruct (listdir_model_files model_dir s' Hdir') as (entries & Hl & Hm).
  assert (Hex : path_exists s' model_dir = true).
  { unfold path_exists. by rewrite bool_decide_eq_true_2. }
  assert (Hall : Forall (fun f => ∃ d, f = saved_model_name d)
                   (sorted (model_files model_dir s'))).
  { apply Forall_forall. intros f Hf. apply (proj1 (elem_of_sorted _ _)) in Hf.
    exact (model_files_saved model_dir s' f Hw' Hf). }
  exists (sorted (model_files model_dir s')).
  split; [|split; [by apply elem_of_sorted|by rewrite Hmd]].
  rewrite Hm in *. clear Hm.
  unfold list_saved_models, world. unfold_monad. cbn [fst snd].
  rewrite Hex. cbn [fst snd negb]. rewrite Hl. cbn [fst snd].
  revert Hall Hnew.
  generalize (List.filter (fun f => startswith f "water_quality_model_") entries).
  intros fs Hall Hnew. destruct fs as [|f fs]; [by apply elem_of_nil in Hnew|].
  unfold print at 1 2. unfold_monad. cbn [fst snd].
  rewrite (for_each_saved model_dir s' _ _ Hdir' Hw' Hall).
  by rewrite <- !app_assoc.
Qed.

Lemma prints_only_ret {A} (a : A) : prints_only (@ret console A a).
Proof. intros [s out]. exists []. simpl. by rewrite app_nil_r. Qed.

Lemma prints_only_raise {A} e : prints_only (@raise console A e).
Proof. intros [s out]. exists []. simpl. by rewrite app_nil_r. Qed.

Lemma prints_only_lift {A} (r : result A) : prints_only (@lift console A r).
Proof. intros [s out]. exists []. simpl. by rewrite app_nil_r. Qed.

Lemma prints_only_get : prints_only (@get console).
Proof. intros [s out]. exists []. simpl. by rewrite app_nil_r. Qed.

Lemma prints_only_print l : prints_only (print l).
Proof. intros c. by exists [l]. Qed.

Lemma prints_only_world {A} (m : M state A) : reads_only m -> prints_only (world m).
Proof.
  intros Hm c. exists []. unfold world. simpl. by rewrite Hm, app_nil_r.
Qed.

Lemma prints_only_bind {A B} (m : M console A) (k : A -> M console B) :
  prints_only m -> (∀ a, prints_only (k a)) -> prints_only (bind m k).
Proof.
  intros Hm Hk c. unfold bind. destruct (Hm c) as [p1 H1].
  destruct (m c) as [[a|e] c1]; simpl in *; [|by exists p1].
  destruct (Hk a c1) as [p2 H2]. exists (app p1 p2).
  rewrite H2, H1. simpl. by rewrite app_assoc.
Qed.

Lemma prints_only_dispatch {A} e (clauses : list (list exn_kind * (exn -> M console A))) :
  Forall (fun c => ∀ e, prints_only (c.2 e)) clauses -> prints_only (dispatch e clauses).
Proof.
  induction 1 as [|[cls h] clauses Hh _ IH]; simpl; [apply prints_only_raise|].
  destruct (existsb _ cls); [apply Hh|apply IH].
Qed.

Lemma prints_only_try_except {A} (m : M console A) clauses :
  prints_only m -> Forall (fun c => ∀ e, prints_only (c.2 e)) clauses ->
  prints_only (try_except m clauses).
Proof.
  intros Hm Hc c. unfold try_except. destruct (Hm c) as [p1 H1].
  destruct (m c) as [[a|e] c1]; simpl in *; [by exists p1|].
  destruct (prints_only_dispatch e clauses Hc c1) as [p2 H2]. exists (app p1 p2).
  rewrite H2, H1. simpl. by rewrite app_assoc.
Qed.

Lemma prints_only_for_each {A} (xs : list A) body :
  (∀ x, prints_only (body x)) -> prints_only (for_each xs body).
Proof.
  intros Hb. induction xs as [|x xs IH]; simpl; [apply prints_only_ret|].
  apply prints_only_bind; [apply Hb|done].
Qed.

Ltac prints :=
  repeat first
    [ apply prints_only_ret | apply prints_only_raise | apply prints_only_lift
    | apply prints_only_get | apply prints_only_print
    | apply prints_only_bind; [|intros]
    | apply prints_only_try_except; [|repeat constructor; simpl; intros]
    | match goal with
      | |- prints_only (if ?b then _ else _) => destruct b
      | |- prints_only (match ?x with _ => _ end) => destruct x
      end ].

Lemma list_entry_prints dir f : prints_only (list_entry dir f).
Proof.
  unfold list_entry. apply prints_only_bind; [apply prints_only_lift|]. intros last.
  apply prints_only_try_except; [|repeat constructor; simpl; intros; apply prints_only_print].
  apply prints_only_bind; [apply prints_only_world, json_load_reads|]. intros md.
  prints.
Qed.

Lemma list_saved_models_prints dir : prints_only (list_saved_models dir).
Proof.
  unfold list_saved_models. apply prints_only_bind; [apply prints_only_get|].
  intros c. destruct (negb _); [apply prints_only_print|].
  apply prints_only_bind; [apply prints_only_world, listdir_reads|]. intros entries.
  destruct (List.filter _ entries); [apply prints_only_print|].
  apply prints_only_bind; [apply prints_only_print|]. intros _.
  apply prints_only_bind; [apply prints_only_print|]. intros _.
  apply prints_only_for_each, list_entry_prints.
Qed.

(** X20. Whatever is on the disk, listing only prints: the world is left as
    it was and the lines printed before stay in front, also when the
    listing stops with an exception.  A missing directory is not an
    error here: the function says so and returns. *)
Theorem list_saved_models_only_prints (dir : string) (s : state) (out : list line) :
  (∃ printed, (list_saved_models dir (s, out)).2 = (s, app out printed))
  ∧ (path_exists s dir = false ->
     list_saved_models dir (s, out) = (Ok tt, (s, app out [DirectoryNotFound dir]))).
Proof.
  split; [apply (list_saved_models_prints dir (s, out))|].
  intros Hex. unfold list_saved_models. unfold_monad. cbn [fst snd].
  by rewrite Hex.
Qed.

End ListingOfModels.

(** ** The rule-based check *)

Section Rules.
Import Download Predict Main Train Endpoints RuleCheck Spec Frame.
Context `{Runtime}.

Lemma rule_check_eq x :
  rule_check x
  = (float_le (Fin (13 # 2)) (ph x) && float_le (ph x) (Fin (17 # 2)))
    && negb (float_gt (hardness x) (of_int 200))
    && negb (float_gt (solids x) (of_int 500))
    && negb (float_gt (chloramines x) (of_int 4))
    && negb (float_gt (sulfate x) (of_int 250))
    && negb (float_gt (conductivity x) (of_int 500))
    && negb (float_gt (organic_carbon x) (of_int 10))
    && negb (float_gt (trihalomethanes x) (of_int 80))
    && negb (float_gt (turbidity x) (of_int 5)).
Proof.
  unfold rule_check.
  destruct (float_le (Fin (13 # 2)) (ph x) && float_le (ph x) (Fin (17 # 2)));
    destruct (float_gt (hardness x) (of_int 200));
    destruct (float_gt (solids x) (of_int 500));
    destruct (float_gt (chloramines x) (of_int 4));
    destruct (float_gt (sulfate x) (of_int 250));
    destruct (float_gt (conductivity x) (of_int 500));
    destruct (float_gt (organic_carbon x) (of_int 10));
    destruct (float_gt (trihalomethanes x) (of_int 80));
    destruct (float_gt (turbidity x) (of_int 5)); reflexivity.
Qed.

(** A non-negative reading that does not exceed a threshold lies in
    every range that starts at zero and ends at or after the threshold. *)
Lemma below_threshold_within v t hi :
  float_le (of_int 0) v = true -> float_gt v (of_int t) = false -> (t <= hi)%Z ->
  within 0 hi v = true.
Proof.
  unfold within. intros H0 Ht Hhi. rewrite H0. simpl.
  destruct v as [q| | |]; simpl in *; try done.
  apply negb_false_iff, Qle_bool_iff in Ht. apply Qle_bool_iff.
  eapply Qle_trans; [exact Ht|]. by rewrite <- Zle_Qle.
Qed.

Lemma ph_within v :
  float_le (Fin (13 # 2)) v = true ∧ float_le v (Fin (17 # 2)) = true ->
  within 0 14 v = true.
Proof.
  unfold within. intros [Hlo Hhi].
  destruct v as [q| | |]; simpl in *; try done.
  apply Qle_bool_iff in Hlo, Hhi. apply andb_true_iff.
  split; apply Qle_bool_iff.
  - eapply Qle_trans; [|exact Hlo]. done.
  - eapply Qle_trans; [exact Hhi|]. done.
Qed.

Lemma rule_check_in_ranges x :
  rule_check x = true ->
  Forall (fun v => float_le (of_int 0) v = true) (feature_row x) ->
  validate_input_parameters x = Ok (true, []).
Proof.
  rewrite rule_check_eq, !andb_true_iff, !negb_true_iff.
  intros ((((((((Hph & Hha) & Hso) & Hch) & Hsu) & Hco) & Hoc) & Htr) & Htu) Hpos.
  unfold feature_row in Hpos.
  repeat match goal with
         | Hpos : Forall _ (_ :: _) |- _ =>
             let Hv := fresh "Hv" in apply Forall_cons in Hpos as [Hv Hpos]
         end.
  assert (Hall : all_in_range x).
  { unfold all_in_range, documented.
    repeat (apply Forall_cons; split; [apply within_in_range|]); [..|done].
    - by apply ph_within.
    - by apply (below_threshold_within _ 200).
    - by apply (below_threshold_within _ 500).
    - by apply (below_threshold_within _ 4).
    - by apply (below_threshold_within _ 250).
    - by apply (below_threshold_within _ 500).
    - by apply (below_threshold_within _ 10).
    - by apply (below_threshold_within _ 80).
    - by apply (below_threshold_within _ 5). }
  rewrite validate_input_parameters_eq. f_equal. f_equal.
  - by apply bool_decide_eq_true_2.
  - unfold violations. apply no_violations_iff in Hall. by rewrite Hall.
Qed.

(** Reading the nine values: either they are the first nine lines, each
    parsed by [float], or the input ran out or a line did not parse. *)
Lemma read_sample_cases (stdin : list string) :
  (∃ x, read_sample stdin = (Ok x, drop 9 stdin)
        ∧ Forall2 (fun l f => float_of_str l = Some f) (take 9 stdin) (feature_row x)
        ∧ 9 <= length stdin)
  ∨ (∃ e rest, read_sample stdin = (Err e, rest)
               ∧ (length stdin < 9
                  ∨ ∃ l, l ∈ take 9 stdin ∧ float_of_str l = None)).
Proof.
  unfold read_sample, read_float. unfold_monad.
  do 9 (destruct stdin as [|? stdin];
        [right; eexists _, _; split; [reflexivity|left; simpl; lia]|];
        cbn [py_float];
        match goal with
        | |- context [float_of_str ?l] =>
            destruct (float_of_str l) eqn:?;
            [|right; eexists _, _; split;
              [reflexivity|right; exists l; split; [solve [repeat constructor]|done]]]
        end).
  left. eexists. split; [reflexivity|]. split.
  - unfold feature_row. simpl. repeat (constructor; [done|]). constructor.
  - simpl. lia.
Qed.

(** X21. The script never fails.  It says "Invalid input" exactly when fewer
    than nine lines can be read or one of the first nine is not a
    number for [float]; otherwise the verdict is that of the rules on
    the nine values, and whenever it is POTABLE for readings each of
    which is a number at least 0 (which NaN is not: the rules let a NaN
    pass in every place but the pH), [validate_input_parameters] of the
    service finds all nine within their documented ranges. *)
Theorem check_water_quality_verdict (stdin : list string) :
  ∃ v rest,
    check_water_quality stdin = (Ok v, rest)
    ∧ (v = InvalidInput
       ↔ length stdin < 9 ∨ ∃ l, l ∈ take 9 stdin ∧ float_of_str l = None)
    ∧ (v = Potable ->
       ∃ x, Forall2 (fun l f => float_of_str l = Some f) (take 9 stdin) (feature_row x)
            ∧ rule_check x = true
            ∧ (Forall (fun v => float_le (of_int 0) v = true) (feature_row x) ->
               validate_input_parameters x = Ok (true, []))).
Proof.
  unfold check_water_quality, try_except. unfold_monad.
  destruct (read_sample_cases stdin)
    as [(x & -> & Hparsed & Hlen)|(e & rest & -> & Hbad)].
  - cbn. eexists _, _. split; [reflexivity|]. split.
    + split; [by destruct (rule_check x)|]. intros [Hshort|(l & Hl & Hnone)]; [lia|].
      exfalso. clear Hlen. induction Hparsed as [|l' f ls fs Hf _ IH].
      * by apply elem_of_nil in Hl.
      * apply elem_of_cons in Hl as [->|Hl]; [congruence|by apply IH].
    + destruct (rule_check x) eqn:Hsafe; [|done]. intros _. exists x.
      split; [done|]. split; [done|]. by apply rule_check_in_ranges.
  - destruct e as [cls msg].
    destruct cls; cbn; (eexists _, _; split; [reflexivity|]; split; done).
Qed.

End Rules.

(** ** How often a request classifies *)

Section Twice.
Import Download Predict Main Train Endpoints Spec Frame.
Context `{Runtime}.

(** The estimator calls of a prediction that returns are the same from
    every state. *)
Lemma predict_with_saved_model_trace mc x label probability :
  classified mc x label probability ->
  ∃ calls,
    pipeline_calls mc x calls ∧ length calls = 4%nat
    ∧ ∀ s, predict_with_saved_model mc x s = (Ok (label, probability), after s calls).
Proof.
  intros (names & df & imputed & scaled & labels & Hn & Hdf & Hi & Hs & Hp & Hl & Hq).
  exists [ImputerTransform df; ScalerTransform imputed; ModelPredict scaled;
          ModelPredictProba scaled].
  split; [by eapply (calls_predict _ _ _ _ _ _ true)|]. split; [done|]. intros s.
  unfold predict_with_saved_model. unfold_monad. unfold feature_row in Hdf.
  rewrite Hn; simpl. rewrite Hdf; simpl. rewrite Hi; simpl. rewrite Hs; simpl.
  rewrite Hp; simpl. unfold index.
  destruct probability as [p|].
  - destruct Hq as (probs & Hq & Hp0). rewrite Hq; simpl. rewrite Hl; simpl.
    rewrite Hp0; simpl. f_equal. trace_eq.
  - destruct Hq as ([cls msg] & Hq & Hcls). simpl in Hcls. subst cls.
    rewrite Hq; simpl. rewrite Hl; simpl. f_equal. trace_eq.
Qed.

Lemma predictWaterQuality_trace mc x label probability calls s :
  (∀ s, predict_with_saved_model mc x s = (Ok (label, probability), after s calls)) ->
  _model_components s = Some mc ->
  predictWaterQuality x s
  = (Ok (label, probability), after s (PredictWaterQuality x :: calls)).
Proof.
  intros Hrun Hmc. unfold predictWaterQuality, load_model. unfold_monad. simpl.
  rewrite Hmc. simpl. rewrite Hrun. f_equal. trace_eq.
Qed.

(** X22. A served request classifies its sample twice.  The handler calls
    [predictWaterQuality] and then [get_water_quality_prediction], which
    calls [predictWaterQuality] again: after [get_json] and the
    validation, the imputer, the scaler and the classifier ([predict],
    then [predict_proba]) are each called on the same inputs two times
    over, and nothing else is called. *)
Theorem served_request_classifies_twice
    (req : request) (s : state) (mc : components)
    (items : list (string * json)) (x : sample) (label : Z) (p : list pyfloat) :
  serving s mc ->
  get_json req = Ok (JObj items) ->
  numeric_body items x ->
  classified mc x label (Some p) ->
  2 <= length p ->
  ∃ body calls,
    predict_water_quality req s
    = (Ok (body, 200%Z),
       after s (GetJson :: ValidateInput x
                :: app (PredictWaterQuality x :: calls) (PredictWaterQuality x :: calls)))
    ∧ pipeline_calls mc x calls
    ∧ length calls = 4%nat.
Proof.
  intros [Hloaded Hmc] Hjson Hbody Hc Hlen.
  destruct (numeric_body_present items x Hbody) as [Hmiss Htruthy].
  destruct (predict_with_saved_model_trace mc x label (Some p) Hc)
    as (calls & Hcalls & Hfour & Hrun).
  pose (s1 := record_event (ValidateInput x) (record_event GetJson s)).
  pose proof (predictWaterQuality_trace mc x label (Some p) calls s1 Hrun Hmc) as Hrun1.
  pose proof (predictWaterQuality_trace mc x label (Some p) calls
                (after s1 (PredictWaterQuality x :: calls)) Hrun Hmc) as Hrun2.
  destruct p as [|p0 [|p1 p']]; simpl in Hlen; try lia.
  eexists _, calls. split; [|done].
  unfold predict_water_quality, get_water_quality_prediction. unfold_monad.
  rewrite Hloaded. cbn.
  rewrite Hjson. cbn. rewrite Htruthy. cbn.
  rewrite missing_in_object. fold (missing_names items). rewrite Hmiss. cbn.
  rewrite (extract_parameters_numeric items x _ Hbody). cbn.
  rewrite validate_input_parameters_eq. cbn.
  fold s1. rewrite Hrun1. cbn. rewrite Hrun2. cbn.
  subst s1. rewrite !record_event_after.
  rewrite !after_after. reflexivity.
Qed.

End Twice.

(** * The further properties on concrete inputs *)

Section EmptyDisk.
Import Download Predict Main Train Endpoints Listing Spec Frame.

Lemma no_newer_model_empty dir s t :
  files s = ∅ -> dirs s = ∅ -> no_newer_model dir s t.
Proof.
  intros Hf Hd p f [Hp|Hp] _ _.
  - rewrite Hf, lookup_empty in Hp. by destruct Hp.
  - rewrite Hd in Hp. by apply elem_of_empty in Hp.
Qed.

Lemma written_by_saves_empty dir s :
  files s = ∅ -> dirs s = ∅ -> written_by_saves dir s.
Proof.
  intros Hf Hd p f [Hp|Hp] _.
  - rewrite Hf, lookup_empty in Hp. by destruct Hp.
  - rewrite Hd in Hp. by apply elem_of_empty in Hp.
Qed.

End EmptyDisk.

Section MoreInstances.
Import Download Predict Main Train Endpoints Listing Spec Frame.
#[local] Existing Instance Demo.runtime.
#[local] Existing Instance Demo.learner.

Lemma model_loaded_implies_cached_witness :
  cache_ok Demo.started
  ∧ cache_ok (predict_water_quality (Demo.post (Demo.body (JInt 7))) Demo.started).2.
Proof.
  assert (H0 : cache_ok Demo.started) by (intros _; simpl; eauto).
  split; [exact H0|].
  destruct (model_loaded_implies_cached (Demo.post (Demo.body (JInt 7))) Demo.started)
    as (_ & _ & _ & _ & Hc).
  exact (Hc H0).
Defined.

Lemma load_trained_model_not_found_witness :
  load_trained_model "saved_models" None Demo.not_started
  = (Err (Raise FileNotFoundError "Model directory 'saved_models' not found"),
     Demo.not_started)
  ∧ load_trained_model "saved_models" None Samples.empty_dir
    = (Err (Raise FileNotFoundError "No saved models found"), Samples.empty_dir)
  ∧ ∃ e, load_trained_model "saved_models" (Some "20250115_103000") Samples.empty_dir
         = (Err e, Samples.empty_dir)
         ∧ exn_class e = FileNotFoundError
         ∧ startswith (exn_msg e) "Required model file not found: " = true.
Proof.
  split; [|split].
  - destruct (load_trained_model_not_found "saved_models" Demo.not_started)
      as (Hdir & _ & _).
    apply Hdir. vm_compute. reflexivity.
  - destruct (load_trained_model_not_found "saved_models" Samples.empty_dir)
      as (_ & Hnone & _).
    apply Hnone; [apply (bool_decide_unpack _); vm_compute; exact I|vm_compute; reflexivity].
  - destruct (load_trained_model_not_found "saved_models" Samples.empty_dir)
      as (_ & _ & Hfile).
    apply Hfile.
    + apply (bool_decide_unpack _). vm_compute. exact I.
    + by repeat split.
    + split; [apply (bool_decide_unpack _)|]; vm_compute; exact I.
    + split; [apply (bool_decide_unpack _)|]; vm_compute; exact I.
    + split; [apply (bool_decide_unpack _)|]; vm_compute; exact I.
    + split; [apply (bool_decide_unpack _)|]; vm_compute; exact I.
    + left. vm_compute. reflexivity.
Defined.


Lemma save_trained_model_unknown_best_witness :
  ∃ s',
    save_trained_model Demo.one_result "SVM" (Demo.passthrough "StandardScaler")
      (Demo.passthrough "SimpleImputer") required_params "models/v1" Demo.not_started
    = (Err (Raise KeyError "SVM"), s')
    ∧ files s' = files Demo.not_started
    ∧ dirs s'
      = {["models/v1"]} ∪ list_to_set (ancestors "models/v1") ∪ dirs Demo.not_started.
Proof.
  apply (save_trained_model_unknown_best Demo.one_result "SVM"
           (Demo.passthrough "StandardScaler") (Demo.passthrough "SimpleImputer")
           required_params "models/v1" Demo.not_started).
  - unfold normal_path. cbn. repeat first [discriminate | constructor].
  - reflexivity.
  - vm_compute. reflexivity.
Defined.

Lemma two_saves_keep_both_witness :
  ∃ r1 md1 r2 md2,
    assoc "Random Forest" Demo.one_result = Some r1
    ∧ assoc "Random Forest" Demo.one_result = Some r2
    ∧ load_trained_model "saved_models" (Some (strftime (now Demo.not_started)))
        Samples.second_run.2
      = (Ok (Components (tr_model r1) (Demo.passthrough "StandardScaler")
               (Demo.passthrough "SimpleImputer") md1), Samples.second_run.2)
    ∧ is_metadata_of md1 "Random Forest" r1 required_params
    ∧ load_trained_model "saved_models" (Some (strftime Demo.later)) Samples.second_run.2
      = (Ok (Components (tr_model r2) (Demo.passthrough "StandardScaler")
               (Demo.passthrough "SimpleImputer") md2), Samples.second_run.2)
    ∧ is_metadata_of md2 "Random Forest" r2 required_params.
Proof.
  apply (two_saves_keep_both Demo.one_result Demo.one_result
           "Random Forest" "Random Forest"
           (Demo.passthrough "StandardScaler") (Demo.passthrough "SimpleImputer")
           (Demo.passthrough "StandardScaler") (Demo.passthrough "SimpleImputer")
           required_params required_params "saved_models" Demo.later
           Demo.not_started (Demo.value_of JNull Demo.save_run.1) Demo.save_run.2
           (Demo.value_of JNull Samples.second_run.1)).
  - vm_compute. reflexivity.
  - vm_compute. reflexivity.
  - repeat split; simpl; lia.
  - repeat split; simpl; lia.
  - discriminate.
Defined.

Lemma save_then_load_without_timestamp_witness :
  ∃ r md,
    assoc "Random Forest" Demo.one_result = Some r
    ∧ load_trained_model "saved_models" None Demo.save_run.2
      = (Ok (Components (tr_model r) (Demo.passthrough "StandardScaler")
               (Demo.passthrough "SimpleImputer") md), Demo.save_run.2)
    ∧ is_metadata_of md "Random Forest" r required_params.
Proof.
  apply (save_then_load_without_timestamp Demo.one_result "Random Forest"
           (Demo.passthrough "StandardScaler") (Demo.passthrough "SimpleImputer")
           required_params "saved_models" Demo.not_started
           (Demo.value_of JNull Demo.save_run.1)).
  - vm_compute. reflexivity.
  - by apply no_newer_model_empty.
Defined.

Lemma trained_model_is_served_witness :
  ∃ results best r md body,
    train_loop models [] = Ok results
    ∧ find_best results = Ok best
    ∧ assoc best results = Some r
    ∧ (initialize_model Demo.train_run.2).1 = Ok tt
    ∧ serving (initialize_model Demo.train_run.2).2
        (Components (tr_model r) fitted_scaler fitted_imputer md)
    ∧ files (initialize_model Demo.train_run.2).2 = files Demo.train_run.2
    ∧ (model_info (initialize_model Demo.train_run.2).2).1 = Ok (body, 200%Z)
    ∧ at_path body ["model_name"] = Some (JStr best)
    ∧ at_path body ["accuracy"] = Some (JFloat (tr_accuracy r)).
Proof.
  apply (trained_model_is_served Demo.not_started
           (Demo.value_of JNull Demo.train_run.1)).
  - vm_compute. reflexivity.
  - reflexivity.
  - by apply no_newer_model_empty.
Defined.

Lemma running_server_keeps_its_model_witness :
  serving Samples.save_while_serving.2 (Demo.loaded Demo.forest)
  ∧ load_model Samples.save_while_serving.2
    = (Ok (Demo.loaded Demo.forest), Samples.save_while_serving.2)
  ∧ ∃ r md, assoc "Random Forest" Demo.one_result = Some r
      ∧ load_trained_model "saved_models" (Some (strftime (now Demo.started)))
          Samples.save_while_serving.2
        = (Ok (Components (tr_model r) (Demo.passthrough "StandardScaler")
                 (Demo.passthrough "SimpleImputer") md), Samples.save_while_serving.2)
      ∧ load_trained_model "saved_models" None Samples.save_while_serving.2
        = (Ok (Components (tr_model r) (Demo.passthrough "StandardScaler")
                 (Demo.passthrough "SimpleImputer") md), Samples.save_while_serving.2).
Proof.
  destruct (running_server_keeps_its_model Demo.one_result "Random Forest"
              (Demo.passthrough "StandardScaler") (Demo.passthrough "SimpleImputer")
              required_params Demo.started (Demo.loaded Demo.forest)
              (Demo.value_of JNull Samples.save_while_serving.1)
              Samples.save_while_serving.2)
    as (Hserving & Hcached & r & md & Hr & Hstamp & Hlatest).
  - by split.
  - vm_compute. reflexivity.
  - split; [exact Hserving|]. split; [exact Hcached|].
    exists r, md. split; [exact Hr|]. split; [exact Hstamp|].
    apply Hlatest. by apply no_newer_model_empty.
Defined.

Lemma find_best_first_maximum_witness :
  ∃ best r pre post,
    find_best Samples.tied = Ok best
    ∧ assoc best Samples.tied = Some r
    ∧ map fst Samples.tied = app pre (best :: post)
    ∧ (∀ k, k ∈ pre ->
         ∃ r', assoc k Samples.tied = Some r'
               ∧ accuracy_lt (tr_accuracy r') (tr_accuracy r))
    ∧ (∀ k, k ∈ post ->
         ∃ r', assoc k Samples.tied = Some r'
               ∧ accuracy_le (tr_accuracy r') (tr_accuracy r)).
Proof.
  apply (find_best_first_maximum Samples.tied); [discriminate|].
  repeat constructor; simpl; eauto.
Defined.

Lemma predict_water_quality_unusable_body_witness :
  predict_water_quality (Request (Ok (JObj []))) Demo.started
  = (Ok no_input_data, after Demo.started [GetJson])
  ∧ predict_water_quality (Request (Err (Raise Exception "400 Bad Request"))) Demo.started
    = (Ok (prediction_failed (Raise Exception "400 Bad Request")),
       after Demo.started [GetJson]).
Proof.
  split.
  - exact (predict_water_quality_unusable_body (Request (Ok (JObj []))) Demo.started
             eq_refl eq_refl).
  - exact (predict_water_quality_unusable_body
             (Request (Err (Raise Exception "400 Bad Request"))) Demo.started eq_refl).
Defined.

Lemma predict_water_quality_non_object_witness :
  ∃ body code,
    predict_water_quality (Request (Ok (JArr (map JStr required_params)))) Demo.started
    = (Ok (body, code), after Demo.started [GetJson])
    ∧ (code = 400%Z ∨ code = 500%Z).
Proof.
  apply (predict_water_quality_non_object
           (Request (Ok (JArr (map JStr required_params)))) Demo.started
           (JArr (map JStr required_params))); [reflexivity|reflexivity|discriminate].
Defined.

Lemma predict_water_quality_overflow_witness :
  predict_water_quality (Demo.post (Demo.body (JInt Samples.huge))) Demo.started
  = (Ok (prediction_failed
           (Raise OverflowError "int too large to convert to float")),
     after Demo.started [GetJson]).
Proof.
  apply (predict_water_quality_overflow
           (Demo.post (Demo.body (JInt Samples.huge))) Demo.started
           (Demo.body (JInt Samples.huge))); [reflexivity|reflexivity| |].
  - intros name Hin. unfold required_params in Hin. set_unfold in Hin.
    destruct_or!; subst name; (eexists; split; [reflexivity|]);
      try (left; reflexivity).
    right. exists Samples.huge. split; [reflexivity|]. vm_compute. discriminate.
  - exists "ph", (JInt Samples.huge). split; [left|]. split; [reflexivity|].
    exists Samples.huge. split; [reflexivity|]. vm_compute. discriminate.
Defined.

Lemma list_saved_models_misses_metadata_witness :
  list_saved_models "saved_models" (Demo.save_run.2, [])
  = (Ok tt,
     (Demo.save_run.2,
      [ ListingTitle; ListingRule;
        MetadataNotFound "water_quality_model_20250115_103000.pkl" ])).
Proof.
  assert (Hrun : save_trained_model Demo.one_result "Random Forest"
                   (Demo.passthrough "StandardScaler") (Demo.passthrough "SimpleImputer")
                   required_params "saved_models" Demo.not_started
                 = (Ok (Demo.value_of JNull Demo.save_run.1), Demo.save_run.2))
    by (vm_compute; reflexivity).
  rewrite (list_saved_models_misses_metadata "saved_models" Demo.save_run.2 []).
  - vm_compute. reflexivity.
  - apply (bool_decide_unpack _). vm_compute. exact I.
  - eapply save_trained_model_written_by_saves; [exact Hrun|].
    by apply written_by_saves_empty.
Defined.

Lemma saved_model_listed_without_metadata_witness :
  ∃ names,
    list_saved_models "saved_models" (Demo.save_run.2, [])
    = (Ok tt,
       (Demo.save_run.2,
        app [] (ListingTitle :: ListingRule :: map MetadataNotFound names)))
    ∧ saved_model_name (now Demo.not_started) ∈ names
    ∧ is_Some (files Demo.save_run.2
                 !! metadata_path "saved_models" (strftime (now Demo.not_started))).
Proof.
  apply (saved_model_listed_without_metadata Demo.one_result "Random Forest"
           (Demo.passthrough "StandardScaler") (Demo.passthrough "SimpleImputer")
           required_params "saved_models" Demo.not_started
           (Demo.value_of JNull Demo.save_run.1)).
  - vm_compute. reflexivity.
  - by apply written_by_saves_empty.
Defined.

Lemma list_saved_models_only_prints_witness :
  list_saved_models "saved_models" (Demo.not_started, [])
  = (Ok tt, (Demo.not_started, [DirectoryNotFound "saved_models"])).
Proof.
  destruct (list_saved_models_only_prints "saved_models" Demo.not_started [])
    as [_ Hmissing].
  apply Hmissing. vm_compute. reflexivity.
Defined.

Lemma served_request_classifies_twice_witness :
  ∃ body calls,
    predict_water_quality (Demo.post (Demo.body (JInt 7))) Demo.started
    = (Ok (body, 200%Z),
       after Demo.started
         (GetJson :: ValidateInput (Demo.a_sample 7)
          :: app (PredictWaterQuality (Demo.a_sample 7) :: calls)
                 (PredictWaterQuality (Demo.a_sample 7) :: calls)))
    ∧ pipeline_calls (Demo.loaded Demo.forest) (Demo.a_sample 7) calls
    ∧ length calls = 4%nat.
Proof.
  apply (served_request_classifies_twice
           (Demo.post (Demo.body (JInt 7))) Demo.started (Demo.loaded Demo.forest)
           (Demo.body (JInt 7)) (Demo.a_sample 7) 1%Z [Fin (1 # 4); Fin (3 # 4)]).
  - by split.
  - reflexivity.
  - unfold numeric_body, required_params, feature_row.
    repeat (apply List.Forall2_cons;
            [eexists; split; [reflexivity | vm_compute; reflexivity]|]).
    apply List.Forall2_nil.
  - eexists _, _, _, _, _; split_and!; try reflexivity.
    exists [[Fin (1 # 4); Fin (3 # 4)]]. split; reflexivity.
  - simpl. lia.
Defined.

End MoreInstances.

Section RuleInstances.
Import Download Predict Main Train Endpoints RuleCheck Spec Frame.
#[local] Existing Instance Samples.runtime.

Lemma check_water_quality_verdict_witness :
  check_water_quality Samples.potable_lines = (Ok Potable, [])
  ∧ (∃ x, Forall2 (fun l f => float_of_str l = Some f)
            (take 9 Samples.potable_lines) (feature_row x)
          ∧ RuleCheck.rule_check x = true
          ∧ validate_input_parameters x = Ok (true, []))
  ∧ (check_water_quality Samples.broken_lines).1 = Ok InvalidInput.
Proof.
  split; [vm_compute; reflexivity|]. split.
  - destruct (check_water_quality_verdict Samples.potable_lines)
      as (v & rest & Hrun & _ & Hpotable).
    assert (Hv : v = Potable).
    { assert (E : check_water_quality Samples.potable_lines = (Ok Potable, []))
        by (vm_compute; reflexivity).
      rewrite E in Hrun. by injection Hrun as <- _. }
    destruct (Hpotable Hv) as (x & Hparsed & Hsafe & Hvalid).
    exists x. split; [exact Hparsed|]. split; [exact Hsafe|]. apply Hvalid.
    unfold feature_row in *. simpl in Hparsed.
    repeat match goal with
           | H : Forall2 _ (_ :: _) (_ :: _) |- _ =>
               apply Forall2_cons in H as [? H]
           end.
    repeat (constructor;
            [match goal with
             | H : _ = Some ?v |- float_le _ ?v = true =>
                 match type of H with
                 | ?parsed = _ =>
                     let r := eval vm_compute in parsed in change parsed with r in H
                 end;
                 injection H as H; rewrite <- H; vm_compute; reflexivity
             end|]).
    constructor.
  - destruct (check_water_quality_verdict Samples.broken_lines)
      as (v & rest & Hrun & Hinvalid & _).
    rewrite Hrun. simpl. f_equal. apply Hinvalid. right.
    exists "n/a". split; [simpl; repeat constructor|vm_compute; reflexivity].
Defined.

End RuleInstances.

Section PipelineInstances.
Import Download Predict Main Train Endpoints Spec Frame.
#[local] Existing Instance Demo.runtime.

Lemma predict_with_saved_model_order_witness :
  (predict_with_saved_model (Demo.loaded Demo.forest) (Demo.a_sample 7) Demo.started).1
  = Ok (1%Z, Some [Fin (1 # 4); Fin (3 # 4)])
  ∧ (predict_with_saved_model (Demo.loaded Demo.forest) (Demo.a_sample 7) Demo.started).2
    = after Demo.started
        [ ImputerTransform
            (DataFrame (JArr (map JStr required_params)) [feature_row (Demo.a_sample 7)]);
          ScalerTransform (NdArray [feature_row (Demo.a_sample 7)]);
          ModelPredict (NdArray [feature_row (Demo.a_sample 7)]);
          ModelPredictProba (NdArray [feature_row (Demo.a_sample 7)]) ].
Proof.
  destruct (predict_with_saved_model_order (Demo.loaded Demo.forest) (Demo.a_sample 7)
              Demo.started) as (Htrace & _ & _ & Hlabel).
  split.
  - apply Hlabel. eexists _, _, _, _, _; split_and!; try reflexivity.
    exists [[Fin (1 # 4); Fin (3 # 4)]]. split; reflexivity.
  - rewrite Htrace. f_equal.
Defined.

End PipelineInstances.

Section SvmInstances.
Import Download Predict Main Train Endpoints Spec Frame.
#[local] Existing Instance Demo.runtime.
#[local] Existing Instance Samples.svm_learner.

Lemma train_script_stops_before_saving_witness :
  find_best Samples.svm_results = Ok "SVM"
  ∧ assoc "SVM" Samples.svm_results = Some Samples.svm_best
  ∧ Samples.svm_run
    = (Err (Raise AttributeError "object has no attribute 'predict_proba'"),
       Demo.not_started)
  ∧ trained "SVM" Samples.svm_best
  ∧ (∀ m r', assoc m Samples.svm_results = Some r' ->
        accuracy_le (tr_accuracy r') (tr_accuracy Samples.svm_best)).
Proof.
  destruct (train_script_stops_before_saving Demo.not_started Samples.svm_results
              "SVM" Samples.svm_best (NdArray [feature_row example_sample]) [1%Z]
              (Raise AttributeError "object has no attribute 'predict_proba'"))
    as (Hrun & _ & Htrained & _ & Hmax).
  - vm_compute. reflexivity.
  - vm_compute. reflexivity.
  - vm_compute. reflexivity.
  - vm_compute. discriminate.
  - reflexivity.
  - vm_compute. reflexivity.
  - reflexivity.
  - split; [vm_compute; reflexivity|]. split; [vm_compute; reflexivity|].
    split; [exact Hrun|]. split; [exact Htrained|exact Hmax].
Defined.

End SvmInstances.
